(** * boostgo/storage: shard routing and ambient transactions

    A shallow embedding of the Go packages [storage], [storage/sql] and
    [storage/redis]: the context-scoped transaction slot, the shard set
    with its selector, the delegating clients, the single-kind
    transactors, the composite transactor and the fan-out executors.

    Sources.
    - [Storage]: the composite transactor and the interfaces (transactor.go,
      src/unnamed/part_003), log.go, errors.go.
    - [Sql]: client_shard.go (its first revision, with the logger),
      ConnectShards and Connections (src/sql/errors.go, second part),
      Connect (src/unnamed/part_007), SetTx and GetTx
      (src/unnamed/part_003, second part), the transactor
      (src/unnamed/part_011).
    - [Redis]: transactor.go, connection.go and client_shard.go of
      src/redis.
    - [RedisPart001]: the revision of the key-value shard client in
      src/unnamed/part_001, with validateKey of src/redis/client.go.
    - [SqlRevision2]: the second revision of client_shard.go of src/sql,
      which validates the context first.
    - [SqlSingle]: the single client and Page (src/unnamed/part_004);
      [SqlArguments]: the query arguments (src/sql/client_shard.go, third
      part); [SqlAtomic]: Transaction and Atomic (src/unnamed/part_003);
      [SqlPart010]: the transactor of src/unnamed/part_010; [SqlClose]
      and [RedisClose]: Close of the shard sets.

    Conventions.
    - A Go [error] is [option Err]; [None] is [nil].
    - A Go [context.Context] that is not nil is a value of [Ctx]; where
      the source compares a context with nil, or hands one back that may
      be nil, the type is [option Ctx].
    - Code that talks to a driver, a logger, a callback or a child object
      runs in the monad [M]: it threads the state [W] of those
      collaborators and records every call made to them, in order.
    - Handles ([*sqlx.Tx], [*sqlx.DB], [redis.Pipeliner],
      [redis.UniversalClient]) are live objects named by a number; the
      nil pointer and the nil interface are not handles.
    - Goroutines of an errgroup act on the collaborators one at a time,
      each when it finishes; the order in which they finish is a
      parameter, and the facts about them hold for every order. *)

From Stdlib Require Import ZArith Lia Permutation.
From Stdlib Require DecimalString.
From stdpp Require Import base list strings gmap.

Set Default Proof Using "Type".
Open Scope string_scope.
Open Scope list_scope.

(** ** Effects: state of the collaborators and the trace of calls *)

Definition M (E W A : Type) : Type := W -> A * W * list E.

Section Effect.
Context {E W : Type}.

Definition ret {A} (a : A) : M E W A := fun w => (a, w, []).

Definition bind {A B} (m : M E W A) (k : A -> M E W B) : M E W B :=
  fun w =>
    let '(a, w1, t1) := m w in
    let '(b, w2, t2) := k a w1 in
    (b, w2, t1 ++ t2).

(** One call to a collaborator: its answer comes from the state, and the
    call is written to the trace. *)
Definition call {A} (e : E) (f : W -> A * W) : M E W A :=
  fun w => let '(a, w') := f w in (a, w', [e]).

(** The same, when the record of the call also keeps what it returned. *)
Definition call_with {A} (mk : A -> E) (f : W -> A * W) : M E W A :=
  fun w => let '(a, w') := f w in (a, w', [mk a]).

(** A computation seen from outside as one step of a collaborator. *)
Definition as_step {A} (m : M E W A) : W -> A * W := fun w => (m w).1.

(** A step of a collaborator that is not recorded. *)
Definition quiet {A} (f : W -> A * W) : M E W A :=
  fun w => let '(a, w') := f w in (a, w', []).

Definition value {A} (r : A * W * list E) : A := r.1.1.
Definition world {A} (r : A * W * list E) : W := r.1.2.
Definition trace {A} (r : A * W * list E) : list E := r.2.

End Effect.

Arguments value : simpl never.
Arguments world : simpl never.
Arguments trace : simpl never.

Declare Scope go_scope.
Delimit Scope go_scope with go.
Notation "'let*' x := c1 'in' c2" := (bind c1 (fun x => c2))
  (at level 10, x pattern, c1 at level 100, c2 at level 200) : go_scope.
Open Scope go_scope.

(** ** Errors *)

Inductive Err : Type :=
| ErrConnNotSelected
    (* storage.ErrConnNotSelected *)
| ErrKeyEmpty
    (* redis.ErrKeyEmpty *)
| ErrNotFound
    (* errorx.ErrNotFound *)
| RedisNil
    (* redis.Nil *)
| ErrNew (msg : string) (context : list (string * string))
    (* errorx.New(msg).AddContext(k, v) *)
| ErrNewOn (msg : string) (inner : Err) (context : list (string * string))
    (* errorx.New(msg).SetError(inner).AddContext(k, v) *)
| ErrWrapped (errType : string) (method : string) (inner : Err)
    (* what errorx.Wrap leaves in a named result that held an error *)
| ErrExternal (code : nat).
    (* an error produced by a driver, a callback or a child *)

Definition error : Type := option Err.

(** A Go result pair [(T, error)] of a function that gives either a
    value and a nil error, or no value and an error. *)
Inductive result (A : Type) : Type :=
| Ok (a : A)
| Fail (e : Err).
Arguments Ok {A} a.
Arguments Fail {A} e.

(** ** Handles *)

Definition Tx : Type := nat.          (* a *sqlx.Tx *)
Definition DBConn : Type := nat.      (* a *sqlx.DB *)
Definition Pipeliner : Type := nat.   (* a value implementing redis.Pipeliner *)
Definition UniversalClient : Type := nat. (* a redis.UniversalClient *)

(** ** context.Context *)

(** Values of type [any] that the packages put into a context. *)
Inductive any : Type :=
| any_nil
| any_sqlTx (tx : Tx)
| any_pipeliner (tx : Pipeliner)
| any_bool (b : bool)
| any_string (s : string)
| any_int (z : Z).

(** A context is a chain built over the background context.  Only
    [WithValue] links carry a value; cancellation and deadline links pass
    value lookups on to their parent. *)
Inductive Ctx : Type :=
| Background
| WithValue (parent : Ctx) (key : string) (val : any)
| WithCancel (parent : Ctx).

(** [ctx.Value(key)]: the value of the innermost link that has the key,
    and nil when no link has it. *)
Fixpoint Value (ctx : Ctx) (key : string) : any :=
  match ctx with
  | Background => any_nil
  | WithValue parent k val => if String.eqb k key then val else Value parent key
  | WithCancel parent => Value parent key
  end.

Definition parent_of (ctx : Ctx) : option Ctx :=
  match ctx with
  | Background => None
  | WithValue parent _ _ => Some parent
  | WithCancel parent => Some parent
  end.

(** ** golang.org/x/sync/errgroup *)

Module Errgroup.
Section Group.
Context {E W : Type}.

(** A Group collects the functions handed to [Go]; each runs in its own
    goroutine.  [sem] is the capacity given by [SetLimit]: it bounds how
    many goroutines are active at once and nothing else. *)
Record Group : Type := {
  sem : option Z;
  tasks : list (M E W error)
}.

Definition zero : Group := {| sem := None; tasks := [] |}.

Definition SetLimit (g : Group) (n : Z) : Group :=
  {| sem := if (n <? 0)%Z then None else Some n; tasks := tasks g |}.

Definition Go (g : Group) (f : M E W error) : Group :=
  {| sem := sem g; tasks := tasks g ++ [f] |}.

(** The goroutines finish one after the other, in an order [sched] chosen
    by the scheduler: a list of positions in [tasks], in which every
    position occurs once.  A goroutine acts on the collaborators when it
    finishes.  The first error to arrive is kept (errOnce). *)
Fixpoint run (fs : list (M E W error)) (sched : list nat) (err : error)
  : M E W error :=
  match sched with
  | [] => ret err
  | i :: rest =>
      match fs !! i with
      | Some f =>
          let* e := f in
          run fs rest (match err with Some _ => err | None => e end)
      | None => run fs rest err
      end
  end.

(** [Wait] blocks until every function handed to [Go] has returned, then
    returns the first non-nil error (if any) from them. *)
Definition Wait (sched : list nat) (g : Group) : M E W error :=
  run (tasks g) sched None.

(** The orders in which the goroutines of a group can finish.  Every
    goroutine finishes once.  With a limit [n], [Go] blocks while [n]
    goroutines are active, so the goroutine handed over as number [i]
    starts only after [i - n + 1] others have finished: the goroutine
    that finishes in position [p] has a number below [p + n]. *)
Definition feasible (g : Group) (sched : list nat) : Prop :=
  Permutation sched (seq 0 (length (tasks g)))
  /\ match sem g with
     | None => True
     | Some n =>
         forall p i, sched !! p = Some i -> (Z.of_nat i < Z.of_nat p + n)%Z
     end.

End Group.
Arguments Group : clear implicits.
End Errgroup.

(** ** Package storage *)

Module Storage.

Definition noLogKey : string := "STORAGE_NO_LOG".


(** IsNoLog checks if context contain "no log" key.  [convert.Bool] is
    a function of another repository. *)
Definition IsNoLog (convert_Bool : any -> bool) (ctx : Ctx) : bool :=
  convert_Bool (Value ctx noLogKey).

(** RewriteTx take transaction key from original context and copy key to
    toCopy context *)
Definition RewriteTx (key : string) (original toCopy : Ctx) : Ctx :=
  let tx := Value original key in
  match tx with
  | any_nil => toCopy
  | _ => WithValue toCopy key tx
  end.

Section Interfaces.
Context {W : Type}.

(** Transaction interface using by Transactor *)
Record Transaction : Type := {
  Transaction_Context : option Ctx;
  Transaction_Commit : Ctx -> W -> error * W;
  Transaction_Rollback : Ctx -> W -> error * W
}.

(** What [BeginCtx] hands back: on success the derived context; on
    failure the error, with whatever context came along with it. *)
Inductive BeginCtxResult : Type :=
| Began (ctx : Ctx)
| NotBegan (ctx : option Ctx) (e : Err).

(** Transactor is common representation of transactions for any type of
    database. *)
Record Transactor : Type := {
  Transactor_Key : string;
  Transactor_IsTx : option Ctx -> bool;
  Transactor_Begin : Ctx -> W -> result Transaction * W;
  Transactor_BeginCtx : Ctx -> W -> BeginCtxResult * W;
  Transactor_CommitCtx : Ctx -> W -> error * W;
  Transactor_RollbackCtx : Ctx -> W -> error * W
}.

End Interfaces.
Arguments Transaction : clear implicits.
Arguments Transactor : clear implicits.
Arguments BeginCtxResult : clear implicits.

(** A method of a child, and the record of one call to a child. *)
Inductive Method : Type :=
| MBegin | MBeginCtx | MCommitCtx | MRollbackCtx | MCommit | MRollback.

Record Call : Type := Invoked {
  call_child : nat;        (* position of the child, in construction order *)
  call_method : Method;
  call_returned : error
}.

Definition error_of {A} (r : result A) : error :=
  match r with Ok _ => None | Fail e => Some e end.

Section Composite.
Context {W : Type}.
Local Abbreviation M' := (M Call W).

Record transaction : Type := newTransaction {
  transactions : list (Transaction W)
}.

Record transactor : Type := NewTransactor {
  transactors : list (Transactor W)
}.

Fixpoint Key_loop (trs : list (Transactor W)) (idx len : nat) (builder : string)
  : string :=
  match trs with
  | [] => builder
  | tx :: rest =>
      let builder := (builder ++ Transactor_Key tx)%string in
      let builder :=
        if (Z.of_nat idx <? Z.of_nat len - 1)%Z then (builder ++ ",")%string
        else builder in
      Key_loop rest (S idx) len builder
  end.

Definition transactor_Key (t : transactor) : string :=
  Key_loop (transactors t) 0 (length (transactors t)) "".

Fixpoint transactor_IsTx_loop (trs : list (Transactor W)) (ctx : option Ctx)
  : bool :=
  match trs with
  | [] => false
  | tr :: rest =>
      if Transactor_IsTx tr ctx then true else transactor_IsTx_loop rest ctx
  end.

Definition transactor_IsTx (t : transactor) (ctx : option Ctx) : bool :=
  transactor_IsTx_loop (transactors t) ctx.

Fixpoint Begin_loop (trs : list (Transactor W)) (idx : nat) (ctx : Ctx)
    (transactions : list (Transaction W)) : M' (result transaction) :=
  match trs with
  | [] => ret (Ok (newTransaction transactions))
  | tr :: rest =>
      let* r := call_with (fun r => Invoked idx MBegin (error_of r))
                          (Transactor_Begin tr ctx) in
      match r with
      | Fail err => ret (Fail err)
      | Ok tx => Begin_loop rest (S idx) ctx (transactions ++ [tx])
      end
  end.

Definition transactor_Begin (t : transactor) (ctx : Ctx)
  : M' (result transaction) :=
  Begin_loop (transactors t) 0 ctx [].

Definition error_of_BeginCtx (r : BeginCtxResult) : error :=
  match r with Began _ => None | NotBegan _ e => Some e end.

Fixpoint BeginCtx_loop (trs : list (Transactor W)) (idx : nat) (ctx : Ctx)
  : M' (option Ctx * error) :=
  match trs with
  | [] => ret (Some ctx, None)
  | tr :: rest =>
      let* r := call_with (fun r => Invoked idx MBeginCtx (error_of_BeginCtx r))
                          (Transactor_BeginCtx tr ctx) in
      match r with
      | NotBegan ctx' err => ret (ctx', Some err)
      | Began ctx' => BeginCtx_loop rest (S idx) ctx'
      end
  end.

Definition transactor_BeginCtx (t : transactor) (ctx : Ctx)
  : M' (option Ctx * error) :=
  BeginCtx_loop (transactors t) 0 ctx.

(** The loop [for _, tx := range ... { wg.Go(func() error { ... }) }]: one
    goroutine per element, each bound to its own element (Go 1.22 loop
    variables, the module is at go 1.23). *)
Fixpoint spawn {A} (method : Method) (op : A -> W -> error * W) (xs : list A)
    (idx : nat) (wg : Errgroup.Group Call W) : Errgroup.Group Call W :=
  match xs with
  | [] => wg
  | x :: rest =>
      spawn method op rest (S idx)
            (Errgroup.Go wg (call_with (Invoked idx method) (op x)))
  end.

Definition transactor_CommitCtx (sched : list nat) (t : transactor) (ctx : Ctx)
  : M' error :=
  let wg := Errgroup.zero in
  let wg := spawn MCommitCtx (fun tx => Transactor_CommitCtx tx ctx)
                  (transactors t) 0 wg in
  Errgroup.Wait sched wg.

Definition transactor_RollbackCtx (sched : list nat) (t : transactor) (ctx : Ctx)
  : M' error :=
  let wg := Errgroup.zero in
  let wg := spawn MRollbackCtx (fun tx => Transactor_RollbackCtx tx ctx)
                  (transactors t) 0 wg in
  Errgroup.Wait sched wg.

Definition transaction_Context (t : transaction) : option Ctx := None.

Definition transaction_Commit (sched : list nat) (t : transaction) (ctx : Ctx)
  : M' error :=
  let wg := Errgroup.zero in
  let wg := spawn MCommit (fun tx => Transaction_Commit tx ctx)
                  (transactions t) 0 wg in
  Errgroup.Wait sched wg.

Definition transaction_Rollback (sched : list nat) (t : transaction) (ctx : Ctx)
  : M' error :=
  let wg := Errgroup.zero in
  let wg := spawn MRollback (fun tx => Transaction_Rollback tx ctx)
                  (transactions t) 0 wg in
  Errgroup.Wait sched wg.

End Composite.
Arguments transaction : clear implicits.
Arguments transactor : clear implicits.

End Storage.

(** ** Package sql *)

Module Sql.

Definition transactionKey : string := "storage_sql_tx".

(** SetTx sets transaction key to new context *)
Definition SetTx (ctx : Ctx) (tx : Tx) : Ctx :=
  WithValue ctx transactionKey (any_sqlTx tx).

(** GetTx returns sql transaction object from context if it exist *)
Definition GetTx (ctx : Ctx) : option Tx * bool :=
  let transaction := Value ctx transactionKey in
  match transaction with
  | any_nil => (None, false)
  | any_sqlTx tx => (Some tx, true)     (* transaction.( *sqlx.Tx ) holds *)
  | _ => (None, false)                  (* the type assertion fails *)
  end.

(** *** The sqlx driver, the logger and the other collaborators *)

(** What sqlx hands back: a sql.Result, rows, a row, a statement. *)
Definition Reply : Type := nat.

(** The receiver of a sqlx call. *)
Inductive Target : Type :=
| OnDB (conn : DBConn)
| OnTx (tx : Tx).

Inductive Cmd : Type :=
| CmdExecContext (query : string) (args : list any)
| CmdQueryContext (query : string) (args : list any)
| CmdQueryxContext (query : string) (args : list any)
| CmdQueryRowxContext (query : string) (args : list any)
| CmdPrepareContext (query : string)
| CmdNamedExecContext (query : string) (arg : any)
| CmdSelectContext (dest : any) (query : string) (args : list any)
| CmdGetContext (dest : any) (query : string) (args : list any)
| CmdPrepareNamedContext (query : string).

(** database/sql.TxOptions *)
Record TxOptions : Type := {
  Isolation : nat;
  ReadOnly : bool
}.
Definition LevelReadCommitted : nat := 2.

Definition Logger : Type := nat.
Definition ConnOption : Type := nat.   (* a func(connection *sqlx.DB) *)

Record clientSingle : Type := {
  single_conn : DBConn;
  single_enableLog : bool;
  single_logger : option Logger
}.

Inductive Event : Type :=
| EvSqlx (on : Target) (cmd : Cmd)
| EvPrint (logger : Logger) (key queryType query : string) (args : list any)
| EvOpen (driverName connectionString : string)
| EvPing (conn : DBConn)
| EvBeginTxx (conn : DBConn)
| EvCommit (tx : Tx)
| EvRollback (tx : Tx)
| EvFn (conn : clientSingle) (returned : error).

Record Externals (W : Type) : Type := {
  sqlx_call : Target -> Ctx -> Cmd -> W -> (option Reply * error) * W;
  sqlx_Open : string -> string -> W -> result DBConn * W;
  sqlx_configure : DBConn -> list ConnOption -> W -> unit * W;
  sqlx_PingContext : DBConn -> Z -> W -> error * W;
  sqlx_BeginTxx : DBConn -> Ctx -> TxOptions -> W -> result Tx * W;
  sqlx_Commit : Tx -> W -> error * W;
  sqlx_Rollback : Tx -> W -> error * W;
  logger_Print :
    Logger -> Ctx -> string -> string -> string -> list any -> W -> unit * W;
  errorx_Wrap : string -> error -> string -> error;
  convert_Bool : any -> bool;
  errType : string
}.
Arguments sqlx_call {W}.
Arguments sqlx_Open {W}.
Arguments sqlx_configure {W}.
Arguments sqlx_PingContext {W}.
Arguments sqlx_BeginTxx {W}.
Arguments sqlx_Commit {W}.
Arguments sqlx_Rollback {W}.
Arguments logger_Print {W}.
Arguments errorx_Wrap {W}.
Arguments convert_Bool {W}.
Arguments errType {W}.

(** *** The shard set *)

(** ShardConnect contain connection & it's key for shard client *)
Record ShardConnect : Type := newShardConnect {
  Key : string;
  Conn : DBConn
}.

Record ShardConnectString : Type := {
  cs_Key : string;
  cs_ConnectionString : string
}.

Section Package.
Context {W : Type}.
Variable x : Externals W.
Local Abbreviation M' := (M Event W).

(** The selector may consult the context and keep a state of its own
    (round robin, random); it answers with a connection or with nil. *)
Definition ConnectionSelector : Type :=
  Ctx -> list ShardConnect -> W -> option ShardConnect * W.

(** Connections contain all connections for shard client and selector
    for choosing connection *)
Record Connections : Type := newConnections {
  connections : list ShardConnect;
  selector : ConnectionSelector
}.

(** Get returns shard connect by using selector *)
Definition Connections_Get (c : Connections) (ctx : Ctx)
  : M' (result ShardConnect) :=
  let* conn := quiet (selector c ctx (connections c)) in
  match conn with
  | None => ret (Fail ErrConnNotSelected)
  | Some conn => ret (Ok conn)
  end.

(** Connect to the database. *)
Definition Connect (driverName connectionString : string) (timeout : Z)
    (options : list ConnOption) : M' (result DBConn) :=
  let* r := call (EvOpen driverName connectionString)
                 (sqlx_Open x driverName connectionString) in
  match r with
  | Fail err => ret (Fail err)
  | Ok connection =>
      (* set default settings, apply options *)
      let* _ := quiet (sqlx_configure x connection options) in
      (* make ping *)
      let* err := call (EvPing connection)
                       (sqlx_PingContext x connection timeout) in
      match err with
      | Some err => ret (Fail err)
      | None => ret (Ok connection)
      end
  end.

(** validate for connection key unique and for empty; also, validate for
    empty connection string *)
Fixpoint ConnectShards_validate (connectionStrings : list ShardConnectString)
    (keys : gset string) : error :=
  match connectionStrings with
  | [] => None
  | cs :: rest =>
      if String.eqb (cs_Key cs) "" then
        Some (ErrNew "Connection key is empty" [])
      else if String.eqb (cs_ConnectionString cs) "" then
        Some (ErrNew "Connection string is empty" [("key", cs_Key cs)])
      else if bool_decide (cs_Key cs ∈ keys) then
        Some (ErrNew "Connection keys cannot duplicate" [("key", cs_Key cs)])
      else ConnectShards_validate rest ({[cs_Key cs]} ∪ keys)
  end.

(** connect every shard *)
Fixpoint ConnectShards_connect (driverName : string)
    (connectionStrings : list ShardConnectString) (timeout : Z)
    (options : list ConnOption) (connections : list ShardConnect)
  : M' (result (list ShardConnect)) :=
  match connectionStrings with
  | [] => ret (Ok connections)
  | cs :: rest =>
      let* r := Connect driverName (cs_ConnectionString cs) timeout options in
      match r with
      | Fail err => ret (Fail err)
      | Ok connection =>
          ConnectShards_connect driverName rest timeout options
            (connections ++ [newShardConnect (cs_Key cs) connection])
      end
  end.

(** ConnectShards connect all provided connections and create
    Connections object *)
Definition ConnectShards (driverName : string)
    (connectionStrings : list ShardConnectString)
    (selector : ConnectionSelector) (timeout : Z) (options : list ConnOption)
  : M' (result Connections) :=
  match ConnectShards_validate connectionStrings ∅ with
  | Some err => ret (Fail err)
  | None =>
      let* r := ConnectShards_connect driverName connectionStrings timeout
                                      options [] in
      match r with
      | Fail err => ret (Fail err)
      | Ok connections => ret (Ok (newConnections connections selector))
      end
  end.

(** BeginTxx method for TransactorConnectionProvider implementation by
    choosing connection by selector *)
Definition Connections_BeginTxx (c : Connections) (ctx : Ctx)
    (opts : TxOptions) : M' (result Tx) :=
  let* r := Connections_Get c ctx in
  match r with
  | Fail err => ret (Fail err)
  | Ok conn =>
      call (EvBeginTxx (Conn conn)) (sqlx_BeginTxx x (Conn conn) ctx opts)
  end.

(** *** The clients *)

Record clientShard : Type := {
  shard_connections : Connections;
  shard_enableLog : bool;
  shard_logger : option Logger
}.

(** ClientShard creates DB implementation as shard client. *)
Definition ClientShard (connections : Connections) (enableLog : list bool)
  : clientShard :=
  let enable := match enableLog with e :: _ => e | [] => false end in
  {| shard_connections := connections;
     shard_enableLog := enable;
     shard_logger := None |}.


(** Client creates DB implementation by single client *)
Definition Client (conn : DBConn) (enableLog : list bool) : clientSingle :=
  let enable := match enableLog with e :: _ => e | [] => false end in
  {| single_conn := conn; single_enableLog := enable; single_logger := None |}.

(** The values of the interface DB. *)
Inductive DB : Type :=
| DB_shard (c : clientShard)
| DB_single (c : clientSingle).

Definition clientShard_Connection (c : clientShard) : option DBConn := None.

Definition clientShard_printLog (c : clientShard) (ctx : Ctx)
    (connectionKey queryType query : string) (args : list any) : M' unit :=
  if negb (shard_enableLog c) || Storage.IsNoLog (convert_Bool x) ctx then ret tt
  else
    match shard_logger c with
    | None => ret tt
    | Some logger =>
        call (EvPrint logger connectionKey queryType query args)
             (logger_Print x logger ctx connectionKey queryType query args)
    end.

Definition clientShard_selectConnect (c : clientShard) (ctx : Ctx)
  : M' (result ShardConnect) :=
  Connections_Get (shard_connections c) ctx.

(** A method of a transaction, [tx.Method(ctx, ...)], and of a
    connection, [conn.Method(ctx, ...)]. *)
Definition on_tx (tx : Tx) (ctx : Ctx) (cmd : Cmd) : M' (option Reply * error) :=
  call (EvSqlx (OnTx tx) cmd) (sqlx_call x (OnTx tx) ctx cmd).

Definition on_db (conn : DBConn) (ctx : Ctx) (cmd : Cmd)
  : M' (option Reply * error) :=
  call (EvSqlx (OnDB conn) cmd) (sqlx_call x (OnDB conn) ctx cmd).

(** [defer errorx.Wrap(errType, &err, method)] on a function with the
    named results [(result, err)], and on one with the named result
    [err]. *)
Definition deferWrap {A} (method : string) (body : M' (A * error))
  : M' (A * error) :=
  let* (result, err) := body in
  ret (result, errorx_Wrap x (errType x) err method).

Definition deferWrap_err (method : string) (body : M' error) : M' error :=
  let* err := body in
  ret (errorx_Wrap x (errType x) err method).

Definition clientShard_ExecContext (c : clientShard) (ctx : Ctx)
    (query : string) (args : list any) : M' (option Reply * error) :=
  deferWrap "ExecContext" (
    let* r := clientShard_selectConnect c ctx in
    match r with
    | Fail err => ret (None, Some err)
    | Ok raw =>
        let* _ := clientShard_printLog c ctx (Key raw) "ExecContext" query args in
        match GetTx ctx with
        | (Some tx, true) => on_tx tx ctx (CmdExecContext query args)
        | _ => on_db (Conn raw) ctx (CmdExecContext query args)
        end
    end).

Definition clientShard_QueryContext (c : clientShard) (ctx : Ctx)
    (query : string) (args : list any) : M' (option Reply * error) :=
  deferWrap "QueryContext" (
    let* r := clientShard_selectConnect c ctx in
    match r with
    | Fail err => ret (None, Some err)
    | Ok raw =>
        let* _ := clientShard_printLog c ctx (Key raw) "QueryContext" query args in
        match GetTx ctx with
        | (Some tx, true) => on_tx tx ctx (CmdQueryContext query args)
        | _ => on_db (Conn raw) ctx (CmdQueryContext query args)
        end
    end).

Definition clientShard_QueryxContext (c : clientShard) (ctx : Ctx)
    (query : string) (args : list any) : M' (option Reply * error) :=
  deferWrap "QueryxContext" (
    let* r := clientShard_selectConnect c ctx in
    match r with
    | Fail err => ret (None, Some err)
    | Ok raw =>
        let* _ := clientShard_printLog c ctx (Key raw) "QueryxContext" query args in
        match GetTx ctx with
        | (Some tx, true) => on_tx tx ctx (CmdQueryxContext query args)
        | _ => on_db (Conn raw) ctx (CmdQueryxContext query args)
        end
    end).

Definition clientShard_QueryRowxContext (c : clientShard) (ctx : Ctx)
    (query : string) (args : list any) : M' (option Reply) :=
  let* r := clientShard_selectConnect c ctx in
  match r with
  | Fail err => ret None
  | Ok raw =>
      let* _ := clientShard_printLog c ctx (Key raw) "QueryRowxContext" query args in
      match GetTx ctx with
      | (Some tx, true) =>
          let* row := on_tx tx ctx (CmdQueryRowxContext query args) in ret row.1
      | _ =>
          let* row := on_db (Conn raw) ctx (CmdQueryRowxContext query args) in
          ret row.1
      end
  end.

Definition clientShard_PrepareContext (c : clientShard) (ctx : Ctx)
    (query : string) : M' (option Reply * error) :=
  deferWrap "PrepareContext" (
    let* r := clientShard_selectConnect c ctx in
    match r with
    | Fail err => ret (None, Some err)
    | Ok raw =>
        let* _ := clientShard_printLog c ctx (Key raw) "PrepareContext" query [] in
        match GetTx ctx with
        | (Some tx, true) => on_tx tx ctx (CmdPrepareContext query)
        | _ => on_db (Conn raw) ctx (CmdPrepareContext query)
        end
    end).

Definition clientShard_NamedExecContext (c : clientShard) (ctx : Ctx)
    (query : string) (arg : any) : M' (option Reply * error) :=
  deferWrap "NamedExecContext" (
    let* r := clientShard_selectConnect c ctx in
    match r with
    | Fail err => ret (None, Some err)
    | Ok raw =>
        let* _ := clientShard_printLog c ctx (Key raw) "NamedExecContext" query [arg] in
        match GetTx ctx with
        | (Some tx, true) => on_tx tx ctx (CmdNamedExecContext query arg)
        | _ => on_db (Conn raw) ctx (CmdNamedExecContext query arg)
        end
    end).

Definition clientShard_SelectContext (c : clientShard) (ctx : Ctx)
    (dest : any) (query : string) (args : list any) : M' error :=
  deferWrap_err "SelectContext" (
    let* r := clientShard_selectConnect c ctx in
    match r with
    | Fail err => ret (Some err)
    | Ok raw =>
        let* _ := clientShard_printLog c ctx (Key raw) "SelectContext" query args in
        match GetTx ctx with
        | (Some tx, true) =>
            let* res := on_tx tx ctx (CmdSelectContext dest query args) in
            ret res.2
        | _ =>
            let* res := on_db (Conn raw) ctx (CmdSelectContext dest query args) in
            ret res.2
        end
    end).

Definition clientShard_GetContext (c : clientShard) (ctx : Ctx)
    (dest : any) (query : string) (args : list any) : M' error :=
  deferWrap_err "GetContext" (
    let* r := clientShard_selectConnect c ctx in
    match r with
    | Fail err => ret (Some err)
    | Ok raw =>
        let* _ := clientShard_printLog c ctx (Key raw) "GetContext" query args in
        match GetTx ctx with
        | (Some tx, true) =>
            let* res := on_tx tx ctx (CmdGetContext dest query args) in
            ret res.2
        | _ =>
            let* res := on_db (Conn raw) ctx (CmdGetContext dest query args) in
            ret res.2
        end
    end).

Definition clientShard_PrepareNamedContext (c : clientShard) (ctx : Ctx)
    (query : string) : M' (option Reply * error) :=
  deferWrap "PrepareNamedContext" (
    let* r := clientShard_selectConnect c ctx in
    match r with
    | Fail err => ret (None, Some err)
    | Ok raw =>
        let* _ := clientShard_printLog c ctx (Key raw) "PrepareNamedContext" query [] in
        match GetTx ctx with
        | (Some tx, true) => on_tx tx ctx (CmdPrepareNamedContext query)
        | _ => on_db (Conn raw) ctx (CmdPrepareNamedContext query)
        end
    end).

(** *** Fan-out over the shards *)

Definition not_shard_client : Err :=
  ErrNew "provided conn is not shard client" [].

(** The callback [fn] is a collaborator; a call to it is recorded with the
    client it was given and the error it returned. *)
Definition invoke (fn : DB -> W -> error * W) (shard : ShardConnect)
  : M' error :=
  call_with (EvFn (Client (Conn shard) []))
            (fn (DB_single (Client (Conn shard) []))).

Fixpoint EachShard_loop (fn : DB -> W -> error * W) (shards : list ShardConnect)
  : M' error :=
  match shards with
  | [] => ret None
  | shard :: rest =>
      let* err := invoke fn shard in
      match err with
      | Some err => ret (Some err)
      | None => EachShard_loop fn rest
      end
  end.

(** EachShard runs provided fn function with every shard single
    connection *)
Definition EachShard (conn : DB) (fn : DB -> W -> error * W) : M' error :=
  match conn with
  | DB_shard shardClient =>
      EachShard_loop fn (connections (shard_connections shardClient))
  | _ => ret (Some not_shard_client)
  end.

(** The loop [for _, shard := range ... { wg.Go(func() error { ... }) }]:
    each goroutine is bound to the shard of its own iteration. *)
Fixpoint EachShardAsync_spawn (fn : DB -> W -> error * W)
    (shards : list ShardConnect) (wg : Errgroup.Group Event W)
  : Errgroup.Group Event W :=
  match shards with
  | [] => wg
  | shard :: rest =>
      EachShardAsync_spawn fn rest (Errgroup.Go wg (invoke fn shard))
  end.

(** EachShardAsync do the same as EachShard but in parallel every shard.
    If provide "limit", count of goroutines will be limited.  [sched] is
    the order in which the goroutines finish. *)
Definition EachShardAsync_group (shardClient : clientShard)
    (fn : DB -> W -> error * W) (limit : list Z) : Errgroup.Group Event W :=
  let wg := Errgroup.zero in
  let wg :=
    match limit with
    | l :: _ => if (0 <? l)%Z then Errgroup.SetLimit wg l else wg
    | [] => wg
    end in
  EachShardAsync_spawn fn (connections (shard_connections shardClient)) wg.

Definition EachShardAsync (sched : list nat) (conn : DB)
    (fn : DB -> W -> error * W) (limit : list Z) : M' error :=
  match conn with
  | DB_shard shardClient =>
      Errgroup.Wait sched (EachShardAsync_group shardClient fn limit)
  | _ => ret (Some not_shard_client)
  end.

Definition clientShard_EachShard (c : clientShard) (fn : DB -> W -> error * W)
  : M' error :=
  EachShard (DB_shard c) fn.

Definition clientShard_EachShardAsync (sched : list nat) (c : clientShard)
    (fn : DB -> W -> error * W) (limit : list Z) : M' error :=
  EachShardAsync sched (DB_shard c) fn limit.

(** *** The transactor *)

(** TransactorConnectionProvider sql transaction interface: a *sqlx.DB
    or a shard set. *)
Inductive TransactorConnectionProvider : Type :=
| ProviderDB (conn : DBConn)
| ProviderConnections (c : Connections).

Definition provider_BeginTxx (p : TransactorConnectionProvider) (ctx : Ctx)
    (opts : TxOptions) : M' (result Tx) :=
  match p with
  | ProviderDB conn => call (EvBeginTxx conn) (sqlx_BeginTxx x conn ctx opts)
  | ProviderConnections c => Connections_BeginTxx c ctx opts
  end.

Record sqlTransactor : Type := {
  provider : TransactorConnectionProvider
}.

Record sqlTransaction : Type := newTransactorTx_ {
  st_tx : Tx;
  st_parentCtx : Ctx
}.

Definition newTransactorTx (ctx : Ctx) (tx : Tx) : sqlTransaction :=
  {| st_tx := tx; st_parentCtx := ctx |}.

Definition sqlTransaction_Commit (tx : sqlTransaction) (_ : Ctx) : M' error :=
  call (EvCommit (st_tx tx)) (sqlx_Commit x (st_tx tx)).

Definition sqlTransaction_Rollback (tx : sqlTransaction) (_ : Ctx) : M' error :=
  call (EvRollback (st_tx tx)) (sqlx_Rollback x (st_tx tx)).

Definition sqlTransaction_Context (tx : sqlTransaction) : Ctx :=
  SetTx (st_parentCtx tx) (st_tx tx).

Definition sqlTransactor_Key (st : sqlTransactor) : string := transactionKey.

Definition read_committed : TxOptions :=
  {| Isolation := LevelReadCommitted; ReadOnly := false |}.

Definition sqlTransactor_Begin (st : sqlTransactor) (ctx : Ctx)
  : M' (result sqlTransaction) :=
  let* r := provider_BeginTxx (provider st) ctx read_committed in
  match r with
  | Fail err => ret (Fail err)
  | Ok tx => ret (Ok (newTransactorTx ctx tx))
  end.

Definition sqlTransactor_BeginCtx (st : sqlTransactor) (ctx : Ctx)
  : M' (Storage.BeginCtxResult) :=
  let* r := provider_BeginTxx (provider st) ctx read_committed in
  match r with
  | Fail err => ret (Storage.NotBegan None err)
  | Ok tx => ret (Storage.Began (SetTx ctx tx))
  end.

Definition sqlTransactor_CommitCtx (st : sqlTransactor) (ctx : Ctx) : M' error :=
  match GetTx ctx with
  | (Some tx, true) => call (EvCommit tx) (sqlx_Commit x tx)
  | _ => ret None
  end.

Definition sqlTransactor_RollbackCtx (st : sqlTransactor) (ctx : Ctx)
  : M' error :=
  match GetTx ctx with
  | (Some tx, true) => call (EvRollback tx) (sqlx_Rollback x tx)
  | _ => ret None
  end.

Definition sqlTransactor_IsTx (st : sqlTransactor) (ctx : option Ctx) : bool :=
  match ctx with
  | None => false
  | Some ctx => (GetTx ctx).2
  end.

(** The transaction and the transactor as values of the interfaces of
    package storage. *)
Definition as_Transaction (tx : sqlTransaction) : Storage.Transaction W :=
  {| Storage.Transaction_Context := Some (sqlTransaction_Context tx);
     Storage.Transaction_Commit := fun ctx => as_step (sqlTransaction_Commit tx ctx);
     Storage.Transaction_Rollback :=
       fun ctx => as_step (sqlTransaction_Rollback tx ctx) |}.

Definition NewTransactor (provider : TransactorConnectionProvider)
  : Storage.Transactor W :=
  let st := {| provider := provider |} in
  {| Storage.Transactor_Key := sqlTransactor_Key st;
     Storage.Transactor_IsTx := sqlTransactor_IsTx st;
     Storage.Transactor_Begin := fun ctx =>
       as_step (let* r := sqlTransactor_Begin st ctx in
                match r with
                | Fail err => ret (Fail err)
                | Ok tx => ret (Ok (as_Transaction tx))
                end);
     Storage.Transactor_BeginCtx := fun ctx => as_step (sqlTransactor_BeginCtx st ctx);
     Storage.Transactor_CommitCtx := fun ctx => as_step (sqlTransactor_CommitCtx st ctx);
     Storage.Transactor_RollbackCtx :=
       fun ctx => as_step (sqlTransactor_RollbackCtx st ctx) |}.

End Package.
Arguments Connections : clear implicits.
Arguments ConnectionSelector : clear implicits.
Arguments clientShard : clear implicits.
Arguments DB : clear implicits.
Arguments TransactorConnectionProvider : clear implicits.
Arguments sqlTransactor : clear implicits.

End Sql.

(** ** Package redis *)

Module Redis.

Definition transactionKey : string := "storage_redis_tx".

(** SetTx sets transaction key to new context *)
Definition SetTx (ctx : Ctx) (tx : Pipeliner) : Ctx :=
  WithValue ctx transactionKey (any_pipeliner tx).

(** GetTx returns the pipeline stored in the context if it exist *)
Definition GetTx (ctx : Ctx) : option Pipeliner * bool :=
  let transaction := Value ctx transactionKey in
  match transaction with
  | any_nil => (None, false)
  | any_pipeliner tx => (Some tx, true) (* transaction.(redis.Pipeliner) holds *)
  | _ => (None, false)                  (* the type assertion fails *)
  end.

(** *** The go-redis driver *)

Definition float64 : Type := Z.   (* the bits of the number *)
Definition Duration : Type := Z.  (* time.Duration *)
Definition Time : Type := Z.      (* time.Time *)

(** What a command hands back through [Result], [Err], [Bytes], [Int] or
    [Bool]. *)
Inductive Reply : Type :=
| reply_nil
| reply_string (s : string)
| reply_int (z : Z)
| reply_bool (b : bool)
| reply_list (l : list any)
| reply_strings (l : list string)
| reply_scan (keys : list string) (cursor : Z)
| reply_float (bits : float64)
| reply_other (n : nat).

(** The receiver of a command. *)
Inductive Target : Type :=
| OnClient (client : UniversalClient)
| OnPipe (tx : Pipeliner).

Inductive Cmd : Type :=
| CmdKeys (pattern : string)
| CmdDel (keys : list string)
| CmdDump (key : string)
| CmdRename (oldKey newKey : string)
| CmdExpire (key : string) (ttl : Duration)
| CmdExpireAt (key : string) (at_ : Time)
| CmdTTL (key : string)
| CmdSet (key : string) (value : any) (expireAt : Duration)
| CmdGet (key : string)
| CmdMGet (keys : list string)
| CmdExists (key : string)
| CmdHSet (key : string) (value : list (string * any))
| CmdHGetAll (key : string)
| CmdHGet (key field : string)
| CmdHExists (key field : string)
| CmdHDel (key : string) (fields : list string)
| CmdHScan (key : string) (cursor : Z) (pattern : string) (count : Z)
| CmdScan (cursor : Z) (pattern : string) (count : Z)
| CmdHIncrBy (key field : string) (incr : Z)
| CmdHIncrByFloat (key field : string) (incr : float64)
| CmdHKeys (key : string)
| CmdHLen (key : string)
| CmdHMGet (key : string) (fields : list string)
| CmdHMSet (key : string) (values : list any)
| CmdHSetNX (key field : string) (value : any)
| CmdHScanNoValues (key : string) (cursor : Z) (pattern : string) (count : Z)
| CmdHVals (key : string)
| CmdHRandField (key : string) (count : Z)
| CmdHRandFieldWithValues (key : string) (count : Z)
| CmdHExpire (key : string) (expiration : Duration) (fields : list string)
| CmdHTTL (key : string) (fields : list string).

Inductive Accessor : Type :=
| Result | Err_ | Bytes | Int | Bool.

Definition ClientOption : Type := nat.   (* a func(options *redis.Options) *)

Inductive Event : Type :=
| EvRedis (on : Target) (cmd : Cmd) (acc : Accessor)
| EvNewClient (address : string) (port db : Z) (password : string)
| EvPing (client : UniversalClient)
| EvPipeline (client : UniversalClient)
| EvTxPipeline (client : UniversalClient)
| EvExec (tx : Pipeliner)
| EvDiscard (tx : Pipeliner).

Record Externals (W : Type) : Type := {
  redis_call : Target -> Ctx -> Cmd -> Accessor -> W -> (Reply * error) * W;
  redis_NewClient :
    string -> Z -> Z -> string -> list ClientOption -> W -> UniversalClient * W;
  redis_Ping : UniversalClient -> W -> error * W;
  redis_Pipeline : UniversalClient -> W -> Pipeliner * W;
  redis_TxPipeline : UniversalClient -> W -> Pipeliner * W;
  redis_Exec : Pipeliner -> Ctx -> W -> error * W;
  redis_Discard : Pipeliner -> W -> unit * W;
  json_Unmarshal : Reply -> any -> error;
  errorx_Wrap : string -> error -> string -> error;
  contextx_Validate : Ctx -> error;
  (* the helper [validate(ctx, key)] of the package *)
  validate : Ctx -> string -> error
}.
Arguments redis_call {W}.
Arguments redis_NewClient {W}.
Arguments redis_Ping {W}.
Arguments redis_Pipeline {W}.
Arguments redis_TxPipeline {W}.
Arguments redis_Exec {W}.
Arguments redis_Discard {W}.
Arguments json_Unmarshal {W}.
Arguments errorx_Wrap {W}.
Arguments contextx_Validate {W}.
Arguments validate {W}.

(** [errors.Is(err, redis.Nil)] *)
Fixpoint is_redis_Nil (err : Err) : bool :=
  match err with
  | RedisNil => true
  | ErrNewOn _ inner _ => is_redis_Nil inner
  | ErrWrapped _ _ inner => is_redis_Nil inner
  | _ => false
  end.

(** ErrKeyNotFound.AddParam("key", key) *)
Definition ErrKeyNotFound (key : string) : Err :=
  ErrNewOn "redis.key_not_found" ErrNotFound [("key", key)].

(** *** The shard set *)

Record ShardConnectConfig : Type := {
  cfg_Key : string;
  cfg_Address : string;
  cfg_Port : Z;
  cfg_DB : Z;
  cfg_Password : string;
  cfg_Conditions : list string
}.

(** ShardConnect contain connection & it's key for shard client *)
Record ShardClient : Type := newShardConnect {
  Key : string;
  Conditions : list string;
  Client : UniversalClient
}.

Section Package.
Context {W : Type}.
Variable x : Externals W.
Local Abbreviation M' := (M Event W).

Definition ClientSelector : Type :=
  Ctx -> list ShardClient -> W -> option ShardClient * W.

(** Clients contain all clients for shard client and selector for
    choosing connection *)
Record Clients : Type := newClients {
  clients : list ShardClient;
  selector : ClientSelector
}.

(** Get returns shard connect by using selector *)
Definition Clients_Get (c : Clients) (ctx : Ctx) : M' (result ShardClient) :=
  let* conn := quiet (selector c ctx (clients c)) in
  match conn with
  | None => ret (Fail ErrConnNotSelected)
  | Some conn => ret (Ok conn)
  end.

Definition Connect (address : string) (port db : Z) (password : string)
    (opts : list ClientOption) : M' (result UniversalClient) :=
  let* client := call (EvNewClient address port db password)
                      (redis_NewClient x address port db password opts) in
  let* err := call (EvPing client) (redis_Ping x client) in
  match err with
  | Some err => ret (Fail err)
  | None => ret (Ok client)
  end.

(** validate for connection key unique and for empty; also, validate for
    empty connection string *)
Fixpoint ConnectShards_validate (connectionStrings : list ShardConnectConfig)
    (keys : gset string) : error :=
  match connectionStrings with
  | [] => None
  | cs :: rest =>
      if String.eqb (cfg_Key cs) "" then
        Some (ErrNew "Client key is empty" [])
      else if String.eqb (cfg_Address cs) "" then
        Some (ErrNew "Client address is empty" [("key", cfg_Key cs)])
      else if (cfg_Port cs =? 0)%Z then
        Some (ErrNew "Client port is zero" [("key", cfg_Key cs)])
      else if bool_decide (cfg_Key cs ∈ keys) then
        Some (ErrNew "Connection keys cannot duplicate" [("key", cfg_Key cs)])
      else ConnectShards_validate rest ({[cfg_Key cs]} ∪ keys)
  end.

(** connect every shard *)
Fixpoint ConnectShards_connect (connectionStrings : list ShardConnectConfig)
    (options : list ClientOption) (connections : list ShardClient)
  : M' (result (list ShardClient)) :=
  match connectionStrings with
  | [] => ret (Ok connections)
  | cs :: rest =>
      let* r := Connect (cfg_Address cs) (cfg_Port cs) (cfg_DB cs)
                        (cfg_Password cs) options in
      match r with
      | Fail err => ret (Fail err)
      | Ok connection =>
          ConnectShards_connect rest options
            (connections
               ++ [newShardConnect (cfg_Key cs) (cfg_Conditions cs) connection])
      end
  end.

(** ConnectShards connect all provided connections and create
    Connections object *)
Definition ConnectShards (connectionStrings : list ShardConnectConfig)
    (selector : ClientSelector) (options : list ClientOption)
  : M' (result Clients) :=
  match ConnectShards_validate connectionStrings ∅ with
  | Some err => ret (Fail err)
  | None =>
      let* r := ConnectShards_connect connectionStrings options [] in
      match r with
      | Fail err => ret (Fail err)
      | Ok connections => ret (Ok (newClients connections selector))
      end
  end.

(** A command on a pipeline, [tx.Cmd(ctx, ...).Acc()], and on a client,
    [client.Cmd(ctx, ...).Acc()]. *)
Definition on_pipe (tx : Pipeliner) (ctx : Ctx) (cmd : Cmd) (acc : Accessor)
  : M' (Reply * error) :=
  call (EvRedis (OnPipe tx) cmd acc) (redis_call x (OnPipe tx) ctx cmd acc).

Definition on_client (client : UniversalClient) (ctx : Ctx) (cmd : Cmd)
    (acc : Accessor) : M' (Reply * error) :=
  call (EvRedis (OnClient client) cmd acc)
       (redis_call x (OnClient client) ctx cmd acc).

(** *** The shard client of client_shard.go *)

Record shardClient : Type := NewShard {
  shard_clients : Clients
}.

Definition shardClient_Client (c : shardClient) (ctx : Ctx)
  : M' (result UniversalClient) :=
  match contextx_Validate x ctx with
  | Some err => ret (Fail err)
  | None =>
      let* r := Clients_Get (shard_clients c) ctx in
      match r with
      | Fail err => ret (Fail err)
      | Ok client => ret (Ok (Client client))
      end
  end.

Definition shardClient_Pipeline (c : shardClient) (ctx : Ctx)
  : M' (result Pipeliner) :=
  match contextx_Validate x ctx with
  | Some err => ret (Fail err)
  | None =>
      let* r := Clients_Get (shard_clients c) ctx in
      match r with
      | Fail err => ret (Fail err)
      | Ok raw =>
          let* p := call (EvPipeline (Client raw))
                         (redis_Pipeline x (Client raw)) in
          ret (Ok p)
      end
  end.

Definition shardClient_TxPipeline (c : shardClient) (ctx : Ctx)
  : M' (result Pipeliner) :=
  match contextx_Validate x ctx with
  | Some err => ret (Fail err)
  | None =>
      let* r := Clients_Get (shard_clients c) ctx in
      match r with
      | Fail err => ret (Fail err)
      | Ok raw =>
          let* p := call (EvTxPipeline (Client raw))
                         (redis_TxPipeline x (Client raw)) in
          ret (Ok p)
      end
  end.

Definition shardClient_Get (c : shardClient) (ctx : Ctx) (key : string)
  : M' (Reply * error) :=
  match validate x ctx key with
  | Some err => ret (reply_string "", Some err)
  | None =>
      let* r := Clients_Get (shard_clients c) ctx in
      match r with
      | Fail err => ret (reply_string "", Some err)
      | Ok raw =>
          let* (result, err) := on_client (Client raw) ctx (CmdGet key) Result in
          match err with
          | Some err =>
              if is_redis_Nil err then ret (result, Some (ErrKeyNotFound key))
              else ret (result, Some err)
          | None => ret (result, None)
          end
      end
  end.

(** *** The transactor *)

(** TransactorClientProvider: what gives the transactor its pipeline. *)
Definition TransactorClientProvider : Type := Ctx -> M' (result Pipeliner).

Record redisTransactor : Type := {
  provider : TransactorClientProvider
}.

Record redisTransaction : Type := {
  rt_tx : Pipeliner;
  rt_parentCtx : Ctx
}.

Definition newTransactorTx (ctx : Ctx) (tx : Pipeliner) : redisTransaction :=
  {| rt_tx := tx; rt_parentCtx := ctx |}.

Definition redisTransactor_Begin (rt : redisTransactor) (ctx : Ctx)
  : M' (result redisTransaction) :=
  let* r := provider rt ctx in
  match r with
  | Fail err => ret (Fail err)
  | Ok tx => ret (Ok (newTransactorTx ctx tx))
  end.

Definition redisTransactor_BeginCtx (rt : redisTransactor) (ctx : Ctx)
  : M' Storage.BeginCtxResult :=
  let* r := provider rt ctx in
  match r with
  | Fail err => ret (Storage.NotBegan None err)
  | Ok tx => ret (Storage.Began (SetTx ctx tx))
  end.

Definition redisTransactor_CommitCtx (rt : redisTransactor) (ctx : Ctx)
  : M' error :=
  match GetTx ctx with
  | (Some tx, true) => call (EvExec tx) (redis_Exec x tx ctx)
  | _ => ret None
  end.

Definition redisTransactor_RollbackCtx (rt : redisTransactor) (ctx : Ctx)
  : M' error :=
  match GetTx ctx with
  | (Some tx, true) =>
      let* _ := call (EvDiscard tx) (redis_Discard x tx) in
      ret None
  | _ => ret None
  end.

Definition redisTransactor_Key (rt : redisTransactor) : string := transactionKey.

Definition redisTransactor_IsTx (rt : redisTransactor) (ctx : option Ctx)
  : bool :=
  match ctx with
  | None => false
  | Some ctx => (GetTx ctx).2
  end.

Definition redisTransaction_Commit (tx : redisTransaction) (ctx : Ctx)
  : M' error :=
  call (EvExec (rt_tx tx)) (redis_Exec x (rt_tx tx) ctx).

Definition redisTransaction_Rollback (tx : redisTransaction) (_ : Ctx)
  : M' error :=
  let* _ := call (EvDiscard (rt_tx tx)) (redis_Discard x (rt_tx tx)) in
  ret None.

Definition redisTransaction_Context (tx : redisTransaction) : Ctx :=
  SetTx (rt_parentCtx tx) (rt_tx tx).

(** The transaction and the transactor as values of the interfaces of
    package storage. *)
Definition as_Transaction (tx : redisTransaction) : Storage.Transaction W :=
  {| Storage.Transaction_Context := Some (redisTransaction_Context tx);
     Storage.Transaction_Commit :=
       fun ctx => as_step (redisTransaction_Commit tx ctx);
     Storage.Transaction_Rollback :=
       fun ctx => as_step (redisTransaction_Rollback tx ctx) |}.

Definition NewTransactor (provider : TransactorClientProvider)
  : Storage.Transactor W :=
  let rt := {| provider := provider |} in
  {| Storage.Transactor_Key := redisTransactor_Key rt;
     Storage.Transactor_IsTx := redisTransactor_IsTx rt;
     Storage.Transactor_Begin := fun ctx =>
       as_step (let* r := redisTransactor_Begin rt ctx in
                match r with
                | Fail err => ret (Fail err)
                | Ok tx => ret (Ok (as_Transaction tx))
                end);
     Storage.Transactor_BeginCtx :=
       fun ctx => as_step (redisTransactor_BeginCtx rt ctx);
     Storage.Transactor_CommitCtx :=
       fun ctx => as_step (redisTransactor_CommitCtx rt ctx);
     Storage.Transactor_RollbackCtx :=
       fun ctx => as_step (redisTransactor_RollbackCtx rt ctx) |}.

End Package.
Arguments Clients : clear implicits.
Arguments ClientSelector : clear implicits.
Arguments shardClient : clear implicits.
Arguments redisTransactor : clear implicits.
Arguments TransactorClientProvider : clear implicits.

End Redis.

(** ** Package redis, the shard client of src/unnamed/part_001

    This revision of client_shard.go looks the ambient pipeline up in
    every command; it goes with the client.go that has [validateKey]. *)

Module RedisPart001.
Import Redis.

Definition errType : string := "Redis".

Definition validateKey (key : string) : error :=
  if String.eqb key "" then Some ErrKeyEmpty else None.

(** validateKeys compacts the slice in place with slices.DeleteFunc and
    drops the shortened slice: the caller's slice keeps its length, the
    kept keys come first and the elements after them are cleared. *)
Definition validateKeys (keys : list string) : list string :=
  let kept := filter (fun key => validateKey key = None) keys in
  kept ++ replicate (length keys - length kept) "".

(** errorx.New("Redis key not found").SetError(errorx.ErrNotFound)
      .AddContext("key", key) *)
Definition key_not_found (key : string) : Err :=
  ErrNewOn "Redis key not found" ErrNotFound [("key", key)].

Section Package.
Context {W : Type}.
Variable x : Externals W.
Local Abbreviation M' := (M Event W).
Local Abbreviation shardClient := (Redis.shardClient W).
Local Abbreviation on_pipe := (Redis.on_pipe x).
Local Abbreviation on_client := (Redis.on_client x).
Local Abbreviation Clients_Get := (@Redis.Clients_Get W).

Definition deferWrap {A} (method : string) (body : M' (A * error))
  : M' (A * error) :=
  let* (result, err) := body in
  ret (result, errorx_Wrap x errType err method).

Definition deferWrap_err (method : string) (body : M' error) : M' error :=
  let* err := body in
  ret (errorx_Wrap x errType err method).

(** [tx.Cmd(ctx, ...).Err()] and [client.Cmd(ctx, ...).Err()] *)
Definition err_on_pipe (tx : Pipeliner) (ctx : Ctx) (cmd : Cmd) : M' error :=
  let* r := on_pipe tx ctx cmd Err_ in ret r.2.

Definition err_on_client (client : UniversalClient) (ctx : Ctx) (cmd : Cmd)
  : M' error :=
  let* r := on_client client ctx cmd Err_ in ret r.2.

Definition shardClient_Client (client : shardClient) (ctx : Ctx)
  : M' (result UniversalClient) :=
  let* r := Clients_Get (shard_clients client) ctx in
  match r with
  | Fail err => ret (Fail err)
  | Ok c => ret (Ok (Client c))
  end.

Definition shardClient_Pipeline (client : shardClient) (ctx : Ctx)
  : M' (result Pipeliner) :=
  let* r := Clients_Get (shard_clients client) ctx in
  match r with
  | Fail err => ret (Fail err)
  | Ok raw =>
      let* p := call (EvPipeline (Client raw)) (redis_Pipeline x (Client raw)) in
      ret (Ok p)
  end.

Definition shardClient_TxPipeline (client : shardClient) (ctx : Ctx)
  : M' (result Pipeliner) :=
  let* r := Clients_Get (shard_clients client) ctx in
  match r with
  | Fail err => ret (Fail err)
  | Ok raw =>
      let* p := call (EvTxPipeline (Client raw))
                     (redis_TxPipeline x (Client raw)) in
      ret (Ok p)
  end.

Definition shardClient_Keys (client : shardClient) (ctx : Ctx)
    (pattern : string) : M' (Reply * error) :=
  deferWrap "Keys" (
    let* r := Clients_Get (shard_clients client) ctx in
    match r with
    | Fail err => ret (reply_nil, Some err)
    | Ok raw =>
        match GetTx ctx with
        | (Some tx, true) => on_pipe tx ctx (CmdKeys pattern) Result
        | _ => on_client (Client raw) ctx (CmdKeys pattern) Result
        end
    end).

Definition shardClient_Delete (client : shardClient) (ctx : Ctx)
    (keys : list string) : M' error :=
  if (length keys =? 0)%nat then ret None else
  deferWrap_err "Delete" (
    let* r := Clients_Get (shard_clients client) ctx in
    match r with
    | Fail err => ret (Some err)
    | Ok raw =>
        (* clean up keys from empty *)
        let keys := filter (fun key => key <> "") keys in
        if (length keys =? 0)%nat then ret None else
        match GetTx ctx with
        | (Some tx, true) => err_on_pipe tx ctx (CmdDel keys)
        | _ => err_on_client (Client raw) ctx (CmdDel keys)
        end
    end).

Definition shardClient_Dump (client : shardClient) (ctx : Ctx)
    (key : string) : M' (Reply * error) :=
  deferWrap "Dump" (
    match validateKey key with
    | Some err => ret (reply_string "", Some err)
    | None =>
        let* r := Clients_Get (shard_clients client) ctx in
        match r with
        | Fail err => ret (reply_string "", Some err)
        | Ok raw =>
            match GetTx ctx with
            | (Some tx, true) => on_pipe tx ctx (CmdDump key) Result
            | _ => on_client (Client raw) ctx (CmdDump key) Result
            end
        end
    end).

Definition shardClient_Rename (client : shardClient) (ctx : Ctx)
    (oldKey newKey : string) : M' error :=
  deferWrap_err "Rename" (
    match validateKey oldKey with
    | Some err => ret (Some (ErrNewOn "Old key is invalid" err []))
    | None =>
        match validateKey newKey with
        | Some err => ret (Some (ErrNewOn "New key is invalid" err []))
        | None =>
            let* r := Clients_Get (shard_clients client) ctx in
            match r with
            | Fail err => ret (Some err)
            | Ok raw =>
                match GetTx ctx with
                | (Some tx, true) => err_on_pipe tx ctx (CmdRename oldKey newKey)
                | _ => err_on_client (Client raw) ctx (CmdRename oldKey newKey)
                end
            end
        end
    end).

Definition shardClient_Refresh (client : shardClient) (ctx : Ctx)
    (key : string) (ttl : Duration) : M' error :=
  deferWrap_err "Refresh" (
    match validateKey key with
    | Some err => ret (Some err)
    | None =>
        let* r := Clients_Get (shard_clients client) ctx in
        match r with
        | Fail err => ret (Some err)
        | Ok raw =>
            match GetTx ctx with
            | (Some tx, true) => err_on_pipe tx ctx (CmdExpire key ttl)
            | _ => err_on_client (Client raw) ctx (CmdExpire key ttl)
            end
        end
    end).

Definition shardClient_RefreshAt (client : shardClient) (ctx : Ctx)
    (key : string) (at_ : Time) : M' error :=
  deferWrap_err "RefreshAt" (
    match validateKey key with
    | Some err => ret (Some err)
    | None =>
        let* r := Clients_Get (shard_clients client) ctx in
        match r with
        | Fail err => ret (Some err)
        | Ok raw =>
            match GetTx ctx with
            | (Some tx, true) => err_on_pipe tx ctx (CmdExpireAt key at_)
            | _ => err_on_client (Client raw) ctx (CmdExpireAt key at_)
            end
        end
    end).

Definition notExistKey : Z := (-2)%Z.

Definition shardClient_TTL (client : shardClient) (ctx : Ctx)
    (key : string) : M' (Reply * error) :=
  deferWrap "TTL" (
    match validateKey key with
    | Some err => ret (reply_int 0, Some err)
    | None =>
        let* r := Clients_Get (shard_clients client) ctx in
        match r with
        | Fail err => ret (reply_int 0, Some err)
        | Ok raw =>
            let* (ttl, err) :=
              match GetTx ctx with
              | (Some tx, true) => on_pipe tx ctx (CmdTTL key) Result
              | _ => on_client (Client raw) ctx (CmdTTL key) Result
              end in
            match err with
            | Some err => ret (ttl, Some err)
            | None =>
                match ttl with
                | reply_int d =>
                    if (d =? notExistKey)%Z then ret (ttl, Some ErrNotFound)
                    else ret (ttl, None)
                | _ => ret (ttl, None)
                end
            end
        end
    end).

Definition shardClient_Set (client : shardClient) (ctx : Ctx)
    (key : string) (value : any) (ttl : list Duration) : M' error :=
  deferWrap_err "Set" (
    match validateKey key with
    | Some err => ret (Some err)
    | None =>
        let expireAt :=
          match ttl with
          | t :: _ => if (0 <? t)%Z then t else 0%Z
          | [] => 0%Z
          end in
        let* r := Clients_Get (shard_clients client) ctx in
        match r with
        | Fail err => ret (Some err)
        | Ok raw =>
            match GetTx ctx with
            | (Some tx, true) => err_on_pipe tx ctx (CmdSet key value expireAt)
            | _ => err_on_client (Client raw) ctx (CmdSet key value expireAt)
            end
        end
    end).

Definition shardClient_Get (client : shardClient) (ctx : Ctx)
    (key : string) : M' (Reply * error) :=
  deferWrap "Get" (
    match validateKey key with
    | Some err => ret (reply_string "", Some err)
    | None =>
        let* r := Clients_Get (shard_clients client) ctx in
        match r with
        | Fail err => ret (reply_string "", Some err)
        | Ok raw =>
            let* (result, err) :=
              match GetTx ctx with
              | (Some tx, true) => on_pipe tx ctx (CmdGet key) Result
              | _ => on_client (Client raw) ctx (CmdGet key) Result
              end in
            match err with
            | Some err =>
                if is_redis_Nil err then ret (result, Some (key_not_found key))
                else ret (result, Some err)
            | None => ret (result, None)
            end
        end
    end).

Definition shardClient_MGet (client : shardClient) (ctx : Ctx)
    (keys : list string) : M' (Reply * error) :=
  deferWrap "MGet" (
    let keys := validateKeys keys in
    let* r := Clients_Get (shard_clients client) ctx in
    match r with
    | Fail err => ret (reply_nil, Some err)
    | Ok raw =>
        let* (result, err) :=
          match GetTx ctx with
          | (Some tx, true) => on_pipe tx ctx (CmdMGet keys) Result
          | _ => on_client (Client raw) ctx (CmdMGet keys) Result
          end in
        match err with
        | Some err => ret (result, Some err)
        | None => ret (result, None)
        end
    end).

Definition shardClient_Exist (client : shardClient) (ctx : Ctx)
    (key : string) : M' (Reply * error) :=
  deferWrap "Exist" (
    match validateKey key with
    | Some err => ret (reply_int 0, Some err)
    | None =>
        let* r := Clients_Get (shard_clients client) ctx in
        match r with
        | Fail err => ret (reply_int 0, Some err)
        | Ok raw =>
            match GetTx ctx with
            | (Some tx, true) => on_pipe tx ctx (CmdExists key) Result
            | _ => on_client (Client raw) ctx (CmdExists key) Result
            end
        end
    end).

Definition shardClient_GetBytes (client : shardClient) (ctx : Ctx)
    (key : string) : M' (Reply * error) :=
  deferWrap "Get" (
    match validateKey key with
    | Some err => ret (reply_nil, Some err)
    | None =>
        let* r := Clients_Get (shard_clients client) ctx in
        match r with
        | Fail err => ret (reply_nil, Some err)
        | Ok raw =>
            let* (result, err) :=
              match GetTx ctx with
              | (Some tx, true) => on_pipe tx ctx (CmdGet key) Bytes
              | _ => on_client (Client raw) ctx (CmdGet key) Bytes
              end in
            match err with
            | Some err =>
                if is_redis_Nil err then ret (result, Some (key_not_found key))
                else ret (result, Some err)
            | None => ret (result, None)
            end
        end
    end).

Definition shardClient_GetInt (client : shardClient) (ctx : Ctx)
    (key : string) : M' (Reply * error) :=
  deferWrap "GetInt" (
    match validateKey key with
    | Some err => ret (reply_int 0, Some err)
    | None =>
        let* r := Clients_Get (shard_clients client) ctx in
        match r with
        | Fail err => ret (reply_int 0, Some err)
        | Ok raw =>
            let* (result, err) :=
              match GetTx ctx with
              | (Some tx, true) => on_pipe tx ctx (CmdGet key) Int
              | _ => on_client (Client raw) ctx (CmdGet key) Int
              end in
            match err with
            | Some err =>
                if is_redis_Nil err then ret (result, Some (key_not_found key))
                else ret (result, Some err)
            | None => ret (result, None)
            end
        end
    end).

Definition shardClient_Parse (client : shardClient) (ctx : Ctx)
    (key : string) (export : any) : M' error :=
  deferWrap_err "Parse" (
    match validateKey key with
    | Some err => ret (Some err)
    | None =>
        let* r := Clients_Get (shard_clients client) ctx in
        match r with
        | Fail err => ret (Some err)
        | Ok raw =>
            let* (result, err) :=
              match GetTx ctx with
              | (Some tx, true) => on_pipe tx ctx (CmdGet key) Bytes
              | _ => on_client (Client raw) ctx (CmdGet key) Bytes
              end in
            match err with
            | Some err =>
                if is_redis_Nil err then ret (Some (key_not_found key))
                else ret (Some err)
            | None => ret (json_Unmarshal x result export)
            end
        end
    end).

Definition shardClient_HSet (client : shardClient) (ctx : Ctx)
    (key : string) (value : list (string * any)) : M' error :=
  deferWrap_err "HSet" (
    match validateKey key with
    | Some err => ret (Some err)
    | None =>
        let* r := Clients_Get (shard_clients client) ctx in
        match r with
        | Fail err => ret (Some err)
        | Ok raw =>
            match GetTx ctx with
            | (Some tx, true) => err_on_pipe tx ctx (CmdHSet key value)
            | _ => err_on_client (Client raw) ctx (CmdHSet key value)
            end
        end
    end).

Definition shardClient_HGetAll (client : shardClient) (ctx : Ctx)
    (key : string) : M' (Reply * error) :=
  deferWrap "HGetAll" (
    match validateKey key with
    | Some err => ret (reply_nil, Some err)
    | None =>
        let* r := Clients_Get (shard_clients client) ctx in
        match r with
        | Fail err => ret (reply_nil, Some err)
        | Ok raw =>
            match GetTx ctx with
            | (Some tx, true) => on_pipe tx ctx (CmdHGetAll key) Result
            | _ => on_client (Client raw) ctx (CmdHGetAll key) Result
            end
        end
    end).

Definition shardClient_HGet (client : shardClient) (ctx : Ctx)
    (key field : string) : M' (Reply * error) :=
  deferWrap "HGet" (
    match validateKey key with
    | Some err => ret (reply_string "", Some err)
    | None =>
        let* r := Clients_Get (shard_clients client) ctx in
        match r with
        | Fail err => ret (reply_string "", Some err)
        | Ok raw =>
            match GetTx ctx with
            | (Some tx, true) => on_pipe tx ctx (CmdHGet key field) Result
            | _ => on_client (Client raw) ctx (CmdHGet key field) Result
            end
        end
    end).

Definition shardClient_HGetInt (client : shardClient) (ctx : Ctx)
    (key field : string) : M' (Reply * error) :=
  deferWrap "HGet" (
    match validateKey key with
    | Some err => ret (reply_int 0, Some err)
    | None =>
        let* r := Clients_Get (shard_clients client) ctx in
        match r with
        | Fail err => ret (reply_int 0, Some err)
        | Ok raw =>
            match GetTx ctx with
            | (Some tx, true) => on_pipe tx ctx (CmdHGet key field) Int
            | _ => on_client (Client raw) ctx (CmdHGet key field) Int
            end
        end
    end).

Definition shardClient_HGetBool (client : shardClient) (ctx : Ctx)
    (key field : string) : M' (Reply * error) :=
  deferWrap "HGet" (
    match validateKey key with
    | Some err => ret (reply_bool false, Some err)
    | None =>
        let* r := Clients_Get (shard_clients client) ctx in
        match r with
        | Fail err => ret (reply_bool false, Some err)
        | Ok raw =>
            match GetTx ctx with
            | (Some tx, true) => on_pipe tx ctx (CmdHGet key field) Bool
            | _ => on_client (Client raw) ctx (CmdHGet key field) Bool
            end
        end
    end).

Definition shardClient_HExist (client : shardClient) (ctx : Ctx)
    (key field : string) : M' (Reply * error) :=
  deferWrap "HExist" (
    match validateKey key with
    | Some err => ret (reply_bool false, Some err)
    | None =>
        let* r := Clients_Get (shard_clients client) ctx in
        match r with
        | Fail err => ret (reply_bool false, Some err)
        | Ok raw =>
            match GetTx ctx with
            | (Some tx, true) => on_pipe tx ctx (CmdHExists key field) Result
            | _ => on_client (Client raw) ctx (CmdHExists key field) Result
            end
        end
    end).

Definition shardClient_HDelete (client : shardClient) (ctx : Ctx)
    (key : string) (fields : list string) : M' error :=
  deferWrap_err "HDelete" (
    match validateKey key with
    | Some err => ret (Some err)
    | None =>
        let* r := Clients_Get (shard_clients client) ctx in
        match r with
        | Fail err => ret (Some err)
        | Ok raw =>
            match GetTx ctx with
            | (Some tx, true) => err_on_pipe tx ctx (CmdHDel key fields)
            | _ => err_on_client (Client raw) ctx (CmdHDel key fields)
            end
        end
    end).

Definition shardClient_HScan (client : shardClient) (ctx : Ctx)
    (key : string) (cursor : Z) (pattern : string) (count : Z) : M' (Reply * error) :=
  deferWrap "HScan" (
    match validateKey key with
    | Some err => ret (reply_scan [] 0, Some err)
    | None =>
        let* r := Clients_Get (shard_clients client) ctx in
        match r with
        | Fail err => ret (reply_scan [] 0, Some err)
        | Ok raw =>
            match GetTx ctx with
            | (Some tx, true) => on_pipe tx ctx (CmdHScan key cursor pattern count) Result
            | _ => on_client (Client raw) ctx (CmdHScan key cursor pattern count) Result
            end
        end
    end).

Definition shardClient_Scan (client : shardClient) (ctx : Ctx)
    (cursor : Z) (pattern : string) (count : Z) : M' (Reply * error) :=
  deferWrap "Scan" (
    let* r := Clients_Get (shard_clients client) ctx in
    match r with
    | Fail err => ret (reply_scan [] 0, Some err)
    | Ok raw =>
        match GetTx ctx with
        | (Some tx, true) => on_pipe tx ctx (CmdScan cursor pattern count) Result
        | _ => on_client (Client raw) ctx (CmdScan cursor pattern count) Result
        end
    end).

Definition shardClient_HIncrBy (client : shardClient) (ctx : Ctx)
    (key field : string) (incr : Z) : M' (Reply * error) :=
  deferWrap "HIncrBy" (
    match validateKey key with
    | Some err => ret (reply_int 0, Some err)
    | None =>
        let* r := Clients_Get (shard_clients client) ctx in
        match r with
        | Fail err => ret (reply_int 0, Some err)
        | Ok raw =>
            match GetTx ctx with
            | (Some tx, true) => on_pipe tx ctx (CmdHIncrBy key field incr) Result
            | _ => on_client (Client raw) ctx (CmdHIncrBy key field incr) Result
            end
        end
    end).

Definition shardClient_HIncrByFloat (client : shardClient) (ctx : Ctx)
    (key field : string) (incr : float64) : M' (Reply * error) :=
  deferWrap "HIncrByFloat" (
    match validateKey key with
    | Some err => ret (reply_float 0%Z, Some err)
    | None =>
        let* r := Clients_Get (shard_clients client) ctx in
        match r with
        | Fail err => ret (reply_float 0%Z, Some err)
        | Ok raw =>
            match GetTx ctx with
            | (Some tx, true) => on_pipe tx ctx (CmdHIncrByFloat key field incr) Result
            | _ => on_client (Client raw) ctx (CmdHIncrByFloat key field incr) Result
            end
        end
    end).

Definition shardClient_HKeys (client : shardClient) (ctx : Ctx)
    (key : string) : M' (Reply * error) :=
  deferWrap "HKeys" (
    match validateKey key with
    | Some err => ret (reply_nil, Some err)
    | None =>
        let* r := Clients_Get (shard_clients client) ctx in
        match r with
        | Fail err => ret (reply_nil, Some err)
        | Ok raw =>
            match GetTx ctx with
            | (Some tx, true) => on_pipe tx ctx (CmdHKeys key) Result
            | _ => on_client (Client raw) ctx (CmdHKeys key) Result
            end
        end
    end).

Definition shardClient_HLen (client : shardClient) (ctx : Ctx)
    (key : string) : M' (Reply * error) :=
  deferWrap "HLen" (
    match validateKey key with
    | Some err => ret (reply_int 0, Some err)
    | None =>
        let* r := Clients_Get (shard_clients client) ctx in
        match r with
        | Fail err => ret (reply_int 0, Some err)
        | Ok raw =>
            match GetTx ctx with
            | (Some tx, true) => on_pipe tx ctx (CmdHLen key) Result
            | _ => on_client (Client raw) ctx (CmdHLen key) Result
            end
        end
    end).

Definition shardClient_HMGet (client : shardClient) (ctx : Ctx)
    (key : string) (fields : list string) : M' (Reply * error) :=
  deferWrap "HMGet" (
    if (length fields =? 0)%nat then ret (reply_list [], None) else
    match validateKey key with
    | Some err => ret (reply_nil, Some err)
    | None =>
        let* r := Clients_Get (shard_clients client) ctx in
        match r with
        | Fail err => ret (reply_nil, Some err)
        | Ok raw =>
            match GetTx ctx with
            | (Some tx, true) => on_pipe tx ctx (CmdHMGet key fields) Result
            | _ => on_client (Client raw) ctx (CmdHMGet key fields) Result
            end
        end
    end).

Definition shardClient_HMSet (client : shardClient) (ctx : Ctx)
    (key : string) (values : list any) : M' error :=
  deferWrap_err "HMSet" (
    if (length values =? 0)%nat then ret None else
    match validateKey key with
    | Some err => ret (Some err)
    | None =>
        let* r := Clients_Get (shard_clients client) ctx in
        match r with
        | Fail err => ret (Some err)
        | Ok raw =>
            match GetTx ctx with
            | (Some tx, true) => err_on_pipe tx ctx (CmdHMSet key values)
            | _ => err_on_client (Client raw) ctx (CmdHMSet key values)
            end
        end
    end).

Definition shardClient_HSetNX (client : shardClient) (ctx : Ctx)
    (key field : string) (value : any) : M' error :=
  deferWrap_err "HSetNX" (
    match validateKey key with
    | Some err => ret (Some err)
    | None =>
        let* r := Clients_Get (shard_clients client) ctx in
        match r with
        | Fail err => ret (Some err)
        | Ok raw =>
            match GetTx ctx with
            | (Some tx, true) => err_on_pipe tx ctx (CmdHSetNX key field value)
            | _ => err_on_client (Client raw) ctx (CmdHSetNX key field value)
            end
        end
    end).

Definition shardClient_HScanNoValues (client : shardClient) (ctx : Ctx)
    (key : string) (cursor : Z) (pattern : string) (count : Z) : M' (Reply * error) :=
  deferWrap "HScaNoValues" (
    match validateKey key with
    | Some err => ret (reply_scan [] cursor, Some err)
    | None =>
        let* r := Clients_Get (shard_clients client) ctx in
        match r with
        | Fail err => ret (reply_scan [] 0, Some err)
        | Ok raw =>
            match GetTx ctx with
            | (Some tx, true) => on_pipe tx ctx (CmdHScanNoValues key cursor pattern count) Result
            | _ => on_client (Client raw) ctx (CmdHScanNoValues key cursor pattern count) Result
            end
        end
    end).

Definition shardClient_HVals (client : shardClient) (ctx : Ctx)
    (key : string) : M' (Reply * error) :=
  deferWrap "HVals" (
    match validateKey key with
    | Some err => ret (reply_nil, Some err)
    | None =>
        let* r := Clients_Get (shard_clients client) ctx in
        match r with
        | Fail err => ret (reply_nil, Some err)
        | Ok raw =>
            match GetTx ctx with
            | (Some tx, true) => on_pipe tx ctx (CmdHVals key) Result
            | _ => on_client (Client raw) ctx (CmdHVals key) Result
            end
        end
    end).

Definition shardClient_HRandField (client : shardClient) (ctx : Ctx)
    (key : string) (count : Z) : M' (Reply * error) :=
  deferWrap "HRandField" (
    match validateKey key with
    | Some err => ret (reply_nil, Some err)
    | None =>
        let* r := Clients_Get (shard_clients client) ctx in
        match r with
        | Fail err => ret (reply_nil, Some err)
        | Ok raw =>
            match GetTx ctx with
            | (Some tx, true) => on_pipe tx ctx (CmdHRandField key count) Result
            | _ => on_client (Client raw) ctx (CmdHRandField key count) Result
            end
        end
    end).

Definition shardClient_HRandFieldWithValues (client : shardClient) (ctx : Ctx)
    (key : string) (count : Z) : M' (Reply * error) :=
  deferWrap "HRandFieldWithValues" (
    match validateKey key with
    | Some err => ret (reply_nil, Some err)
    | None =>
        let* r := Clients_Get (shard_clients client) ctx in
        match r with
        | Fail err => ret (reply_nil, Some err)
        | Ok raw =>
            match GetTx ctx with
            | (Some tx, true) => on_pipe tx ctx (CmdHRandFieldWithValues key count) Result
            | _ => on_client (Client raw) ctx (CmdHRandFieldWithValues key count) Result
            end
        end
    end).

Definition shardClient_HExpire (client : shardClient) (ctx : Ctx)
    (key : string) (expiration : Duration) (fields : list string) : M' (Reply * error) :=
  deferWrap "HExpire" (
    if (length fields =? 0)%nat then ret (reply_nil, None) else
    match validateKey key with
    | Some err => ret (reply_nil, Some err)
    | None =>
        let* r := Clients_Get (shard_clients client) ctx in
        match r with
        | Fail err => ret (reply_nil, Some err)
        | Ok raw =>
            match GetTx ctx with
            | (Some tx, true) => on_pipe tx ctx (CmdHExpire key expiration fields) Result
            | _ => on_client (Client raw) ctx (CmdHExpire key expiration fields) Result
            end
        end
    end).

Definition shardClient_HTTL (client : shardClient) (ctx : Ctx)
    (key : string) (fields : list string) : M' (Reply * error) :=
  deferWrap "HTTL" (
    if (length fields =? 0)%nat then ret (reply_nil, None) else
    match validateKey key with
    | Some err => ret (reply_nil, Some err)
    | None =>
        let* r := Clients_Get (shard_clients client) ctx in
        match r with
        | Fail err => ret (reply_nil, Some err)
        | Ok raw =>
            match GetTx ctx with
            | (Some tx, true) => on_pipe tx ctx (CmdHTTL key fields) Result
            | _ => on_client (Client raw) ctx (CmdHTTL key fields) Result
            end
        end
    end).

End Package.

End RedisPart001.

(** ** Package sql, the shard client in the second revision of
       src/sql/client_shard.go

    This revision validates the context before it selects a shard,
    returns the errors as they are, and writes its log records through
    the package log. *)

Module SqlRevision2.

Inductive Event : Type :=
| EvSqlx (on : Sql.Target) (cmd : Sql.Cmd)
| EvLog (connection_key query_type query : string) (args : list string).

Record Externals (W : Type) : Type := {
  sqlx_call : Sql.Target -> Ctx -> Sql.Cmd -> W -> (option Sql.Reply * error) * W;
  contextx_Validate : Ctx -> error;
  convert_Bool : any -> bool;
  convert_String : any -> string;
  (* log.Info().Ctx(ctx).Str(...).Str(...).Str(...).Strs(...).Send() *)
  log_Send : Ctx -> string -> string -> string -> list string -> W -> unit * W
}.
Arguments sqlx_call {W}.
Arguments contextx_Validate {W}.
Arguments convert_Bool {W}.
Arguments convert_String {W}.
Arguments log_Send {W}.

Section Package.
Context {W : Type}.
Variable x : Externals W.
Local Abbreviation M' := (M Event W).

Record clientShard : Type := {
  connections : Sql.Connections W;
  enableLog : bool
}.

(** ClientShard creates DB implementation as shard client. *)
Definition ClientShard (connections : Sql.Connections W) (enableLog : list bool)
  : clientShard :=
  let enable := match enableLog with e :: _ => e | [] => false end in
  {| connections := connections; enableLog := enable |}.

Definition clientShard_Connection (c : clientShard) : option DBConn := None.

Definition clientShard_printLog (c : clientShard) (ctx : Ctx)
    (connectionKey queryType query : string) (args : list any) : M' unit :=
  if negb (enableLog c) || Storage.IsNoLog (convert_Bool x) ctx then ret tt
  else
    let convertedArgs := convert_String x <$> args in
    call (EvLog connectionKey queryType query convertedArgs)
         (log_Send x ctx connectionKey queryType query convertedArgs).

(** [c.connections.Get(ctx)] *)
Definition clientShard_selectConnect (c : clientShard) (ctx : Ctx)
  : M' (result Sql.ShardConnect) :=
  let* conn := quiet (Sql.selector (connections c) ctx
                                   (Sql.connections (connections c))) in
  match conn with
  | None => ret (Fail ErrConnNotSelected)
  | Some conn => ret (Ok conn)
  end.

Definition on_tx (tx : Tx) (ctx : Ctx) (cmd : Sql.Cmd)
  : M' (option Sql.Reply * error) :=
  call (EvSqlx (Sql.OnTx tx) cmd) (sqlx_call x (Sql.OnTx tx) ctx cmd).

Definition on_db (conn : DBConn) (ctx : Ctx) (cmd : Sql.Cmd)
  : M' (option Sql.Reply * error) :=
  call (EvSqlx (Sql.OnDB conn) cmd) (sqlx_call x (Sql.OnDB conn) ctx cmd).

Definition clientShard_ExecContext (c : clientShard) (ctx : Ctx)
    (query : string) (args : list any) : M' (option Sql.Reply * error) :=
  match contextx_Validate x ctx with
  | Some err => ret (None, Some err)
  | None =>
      let* r := clientShard_selectConnect c ctx in
      match r with
      | Fail err => ret (None, Some err)
      | Ok raw =>
          let* _ := clientShard_printLog c ctx (Sql.Key raw) "ExecContext"
                                         query args in
          match Sql.GetTx ctx with
          | (Some tx, true) => on_tx tx ctx (Sql.CmdExecContext query args)
          | _ => on_db (Sql.Conn raw) ctx (Sql.CmdExecContext query args)
          end
      end
  end.

Definition clientShard_QueryContext (c : clientShard) (ctx : Ctx)
    (query : string) (args : list any) : M' (option Sql.Reply * error) :=
  match contextx_Validate x ctx with
  | Some err => ret (None, Some err)
  | None =>
      let* r := clientShard_selectConnect c ctx in
      match r with
      | Fail err => ret (None, Some err)
      | Ok raw =>
          let* _ := clientShard_printLog c ctx (Sql.Key raw) "QueryContext"
                                         query args in
          match Sql.GetTx ctx with
          | (Some tx, true) => on_tx tx ctx (Sql.CmdQueryContext query args)
          | _ => on_db (Sql.Conn raw) ctx (Sql.CmdQueryContext query args)
          end
      end
  end.

Definition clientShard_QueryxContext (c : clientShard) (ctx : Ctx)
    (query : string) (args : list any) : M' (option Sql.Reply * error) :=
  match contextx_Validate x ctx with
  | Some err => ret (None, Some err)
  | None =>
      let* r := clientShard_selectConnect c ctx in
      match r with
      | Fail err => ret (None, Some err)
      | Ok raw =>
          let* _ := clientShard_printLog c ctx (Sql.Key raw) "QueryxContext"
                                         query args in
          match Sql.GetTx ctx with
          | (Some tx, true) => on_tx tx ctx (Sql.CmdQueryxContext query args)
          | _ => on_db (Sql.Conn raw) ctx (Sql.CmdQueryxContext query args)
          end
      end
  end.

(** QueryRowxContext does not validate the context. *)
Definition clientShard_QueryRowxContext (c : clientShard) (ctx : Ctx)
    (query : string) (args : list any) : M' (option Sql.Reply) :=
  let* r := clientShard_selectConnect c ctx in
  match r with
  | Fail err => ret None
  | Ok raw =>
      let* _ := clientShard_printLog c ctx (Sql.Key raw) "QueryRowxContext"
                                     query args in
      match Sql.GetTx ctx with
      | (Some tx, true) =>
          let* row := on_tx tx ctx (Sql.CmdQueryRowxContext query args) in
          ret row.1
      | _ =>
          let* row := on_db (Sql.Conn raw) ctx
                            (Sql.CmdQueryRowxContext query args) in
          ret row.1
      end
  end.

Definition clientShard_PrepareContext (c : clientShard) (ctx : Ctx)
    (query : string) : M' (option Sql.Reply * error) :=
  match contextx_Validate x ctx with
  | Some err => ret (None, Some err)
  | None =>
      let* r := clientShard_selectConnect c ctx in
      match r with
      | Fail err => ret (None, Some err)
      | Ok raw =>
          let* _ := clientShard_printLog c ctx (Sql.Key raw) "PrepareContext"
                                         query [] in
          match Sql.GetTx ctx with
          | (Some tx, true) => on_tx tx ctx (Sql.CmdPrepareContext query)
          | _ => on_db (Sql.Conn raw) ctx (Sql.CmdPrepareContext query)
          end
      end
  end.

Definition clientShard_NamedExecContext (c : clientShard) (ctx : Ctx)
    (query : string) (arg : any) : M' (option Sql.Reply * error) :=
  match contextx_Validate x ctx with
  | Some err => ret (None, Some err)
  | None =>
      let* r := clientShard_selectConnect c ctx in
      match r with
      | Fail err => ret (None, Some err)
      | Ok raw =>
          let* _ := clientShard_printLog c ctx (Sql.Key raw) "NamedExecContext"
                                         query [arg] in
          match Sql.GetTx ctx with
          | (Some tx, true) => on_tx tx ctx (Sql.CmdNamedExecContext query arg)
          | _ => on_db (Sql.Conn raw) ctx (Sql.CmdNamedExecContext query arg)
          end
      end
  end.

Definition clientShard_SelectContext (c : clientShard) (ctx : Ctx)
    (dest : any) (query : string) (args : list any) : M' error :=
  match contextx_Validate x ctx with
  | Some err => ret (Some err)
  | None =>
      let* r := clientShard_selectConnect c ctx in
      match r with
      | Fail err => ret (Some err)
      | Ok raw =>
          let* _ := clientShard_printLog c ctx (Sql.Key raw) "SelectContext"
                                         query args in
          match Sql.GetTx ctx with
          | (Some tx, true) =>
              let* res := on_tx tx ctx (Sql.CmdSelectContext dest query args) in
              ret res.2
          | _ =>
              let* res := on_db (Sql.Conn raw) ctx
                                (Sql.CmdSelectContext dest query args) in
              ret res.2
          end
      end
  end.

Definition clientShard_GetContext (c : clientShard) (ctx : Ctx)
    (dest : any) (query : string) (args : list any) : M' error :=
  match contextx_Validate x ctx with
  | Some err => ret (Some err)
  | None =>
      let* r := clientShard_selectConnect c ctx in
      match r with
      | Fail err => ret (Some err)
      | Ok raw =>
          let* _ := clientShard_printLog c ctx (Sql.Key raw) "GetContext"
                                         query args in
          match Sql.GetTx ctx with
          | (Some tx, true) =>
              let* res := on_tx tx ctx (Sql.CmdGetContext dest query args) in
              ret res.2
          | _ =>
              let* res := on_db (Sql.Conn raw) ctx
                                (Sql.CmdGetContext dest query args) in
              ret res.2
          end
      end
  end.

Definition clientShard_PrepareNamedContext (c : clientShard) (ctx : Ctx)
    (query : string) : M' (option Sql.Reply * error) :=
  match contextx_Validate x ctx with
  | Some err => ret (None, Some err)
  | None =>
      let* r := clientShard_selectConnect c ctx in
      match r with
      | Fail err => ret (None, Some err)
      | Ok raw =>
          let* _ := clientShard_printLog c ctx (Sql.Key raw)
                                         "PrepareNamedContext" query [] in
          match Sql.GetTx ctx with
          | (Some tx, true) => on_tx tx ctx (Sql.CmdPrepareNamedContext query)
          | _ => on_db (Sql.Conn raw) ctx (Sql.CmdPrepareNamedContext query)
          end
      end
  end.

End Package.
Arguments clientShard : clear implicits.
End SqlRevision2.

(** ** Package sql, the single client of src/unnamed/part_004 *)

Module SqlSingle.
Import Sql.

Section Package.
Context {W : Type}.
Variable x : Externals W.
Local Abbreviation M' := (M Event W).
Local Abbreviation on_tx := (Sql.on_tx x).
Local Abbreviation on_db := (Sql.on_db x).


Definition clientSingle_Connection (c : clientSingle) : DBConn := single_conn c.











Definition not_supported : Err :=
  ErrNew "method not supported in single client" [].

Definition clientSingle_EachShard (c : clientSingle)
    (_ : DB W -> W -> error * W) : M' error :=
  ret (Some not_supported).

Definition clientSingle_EachShardAsync (c : clientSingle)
    (_ : DB W -> W -> error * W) (_ : list Z) : M' error :=
  ret (Some not_supported).

End Package.

(** *** Pagination *)

(** Go's int on a 64-bit platform: the result of an operation is taken
    modulo 2^64 into [-2^63, 2^63). *)
Definition wrap64 (z : Z) : Z :=
  ((z + 2 ^ 63) mod 2 ^ 64 - 2 ^ 63)%Z.

(** Page returns offset & limit by pagination *)
Definition Page (pageSize page : Z) : Z * Z :=
  let page := if (page =? 0)%Z then 1%Z else page in
  let offset := wrap64 (wrap64 (page - 1) * pageSize) in
  let limit := pageSize in
  (offset, limit).

End SqlSingle.

(** ** Package sql, the query arguments of src/sql/client_shard.go *)

Module SqlArguments.

(** Arguments Helps manage query arguments count & their values *)
Record Arguments : Type := {
  args : list any;
  counter : Z
}.

(** [fmt.Sprintf("%d", n)] *)
Definition Sprintf_d (n : Z) : string := DecimalString.NilZero.string_of_int (Z.to_int n).

(** NewArguments created instance of Arguments object *)
Definition NewArguments (args : list any) : Arguments :=
  {| args := args; counter := Z.of_nat (length args) |}.

(** Add new argument and increment count. *)
Definition Add (a : Arguments) (arg : any) : Arguments :=
  {| args := args a ++ [arg]; counter := SqlSingle.wrap64 (counter a + 1) |}.

(** Number returns current $number value as a string *)
Definition Number (a : Arguments) : string := ("$" ++ Sprintf_d (counter a))%string.

(** The loop of AddMany: [idx] is the position of the head of [rest] in
    the arguments, [n] their number. *)
Fixpoint AddMany_loop (a : Arguments) (values : string) (idx n : nat)
    (rest : list any) : string * Arguments :=
  match rest with
  | [] => (values, a)
  | arg :: rest =>
      let a := Add a arg in
      let values := (values ++ Number a)%string in
      let values := if (idx <? n - 1)%nat then (values ++ ", ")%string
                    else values in
      AddMany_loop a values (S idx) n rest
  end.

(** AddMany adds new many arguments and return "($1, $2, $3...)" string *)
Definition AddMany (a : Arguments) (args : list any) : string * Arguments :=
  if (length args =? 0)%nat then ("", a)
  else
    let '(values, a) := AddMany_loop a "(" 0 (length args) args in
    ((values ++ ")")%string, a).

(** Args return all provided arguments for executing query *)
Definition Args (a : Arguments) : list any := args a.

End SqlArguments.

(** ** Package sql, the transaction helpers of src/unnamed/part_003 *)

Module SqlAtomic.

(** The callbacks are collaborators: a call to one is recorded with what
    it was given and the error that came back.  [errorx.Try], of
    another repository, runs the function it is given and turns a panic
    into an error. *)
Inductive Event : Type :=
| EvBeginx (conn : DBConn)
| EvCommit (tx : Tx)
| EvRollback (tx : Tx)
| EvActions (tx : Tx) (returned : error)
| EvTry (ctx : Ctx) (returned : error).

Record Externals (W : Type) : Type := {
  sqlx_Beginx : DBConn -> W -> result Tx * W;
  sqlx_Commit : Tx -> W -> error * W;
  sqlx_Rollback : Tx -> W -> error * W;
  errorx_Try : (W -> error * W) -> W -> error * W
}.
Arguments sqlx_Beginx {W}.
Arguments sqlx_Commit {W}.
Arguments sqlx_Rollback {W}.
Arguments errorx_Try {W}.

Section Package.
Context {W : Type}.
Variable x : Externals W.
Local Abbreviation M' := (M Event W).

(** [defer f()]: [f] runs once the result of the body is fixed. *)
Definition defer {A} (deferred : M' unit) (body : M' A) : M' A :=
  let* result := body in
  let* _ := deferred in
  ret result.

(** Transaction run "actions" by created transaction object *)
Definition Transaction (conn : DBConn)
    (transactionActions : Tx -> W -> error * W) : M' error :=
  let* r := call (EvBeginx conn) (sqlx_Beginx x conn) in
  match r with
  | Fail err => ret (Some err)
  | Ok transaction =>
      defer (let* _ := call (EvRollback transaction)
                            (sqlx_Rollback x transaction) in ret tt)
        (let* err := call_with (EvActions transaction)
                               (transactionActions transaction) in
         match err with
         | Some err => ret (Some err)
         | None => call (EvCommit transaction) (sqlx_Commit x transaction)
         end)
  end.


End Package.
End SqlAtomic.

(** ** Package sql, the transactor of src/unnamed/part_010

    This revision puts the error of the driver under the errors of the
    package and has TryCommit. *)

Module SqlPart010.
Import Sql.

Definition ErrTransactorBegin (err : Err) : Err :=
  ErrNewOn "transactor.begin" err [].
Definition ErrTransactorCommit (err : Err) : Err :=
  ErrNewOn "transactor.commit" err [].
Definition ErrTransactorRollback (err : Err) : Err :=
  ErrNewOn "transactor.rollback" err [].

Section Package.
Context {W : Type}.
Variable x : Externals W.
Local Abbreviation M' := (M Event W).

Definition sqlTransactor_Begin (st : sqlTransactor W) (ctx : Ctx)
  : M' (result sqlTransaction) :=
  let* r := provider_BeginTxx x (provider st) ctx read_committed in
  match r with
  | Fail err => ret (Fail (ErrTransactorBegin err))
  | Ok tx => ret (Ok (newTransactorTx ctx tx))
  end.

Definition sqlTransactor_BeginCtx (st : sqlTransactor W) (ctx : Ctx)
  : M' (Storage.BeginCtxResult) :=
  let* r := provider_BeginTxx x (provider st) ctx read_committed in
  match r with
  | Fail err => ret (Storage.NotBegan None (ErrTransactorBegin err))
  | Ok tx => ret (Storage.Began (SetTx ctx tx))
  end.

Definition sqlTransactor_CommitCtx (st : sqlTransactor W) (ctx : Ctx)
  : M' error :=
  match GetTx ctx with
  | (Some tx, true) =>
      let* err := call (EvCommit tx) (sqlx_Commit x tx) in
      match err with
      | Some err => ret (Some (ErrTransactorCommit err))
      | None => ret None
      end
  | _ => ret None
  end.

Definition sqlTransactor_RollbackCtx (st : sqlTransactor W) (ctx : Ctx)
  : M' error :=
  match GetTx ctx with
  | (Some tx, true) =>
      let* err := call (EvRollback tx) (sqlx_Rollback x tx) in
      match err with
      | Some err => ret (Some (ErrTransactorRollback err))
      | None => ret None
      end
  | _ => ret None
  end.


End Package.
End SqlPart010.

(** ** Closing a shard set (src/sql/errors.go, src/redis/client_shard.go) *)

Module SqlClose.

Inductive Event : Type :=
| EvClose (conn : DBConn) (returned : error).

Section Package.
Context {W : Type}.
Variable sqlx_Close : DBConn -> W -> error * W.
Local Abbreviation M' := (M Event W).

(** shardConnect.Close *)
Definition shardConnect_Close (conn : Sql.ShardConnect) : M' error :=
  call_with (EvClose (Sql.Conn conn)) (sqlx_Close (Sql.Conn conn)).

Fixpoint Close_spawn (connections : list Sql.ShardConnect)
    (wg : Errgroup.Group Event W) : Errgroup.Group Event W :=
  match connections with
  | [] => wg
  | conn :: rest => Close_spawn rest (Errgroup.Go wg (shardConnect_Close conn))
  end.


End Package.
End SqlClose.

Module RedisClose.

Inductive Event : Type :=
| EvClose (client : UniversalClient) (returned : error).

Section Package.
Context {W : Type}.
Variable redis_Close : UniversalClient -> W -> error * W.
Local Abbreviation M' := (M Event W).

(** shardConnect.Close *)
Definition shardConnect_Close (conn : Redis.ShardClient) : M' error :=
  call_with (EvClose (Redis.Client conn)) (redis_Close (Redis.Client conn)).

Fixpoint Close_spawn (clients : list Redis.ShardClient)
    (wg : Errgroup.Group Event W) : Errgroup.Group Event W :=
  match clients with
  | [] => wg
  | conn :: rest => Close_spawn rest (Errgroup.Go wg (shardConnect_Close conn))
  end.



End Package.
End RedisClose.

(** * Facts *)

(** ** The monad *)

Section EffectFacts.
Context {E W : Type}.

Lemma value_mk {A} (a : A) (w : W) (t : list E) : value (a, w, t) = a.
Proof. reflexivity. Qed.

Lemma world_mk {A} (a : A) (w : W) (t : list E) : world (a, w, t) = w.
Proof. reflexivity. Qed.

Lemma trace_mk {A} (a : A) (w : W) (t : list E) : trace (a, w, t) = t.
Proof. reflexivity. Qed.

Lemma bind_run {A B} (m : M E W A) (k : A -> M E W B) (w : W) :
  bind m k w =
  (value (k (value (m w)) (world (m w))),
   world (k (value (m w)) (world (m w))),
   trace (m w) ++ trace (k (value (m w)) (world (m w)))).
Proof.
  unfold bind, value, world, trace.
  destruct (m w) as [[a w1] t1]. simpl.
  by destruct (k a w1) as [[b w2] t2].
Qed.

Lemma value_bind {A B} (m : M E W A) (k : A -> M E W B) w :
  value (bind m k w) = value (k (value (m w)) (world (m w))).
Proof. by rewrite bind_run. Qed.

Lemma world_bind {A B} (m : M E W A) (k : A -> M E W B) w :
  world (bind m k w) = world (k (value (m w)) (world (m w))).
Proof. by rewrite bind_run. Qed.

Lemma trace_bind {A B} (m : M E W A) (k : A -> M E W B) w :
  trace (bind m k w) = trace (m w) ++ trace (k (value (m w)) (world (m w))).
Proof. by rewrite bind_run. Qed.

Lemma trace_ret {A} (a : A) (w : W) : trace (ret (E:=E) a w) = [].
Proof. reflexivity. Qed.

Lemma value_ret {A} (a : A) (w : W) : value (ret (E:=E) a w) = a.
Proof. reflexivity. Qed.




Lemma trace_call {A} (e : E) (f : W -> A * W) w : trace (call e f w) = [e].
Proof. unfold call, trace. by destruct (f w). Qed.

Lemma value_call {A} (e : E) (f : W -> A * W) w : value (call e f w) = (f w).1.
Proof. unfold call, value. by destruct (f w). Qed.

Lemma trace_call_with {A} (mk : A -> E) (f : W -> A * W) w :
  trace (call_with mk f w) = [mk (f w).1].
Proof. unfold call_with, trace. by destruct (f w). Qed.

Lemma value_call_with {A} (mk : A -> E) (f : W -> A * W) w :
  value (call_with mk f w) = (f w).1.
Proof. unfold call_with, value. by destruct (f w). Qed.

Lemma world_call_with {A} (mk : A -> E) (f : W -> A * W) w :
  world (call_with mk f w) = (f w).2.
Proof. unfold call_with, world. by destruct (f w). Qed.

End EffectFacts.

(** ** The ambient transaction store *)

Section AmbientStore.

Lemma Value_WithValue_same ctx key val :
  Value (WithValue ctx key val) key = val.
Proof. simpl. by rewrite String.eqb_refl. Qed.

Lemma Value_WithValue_other ctx key key' val :
  key <> key' -> Value (WithValue ctx key val) key' = Value ctx key'.
Proof.
  intros Hne. simpl. destruct (String.eqb_spec key key'); [contradiction | done].
Qed.

Lemma sql_GetTx_SetTx ctx tx : Sql.GetTx (Sql.SetTx ctx tx) = (Some tx, true).
Proof. unfold Sql.GetTx, Sql.SetTx. by rewrite Value_WithValue_same. Qed.

Lemma redis_GetTx_SetTx ctx tx :
  Redis.GetTx (Redis.SetTx ctx tx) = (Some tx, true).
Proof. unfold Redis.GetTx, Redis.SetTx. by rewrite Value_WithValue_same. Qed.

Lemma keys_distinct : Sql.transactionKey <> Redis.transactionKey.
Proof. discriminate. Qed.

(** The two kinds use distinct keys: storing one leaves the other alone. *)
Lemma sql_GetTx_redis_SetTx ctx tx :
  Sql.GetTx (Redis.SetTx ctx tx) = Sql.GetTx ctx.
Proof. reflexivity. Qed.

Lemma redis_GetTx_sql_SetTx ctx tx :
  Redis.GetTx (Sql.SetTx ctx tx) = Redis.GetTx ctx.
Proof. reflexivity. Qed.

(** A lookup answers [true] only together with a handle. *)
Lemma sql_GetTx_ok ctx : (Sql.GetTx ctx).2 = true -> exists tx, Sql.GetTx ctx = (Some tx, true).
Proof.
  unfold Sql.GetTx. destruct (Value ctx Sql.transactionKey); simpl; try discriminate.
  intros _. by eexists.
Qed.

Lemma redis_GetTx_ok ctx :
  (Redis.GetTx ctx).2 = true -> exists tx, Redis.GetTx ctx = (Some tx, true).
Proof.
  unfold Redis.GetTx.
  destruct (Value ctx Redis.transactionKey); simpl; try discriminate.
  intros _. by eexists.
Qed.

(** C4. Storing a transaction handle and looking it up gives the handle
    back with [true], for the SQL slot and for the key-value slot.  The
    context returned by [SetTx] is a new link whose parent is the
    original context: the original is the same value as before, so a
    lookup on it answers as before, and through the new link every other
    key reads as in the original. *)
Theorem ambient_store_roundtrip :
  forall (ctx : Ctx),
    (forall tx : Tx,
        Sql.GetTx (Sql.SetTx ctx tx) = (Some tx, true)
        /\ parent_of (Sql.SetTx ctx tx) = Some ctx
        /\ (forall key, key <> Sql.transactionKey ->
                        Value (Sql.SetTx ctx tx) key = Value ctx key))
    /\ (forall tx : Pipeliner,
        Redis.GetTx (Redis.SetTx ctx tx) = (Some tx, true)
        /\ parent_of (Redis.SetTx ctx tx) = Some ctx
        /\ (forall key, key <> Redis.transactionKey ->
                        Value (Redis.SetTx ctx tx) key = Value ctx key)).
Proof.
  intros ctx. split; intros tx.
  - split; [apply sql_GetTx_SetTx |]. split; [reflexivity |].
    intros key Hne. apply Value_WithValue_other. congruence.
  - split; [apply redis_GetTx_SetTx |]. split; [reflexivity |].
    intros key Hne. apply Value_WithValue_other. congruence.
Qed.

End AmbientStore.

(** ** Resolving a shard *)

Section Resolve.
Context {W : Type}.

Lemma sql_Get_run (c : Sql.Connections W) ctx w :
  Sql.Connections_Get c ctx w =
  (match (Sql.selector c ctx (Sql.connections c) w).1 with
   | None => Fail ErrConnNotSelected
   | Some conn => Ok conn
   end, (Sql.selector c ctx (Sql.connections c) w).2, []).
Proof.
  unfold Sql.Connections_Get, bind, quiet, ret.
  by destruct (Sql.selector c ctx (Sql.connections c) w) as [[conn|] w'].
Qed.

Lemma redis_Get_run (c : Redis.Clients W) ctx w :
  Redis.Clients_Get c ctx w =
  (match (Redis.selector c ctx (Redis.clients c) w).1 with
   | None => Fail ErrConnNotSelected
   | Some conn => Ok conn
   end, (Redis.selector c ctx (Redis.clients c) w).2, []).
Proof.
  unfold Redis.Clients_Get, bind, quiet, ret.
  by destruct (Redis.selector c ctx (Redis.clients c) w) as [[conn|] w'].
Qed.

(** C6. Resolving through the shard set gives what the selector gave:
    when the selector answers nil, [Get] fails with ErrConnNotSelected
    and carries no handle; when it answers a handle, [Get] succeeds with
    exactly that handle.  Either way [Get] calls no driver. *)
Theorem shard_set_Get :
  forall (c : Sql.Connections W) (rc : Redis.Clients W) (ctx : Ctx) (w : W),
    (value (Sql.Connections_Get c ctx w) =
       match (Sql.selector c ctx (Sql.connections c) w).1 with
       | None => Fail ErrConnNotSelected
       | Some conn => Ok conn
       end
     /\ trace (Sql.Connections_Get c ctx w) = [])
    /\ (value (Redis.Clients_Get rc ctx w) =
         match (Redis.selector rc ctx (Redis.clients rc) w).1 with
         | None => Fail ErrConnNotSelected
         | Some conn => Ok conn
         end
       /\ trace (Redis.Clients_Get rc ctx w) = []).
Proof.
  intros c rc ctx w. rewrite sql_Get_run, redis_Get_run. by repeat split.
Qed.

End Resolve.

(** ** Commit and rollback without an ambient transaction *)

Section NoAmbientTransaction.
Context {W : Type}.

(** C5. On a context that carries no ambient transaction of the kind,
    CommitCtx and RollbackCtx of the SQL transactor and of the key-value
    transactor return nil, call nothing (the trace is empty: no Commit,
    Rollback, Exec or Discard) and leave the collaborators as they
    were. *)
Theorem CommitCtx_RollbackCtx_without_tx :
  forall (xs : Sql.Externals W) (xr : Redis.Externals W)
         (st : Sql.sqlTransactor W) (rt : Redis.redisTransactor W)
         (ctx : Ctx) (w : W),
    ((Sql.GetTx ctx).2 = false ->
       Sql.sqlTransactor_CommitCtx xs st ctx w = (None, w, [])
       /\ Sql.sqlTransactor_RollbackCtx xs st ctx w = (None, w, []))
    /\ ((Redis.GetTx ctx).2 = false ->
       Redis.redisTransactor_CommitCtx xr rt ctx w = (None, w, [])
       /\ Redis.redisTransactor_RollbackCtx xr rt ctx w = (None, w, [])).
Proof.
  intros xs xr st rt ctx w. split; intros Hno.
  - unfold Sql.sqlTransactor_CommitCtx, Sql.sqlTransactor_RollbackCtx.
    destruct (Sql.GetTx ctx) as [[tx|] [|]]; simpl in Hno;
      try discriminate; by split.
  - unfold Redis.redisTransactor_CommitCtx, Redis.redisTransactor_RollbackCtx.
    destruct (Redis.GetTx ctx) as [[tx|] [|]]; simpl in Hno;
      try discriminate; by split.
Qed.

End NoAmbientTransaction.

(** ** Building a shard set *)

(** The defects of a list of SQL shard entries: an empty key, an empty
    connection string, or a key that occurs twice. *)
Definition sql_defect (css : list Sql.ShardConnectString) : Prop :=
  Exists (fun cs => Sql.cs_Key cs = "") css
  \/ Exists (fun cs => Sql.cs_ConnectionString cs = "") css
  \/ ~ NoDup (Sql.cs_Key <$> css).

(** The defects of a list of key-value shard entries: an empty key, an
    empty address, a zero port, or a key that occurs twice. *)
Definition redis_defect (cfgs : list Redis.ShardConnectConfig) : Prop :=
  Exists (fun cs => Redis.cfg_Key cs = "") cfgs
  \/ Exists (fun cs => Redis.cfg_Address cs = "") cfgs
  \/ Exists (fun cs => Redis.cfg_Port cs = 0%Z) cfgs
  \/ ~ NoDup (Redis.cfg_Key <$> cfgs).

Section ConnectShards.
Context {W : Type}.

Lemma sql_validate_None css : forall keys,
  Sql.ConnectShards_validate css keys = None ->
  Forall (fun cs => Sql.cs_Key cs <> "" /\ Sql.cs_ConnectionString cs <> "") css
  /\ NoDup (Sql.cs_Key <$> css)
  /\ (forall k, k ∈ Sql.cs_Key <$> css -> k ∉ keys).
Proof.
  induction css as [|cs rest IH]; intros keys Hv; simpl in *.
  - split; [constructor |]. split; [constructor |]. intros k Hk. inversion Hk.
  - destruct (String.eqb_spec (Sql.cs_Key cs) ""); [discriminate |].
    destruct (String.eqb_spec (Sql.cs_ConnectionString cs) ""); [discriminate |].
    case_bool_decide as Hin; [discriminate |].
    destruct (IH _ Hv) as (Hall & Hnd & Hfresh).
    split; [by constructor |]. split.
    + apply NoDup_cons. split; [| done].
      intros Hk. apply (Hfresh _ Hk).
      apply elem_of_union. left. by apply elem_of_singleton.
    + intros k Hk. apply elem_of_cons in Hk as [-> | Hk]; [done |].
      intros Hin'. apply (Hfresh _ Hk). apply elem_of_union. by right.
Qed.

Lemma redis_validate_None cfgs : forall keys,
  Redis.ConnectShards_validate cfgs keys = None ->
  Forall (fun cs => Redis.cfg_Key cs <> "" /\ Redis.cfg_Address cs <> ""
                    /\ Redis.cfg_Port cs <> 0%Z) cfgs
  /\ NoDup (Redis.cfg_Key <$> cfgs)
  /\ (forall k, k ∈ Redis.cfg_Key <$> cfgs -> k ∉ keys).
Proof.
  induction cfgs as [|cs rest IH]; intros keys Hv; simpl in *.
  - split; [constructor |]. split; [constructor |]. intros k Hk. inversion Hk.
  - destruct (String.eqb_spec (Redis.cfg_Key cs) ""); [discriminate |].
    destruct (String.eqb_spec (Redis.cfg_Address cs) ""); [discriminate |].
    destruct (Z.eqb_spec (Redis.cfg_Port cs) 0); [discriminate |].
    case_bool_decide as Hin; [discriminate |].
    destruct (IH _ Hv) as (Hall & Hnd & Hfresh).
    split; [by constructor |]. split.
    + apply NoDup_cons. split; [| done].
      intros Hk. apply (Hfresh _ Hk).
      apply elem_of_union. left. by apply elem_of_singleton.
    + intros k Hk. apply elem_of_cons in Hk as [-> | Hk]; [done |].
      intros Hin'. apply (Hfresh _ Hk). apply elem_of_union. by right.
Qed.

Lemma sql_defect_rejected css :
  sql_defect css -> exists e, Sql.ConnectShards_validate css ∅ = Some e.
Proof.
  intros Hd. destruct (Sql.ConnectShards_validate css ∅) as [e|] eqn:Hv;
    [by eexists |].
  exfalso. destruct (sql_validate_None _ _ Hv) as (Hall & Hnd & _).
  destruct Hd as [Hex | [Hex | Hdup]]; [| | done].
  - apply Exists_exists in Hex as (cs & Hin & Hk).
    rewrite Forall_forall in Hall. by destruct (Hall cs Hin).
  - apply Exists_exists in Hex as (cs & Hin & Hk).
    rewrite Forall_forall in Hall. by destruct (Hall cs Hin).
Qed.

Lemma redis_defect_rejected cfgs :
  redis_defect cfgs -> exists e, Redis.ConnectShards_validate cfgs ∅ = Some e.
Proof.
  intros Hd. destruct (Redis.ConnectShards_validate cfgs ∅) as [e|] eqn:Hv;
    [by eexists |].
  exfalso. destruct (redis_validate_None _ _ Hv) as (Hall & Hnd & _).
  rewrite Forall_forall in Hall.
  destruct Hd as [Hex | [Hex | [Hex | Hdup]]]; [| | | done];
    apply Exists_exists in Hex as (cs & Hin & Hk);
    destruct (Hall cs Hin) as (? & ? & ?); done.
Qed.

(** C9. A list of shard entries with an empty key, an empty connection
    parameter or a repeated key makes ConnectShards return an error
    without a single connection attempt: the trace is empty and the
    collaborators are untouched.  The validation of all entries comes
    first: a run that made any connection attempt had a list free of
    these defects. *)
Theorem ConnectShards_validates_first :
  forall (xs : Sql.Externals W) (xr : Redis.Externals W)
         (driverName : string) (css : list Sql.ShardConnectString)
         (ssel : Sql.ConnectionSelector W) (timeout : Z)
         (opts : list Sql.ConnOption)
         (cfgs : list Redis.ShardConnectConfig)
         (rsel : Redis.ClientSelector W) (ropts : list Redis.ClientOption)
         (w : W),
    (sql_defect css ->
       exists e,
         Sql.ConnectShards xs driverName css ssel timeout opts w = (Fail e, w, []))
    /\ (trace (Sql.ConnectShards xs driverName css ssel timeout opts w) <> [] ->
          ~ sql_defect css)
    /\ (redis_defect cfgs ->
          exists e, Redis.ConnectShards xr cfgs rsel ropts w = (Fail e, w, []))
    /\ (trace (Redis.ConnectShards xr cfgs rsel ropts w) <> [] ->
          ~ redis_defect cfgs).
Proof.
  intros. repeat split.
  - intros Hd. destruct (sql_defect_rejected _ Hd) as [e He].
    exists e. unfold Sql.ConnectShards. by rewrite He.
  - intros Htr Hd. destruct (sql_defect_rejected _ Hd) as [e He].
    apply Htr. unfold Sql.ConnectShards. by rewrite He.
  - intros Hd. destruct (redis_defect_rejected _ Hd) as [e He].
    exists e. unfold Redis.ConnectShards. by rewrite He.
  - intros Htr Hd. destruct (redis_defect_rejected _ Hd) as [e He].
    apply Htr. unfold Redis.ConnectShards. by rewrite He.
Qed.

End ConnectShards.

(** ** errgroup *)

(** The first non-nil error of a list, in order. *)
Fixpoint first_error (errs : list error) : error :=
  match errs with
  | [] => None
  | Some e :: _ => Some e
  | None :: rest => first_error rest
  end.

Section ErrgroupFacts.
Context {E W : Type}.

Lemma first_error_Some errs e :
  first_error errs = Some e -> In (Some e) errs.
Proof.
  induction errs as [|[e'|] errs IH]; simpl; intros H.
  - discriminate.
  - left. exact H.
  - right. by apply IH.
Qed.

Lemma first_error_None errs :
  first_error errs = None <-> Forall (fun e => e = None) errs.
Proof.
  induction errs as [|[e'|] errs IH]; simpl.
  - split; [constructor | done].
  - split; [discriminate |]. intros H. by inversion H.
  - rewrite IH. split; [by constructor |]. intros H. by inversion H.
Qed.

(** What a group leaves in the trace.  The group has one goroutine per
    element of [xs]; the goroutine of [xs !! i] makes one call, recorded
    as [evf i x e] when it returned [e].  [ran sched errs t]: the
    goroutines finished in the order [sched], returned [errs], and left
    the trace [t]. *)
Section Ran.
Context {A : Type}.
Variable xs : list A.
Variable evf : nat -> A -> error -> E.

Inductive ran : list nat -> list error -> list E -> Prop :=
| ran_nil : ran [] [] []
| ran_cons i x e sched errs t :
    xs !! i = Some x ->
    ran sched errs t ->
    ran (i :: sched) (e :: errs) (evf i x e :: t).

Lemma ran_length sched errs t : ran sched errs t -> length t = length sched.
Proof. induction 1; simpl; congruence. Qed.

Lemma ran_scheduled sched errs t i :
  ran sched errs t -> i ∈ sched ->
  exists x e, xs !! i = Some x /\ e ∈ errs /\ evf i x e ∈ t.
Proof.
  induction 1 as [|j x e sched errs t Hx Hran IH]; intros Hin.
  - inversion Hin.
  - apply elem_of_cons in Hin as [-> | Hin].
    + exists x, e. split; [done |]. split; apply elem_of_cons; by left.
    + destruct (IH Hin) as (x' & e' & ? & ? & ?).
      exists x', e'. split; [done |]. split; apply elem_of_cons; by right.
Qed.

Lemma ran_returned sched errs t e :
  ran sched errs t -> e ∈ errs ->
  exists i x, i ∈ sched /\ xs !! i = Some x /\ evf i x e ∈ t.
Proof.
  induction 1 as [|j x e' sched errs t Hx Hran IH]; intros Hin.
  - inversion Hin.
  - apply elem_of_cons in Hin as [-> | Hin].
    + exists j, x. split; [| split; [done |]]; apply elem_of_cons; by left.
    + destruct (IH Hin) as (i & x' & ? & ? & ?).
      exists i, x'. split; [| split; [done |]]; apply elem_of_cons; by right.
Qed.

Lemma ran_recorded sched errs t ev :
  ran sched errs t -> ev ∈ t ->
  exists i x e, i ∈ sched /\ xs !! i = Some x /\ e ∈ errs /\ ev = evf i x e.
Proof.
  induction 1 as [|j x e sched errs t Hx Hran IH]; intros Hin.
  - inversion Hin.
  - apply elem_of_cons in Hin as [-> | Hin].
    + exists j, x, e. split; [| split; [done |]; split; [| done]];
        apply elem_of_cons; by left.
    + destruct (IH Hin) as (i & x' & e' & ? & ? & ? & ?).
      exists i, x', e'. split; [| split; [done |]; split; [| done]];
        apply elem_of_cons; by right.
Qed.

Variable op : A -> W -> error * W.

(** What the goroutines did to the collaborators.
    [attempted sched w errs w']: the elements at the positions [sched]
    were handed to [op] one after the other, each on the state the one
    before it left, from [w] to [w']; [errs] is what [op] returned on
    them, in that order. *)
Inductive attempted : list nat -> W -> list error -> W -> Prop :=
| attempted_nil w : attempted [] w [] w
| attempted_cons i x sched w errs w' :
    xs !! i = Some x ->
    attempted sched (op x w).2 errs w' ->
    attempted (i :: sched) w ((op x w).1 :: errs) w'.

(** Waiting on the group: under any schedule over its goroutines, each
    scheduled goroutine makes its call, and the error returned is the
    first one that came back. *)
Lemma run_ran sched :
  Forall (fun i => i < length xs) sched ->
  forall err w,
    let r := Errgroup.run (imap (fun i x => call_with (evf i x) (op x)) xs)
                          sched err w in
    exists errs, ran sched errs (trace r) /\ value r = first_error (err :: errs).
Proof.
  induction sched as [|i rest IH]; intros Hall err w; simpl.
  - exists []. split; [constructor |]. by destruct err.
  - inversion Hall as [|? ? Hi Hrest]; subst.
    destruct (lookup_lt_is_Some_2 xs i Hi) as [x Hx].
    rewrite list_lookup_imap, Hx. simpl.
    rewrite trace_bind, value_bind, trace_call_with, value_call_with,
      world_call_with.
    set (err' := match err with Some _ => err | None => (op x w).1 end).
    destruct (IH Hrest err' (op x w).2) as (errs & Hran & Hval).
    exists ((op x w).1 :: errs). split.
    + simpl. by constructor.
    + rewrite Hval. unfold err'. by destruct err.
Qed.

(** The same run, with what it does to the state: every scheduled
    goroutine applies [op] to its own element, on the state the
    goroutine that finished before it left. *)
Lemma run_attempted sched :
  Forall (fun i => i < length xs) sched ->
  forall err w,
    let r := Errgroup.run (imap (fun i x => call_with (evf i x) (op x)) xs)
                          sched err w in
    exists errs,
      attempted sched w errs (world r)
      /\ ran sched errs (trace r)
      /\ value r = first_error (err :: errs).
Proof.
  induction sched as [|i rest IH]; intros Hall err w; simpl.
  - exists []. split; [constructor |]. split; [constructor |]. by destruct err.
  - inversion Hall as [|? ? Hi Hrest]; subst.
    destruct (lookup_lt_is_Some_2 xs i Hi) as [x Hx].
    rewrite list_lookup_imap, Hx. simpl.
    rewrite trace_bind, value_bind, world_bind, trace_call_with,
      value_call_with, world_call_with.
    set (err' := match err with Some _ => err | None => (op x w).1 end).
    destruct (IH Hrest err' (op x w).2) as (errs & Hatt & Hran & Hval).
    exists ((op x w).1 :: errs). split; [| split].
    + by constructor.
    + simpl. by constructor.
    + rewrite Hval. unfold err'. by destruct err.
Qed.

End Ran.

Lemma schedule_in_range (sched : list nat) n :
  Permutation sched (seq 0 n) -> Forall (fun i => i < n) sched.
Proof.
  intros Hp. apply Forall_forall. intros i Hin.
  rewrite Hp in Hin. apply elem_of_seq in Hin. lia.
Qed.

(** With the limit 1 the goroutines run one at a time, in the order in
    which they were handed to [Go]. *)
Lemma limit_one_sequential (sched : list nat) n :
  Permutation sched (seq 0 n) ->
  (forall p i, sched !! p = Some i -> (Z.of_nat i < Z.of_nat p + 1)%Z) ->
  sched = seq 0 n.
Proof.
  intros Hp Hle.
  assert (Hlen : length sched = n) by (by rewrite Hp, length_seq).
  assert (Hnd : NoDup sched) by (rewrite Hp; apply NoDup_seq).
  assert (Hid : forall p, p < n -> sched !! p = Some p).
  { intros p. induction p as [p IH] using lt_wf_ind. intros Hpn.
    destruct (lookup_lt_is_Some_2 sched p) as [i Hi]; [lia |].
    assert (i <= p) by (specialize (Hle _ _ Hi); lia).
    destruct (decide (i = p)) as [-> | Hne]; [done |].
    assert (Hi' : sched !! i = Some i) by (apply IH; lia).
    assert (i = p) by exact (NoDup_lookup _ _ _ _ Hnd Hi' Hi). lia. }
  apply list_eq. intros p. destruct (decide (p < n)) as [Hlt | Hge].
  - by rewrite Hid, lookup_seq_lt.
  - rewrite lookup_seq_ge by lia. apply lookup_ge_None. lia.
Qed.

Lemma schedule_covers (sched : list nat) n i :
  Permutation sched (seq 0 n) -> i < n -> i ∈ sched.
Proof.
  intros Hp Hi. rewrite Hp. apply elem_of_seq. lia.
Qed.

End ErrgroupFacts.

(** ** Fan-out *)

(** The client handed to the callback for a shard, and the record of a
    call that returned nil. *)
Section InTurn.
Context {W A : Type}.
Variable op : A -> W -> error * W.

(** One after the other, up to the first failure.
    [in_turn xs w k e w']: [op] was applied to the elements of [xs] in
    their order, each on the state the one before it left, starting from
    [w].  It returned nil on the first [k] elements.  When these are all
    of [xs], [e] is nil; otherwise [e] is the error [op] returned on the
    next element, and [op] was applied to no element after that one.
    [w'] is the state the last application left. *)
Inductive in_turn : list A -> W -> nat -> error -> W -> Prop :=
| in_turn_all w : in_turn [] w 0 None w
| in_turn_next x rest w k e w' :
    (op x w).1 = None ->
    in_turn rest (op x w).2 k e w' ->
    in_turn (x :: rest) w (S k) e w'
| in_turn_failed x rest w e :
    (op x w).1 = Some e ->
    in_turn (x :: rest) w 0 (Some e) (op x w).2.

End InTurn.

Definition shard_client (shard : Sql.ShardConnect) : Sql.clientSingle :=
  Sql.Client (Sql.Conn shard) [].

Definition fn_ok (shard : Sql.ShardConnect) : Sql.Event :=
  Sql.EvFn (shard_client shard) None.

Section FanOut.
Context {W : Type}.
Implicit Types (fn : Sql.DB W -> W -> error * W) (shards : list Sql.ShardConnect).

Lemma invoke_run fn shard w :
  Sql.invoke fn shard w =
  ((fn (Sql.DB_single (shard_client shard)) w).1,
   (fn (Sql.DB_single (shard_client shard)) w).2,
   [Sql.EvFn (shard_client shard) (fn (Sql.DB_single (shard_client shard)) w).1]).
Proof.
  unfold Sql.invoke, call_with, shard_client.
  by destruct (fn (Sql.DB_single (Sql.Client (Sql.Conn shard) [])) w).
Qed.

Lemma EachShard_loop_run fn shards : forall w,
  match value (Sql.EachShard_loop fn shards w) with
  | None => trace (Sql.EachShard_loop fn shards w) = fn_ok <$> shards
  | Some e =>
      exists i shard,
        shards !! i = Some shard
        /\ trace (Sql.EachShard_loop fn shards w) =
           (fn_ok <$> take i shards) ++ [Sql.EvFn (shard_client shard) (Some e)]
  end.
Proof.
  induction shards as [|shard rest IH]; intros w; simpl.
  - reflexivity.
  - rewrite value_bind, trace_bind, invoke_run.
    rewrite value_mk, world_mk, trace_mk.
    destruct (fn (Sql.DB_single (shard_client shard)) w) as [[e|] w'] eqn:Hfn;
      cbn [fst snd].
    + exists 0, shard. by split.
    + specialize (IH w').
      destruct (value (Sql.EachShard_loop fn rest w')) as [e|].
      * destruct IH as (i & s & Hlk & Htr).
        exists (S i), s. split; [done |]. simpl. by rewrite Htr.
      * by rewrite IH.
Qed.

(** The loop applies fn to the single client of each shard in turn, on
    the state the call before left, and stops at the first error. *)
Lemma EachShard_loop_in_turn fn shards : forall w,
  let r := Sql.EachShard_loop fn shards w in
  exists k,
    in_turn (fun shard => fn (Sql.DB_single (shard_client shard))) shards w k
            (value r) (world r)
    /\ trace r = (fn_ok <$> take k shards)
                 ++ match value r, shards !! k with
                    | Some e, Some shard => [Sql.EvFn (shard_client shard) (Some e)]
                    | _, _ => []
                    end.
Proof.
  induction shards as [|shard rest IH]; intros w; simpl.
  - exists 0. split; [constructor | done].
  - rewrite value_bind, world_bind, trace_bind, invoke_run.
    rewrite value_mk, world_mk, trace_mk.
    set (op := fun s => fn (Sql.DB_single (shard_client s))).
    change (fn (Sql.DB_single (shard_client shard)) w) with (op shard w).
    destruct (op shard w).1 as [e|] eqn:Hfn.
    + exists 0. split; [| done].
      exact (in_turn_failed op shard rest w e Hfn).
    + destruct (IH (op shard w).2) as (k & Hturn & Htr). exists (S k). split.
      * by apply in_turn_next.
      * rewrite Htr. reflexivity.
Qed.

(** C7. EachShard calls fn on the shards one after the other, in the
    order of the shard set.  When it returns nil, fn was called on every
    shard and returned nil each time.  When it returns an error, fn
    returned nil on the shards before some shard i, returned that error
    on shard i, and was not called on any shard after i.  So an error
    from fn is the error returned, and a run in which every call
    succeeded returns nil.  The calls are calls of fn itself: fn is
    applied to the single client of each shard in turn, on the state the
    call before it left; the value returned is what fn returned on the
    shard where the run stopped, and the state is the one that call
    left, so that fn has not acted on any later shard. *)
Theorem EachShard_sequential :
  forall (c : Sql.clientShard W) fn (w : W),
    let shards := Sql.connections (Sql.shard_connections c) in
    let r := Sql.EachShard (Sql.DB_shard c) fn w in
    match value r with
    | None => trace r = fn_ok <$> shards
    | Some e =>
        exists i shard,
          shards !! i = Some shard
          /\ trace r =
             (fn_ok <$> take i shards) ++ [Sql.EvFn (shard_client shard) (Some e)]
    end
    /\ (forall cl e, Sql.EvFn cl (Some e) ∈ trace r -> value r = Some e)
    /\ (Forall (fun ev => forall cl e, ev <> Sql.EvFn cl (Some e)) (trace r) ->
        value r = None)
    /\ (exists k,
          in_turn (fun shard => fn (Sql.DB_single (shard_client shard)))
                  shards w k (value r) (world r)
          /\ trace r = (fn_ok <$> take k shards)
                       ++ match value r, shards !! k with
                          | Some e, Some shard =>
                              [Sql.EvFn (shard_client shard) (Some e)]
                          | _, _ => []
                          end).
Proof.
  intros c fn w shards r.
  assert (Hrun := EachShard_loop_run fn shards w).
  change (Sql.EachShard_loop fn shards w) with r in Hrun.
  split; [exact Hrun |].
  assert (Hturn := EachShard_loop_in_turn fn shards w).
  change (Sql.EachShard_loop fn shards w) with r in Hturn.
  cut ((forall cl e, Sql.EvFn cl (Some e) ∈ trace r -> value r = Some e)
       /\ (Forall (fun ev => forall cl e, ev <> Sql.EvFn cl (Some e)) (trace r) ->
           value r = None)).
  { intros [H1 H2]. split; [exact H1 |]. split; [exact H2 | exact Hturn]. }
  clear Hturn.
  destruct (value r) as [e|]; split.
  - destruct Hrun as (i & shard & Hlk & Htr). rewrite Htr.
    intros cl e' Hin. apply elem_of_app in Hin as [Hin | Hin].
    + apply list_elem_of_fmap in Hin as (s & Hs & _). discriminate.
    + apply list_elem_of_singleton in Hin. congruence.
  - destruct Hrun as (i & shard & Hlk & Htr). rewrite Htr.
    intros Hall. apply Forall_app in Hall as [_ Hall].
    inversion Hall as [|? ? Hne _]; subst. by destruct (Hne (shard_client shard) e).
  - rewrite Hrun. intros cl e Hin.
    apply list_elem_of_fmap in Hin as (s & Hs & _). discriminate.
  - done.
Qed.

Lemma EachShardAsync_spawn_tasks fn shards : forall wg,
  Errgroup.tasks (Sql.EachShardAsync_spawn fn shards wg) =
  Errgroup.tasks wg ++ (Sql.invoke fn <$> shards).
Proof.
  induction shards as [|shard rest IH]; intros wg; simpl.
  - by rewrite app_nil_r.
  - rewrite IH. simpl. by rewrite <- app_assoc.
Qed.

Definition fn_event (i : nat) (shard : Sql.ShardConnect) (e : error) : Sql.Event :=
  Sql.EvFn (shard_client shard) e.

Lemma EachShardAsync_run (c : Sql.clientShard W) fn limit sched :
  Sql.EachShardAsync sched (Sql.DB_shard c) fn limit =
  Errgroup.run
    (imap (fun i s => call_with (fn_event i s)
                                (fn (Sql.DB_single (shard_client s))))
          (Sql.connections (Sql.shard_connections c)))
    sched None.
Proof.
  unfold Sql.EachShardAsync, Sql.EachShardAsync_group, Errgroup.Wait.
  rewrite EachShardAsync_spawn_tasks.
  replace (Errgroup.tasks _) with (@nil (M Sql.Event W error)).
  - simpl. f_equal. apply list_eq. intros i.
    by rewrite list_lookup_imap, list_lookup_fmap.
  - destruct limit as [|l ?]; [done |]. by destruct (0 <? l)%Z.
Qed.

Lemma EachShardAsync_spawn_sem fn shards : forall wg,
  Errgroup.sem (Sql.EachShardAsync_spawn fn shards wg) = Errgroup.sem wg.
Proof.
  induction shards as [|shard rest IH]; intros wg; simpl; [done |].
  by rewrite IH.
Qed.

(** With the limit 1 the only order in which the goroutines can finish
    is the order of the shards: one call is in flight at a time. *)
Lemma EachShardAsync_limit_one (c : Sql.clientShard W) fn sched :
  Errgroup.feasible (Sql.EachShardAsync_group c fn [1%Z]) sched ->
  sched = seq 0 (length (Sql.connections (Sql.shard_connections c))).
Proof.
  unfold Errgroup.feasible, Sql.EachShardAsync_group.
  rewrite EachShardAsync_spawn_sem, EachShardAsync_spawn_tasks. simpl.
  rewrite length_fmap. intros [Hp Hle]. by apply limit_one_sequential.
Qed.

(** C8. EachShardAsync starts one goroutine per shard and waits for all
    of them.  In whatever order the goroutines finish (every feasible
    order finishes each goroutine once), fn is called once for every
    shard, whatever the other calls returned, and the value returned is
    an error exactly when some call returned an error; the error
    returned is one that a call returned.  The limit changes neither.
    The calls are calls of fn itself: in the order in which the
    goroutines finish, fn is applied to the single client of each shard,
    on the state the goroutine before it left; the records of the trace
    hold what these applications returned, and the value returned is the
    first error among them. *)
Theorem EachShardAsync_all_shards :
  forall (c : Sql.clientShard W) fn (limit : list Z) (sched : list nat) (w : W),
    let shards := Sql.connections (Sql.shard_connections c) in
    let r := Sql.EachShardAsync sched (Sql.DB_shard c) fn limit w in
    Permutation sched (seq 0 (length shards)) ->
    length (trace r) = length shards
    /\ (forall i shard, shards !! i = Some shard ->
                        exists e, Sql.EvFn (shard_client shard) e ∈ trace r)
    /\ (forall ev, ev ∈ trace r ->
                   exists shard e, shard ∈ shards
                                   /\ ev = Sql.EvFn (shard_client shard) e)
    /\ (value r <> None <-> exists cl e, Sql.EvFn cl (Some e) ∈ trace r)
    /\ (forall e, value r = Some e -> exists cl, Sql.EvFn cl (Some e) ∈ trace r)
    /\ (exists errs,
          attempted shards (fun s => fn (Sql.DB_single (shard_client s)))
                    sched w errs (world r)
          /\ ran shards fn_event sched errs (trace r)
          /\ value r = first_error errs).
Proof.
  intros c fn limit sched w shards r Hp.
  assert (Hrange := schedule_in_range _ _ Hp).
  destruct (run_attempted shards fn_event
              (fun s => fn (Sql.DB_single (shard_client s))) sched Hrange None w)
    as (errs & Hatt & Hran & Hval).
  unfold r. rewrite EachShardAsync_run. fold shards.
  set (r' := Errgroup.run _ sched None w) in *.
  simpl in Hval.
  split; [| split; [| split; [| split; [| split]]]];
    [| | | | | by exists errs].
  - rewrite (ran_length _ _ _ _ _ Hran). by rewrite Hp, length_seq.
  - intros i shard Hlk.
    assert (Hi : i ∈ sched).
    { apply (schedule_covers _ (length shards)); [done |].
      apply lookup_lt_is_Some. by eexists. }
    destruct (ran_scheduled _ _ _ _ _ _ Hran Hi) as (s & e & Hs & _ & Hev).
    exists e. rewrite Hlk in Hs. by injection Hs as <-.
  - intros ev Hev.
    destruct (ran_recorded _ _ _ _ _ _ Hran Hev) as (i & s & e & _ & Hs & _ & ->).
    exists s, e. split; [| done]. apply list_elem_of_lookup. by exists i.
  - rewrite Hval. split.
    + intros Hne. destruct (first_error errs) as [e|] eqn:Hfe; [| done].
      apply first_error_Some, list_elem_of_In in Hfe.
      destruct (ran_returned _ _ _ _ _ _ Hran Hfe) as (i & s & _ & _ & Hev).
      by exists (shard_client s), e.
    + intros (cl & e & Hev) Hnone.
      destruct (ran_recorded _ _ _ _ _ _ Hran Hev) as (i & s & e' & _ & _ & He' & Heq).
      injection Heq as _ <-.
      apply first_error_None in Hnone. rewrite Forall_forall in Hnone.
      by specialize (Hnone _ He').
  - intros e He. rewrite Hval in He.
    apply first_error_Some, list_elem_of_In in He.
    destruct (ran_returned _ _ _ _ _ _ Hran He) as (i & s & _ & _ & Hev).
    by exists (shard_client s).
Qed.

End FanOut.

(** ** The composite transactor *)

Section CompositeFacts.
Context {W : Type}.
Import Storage.

(** The record of a call that returned nil. *)
Definition returned_nil (method : Method) (i : nat) : Call :=
  Invoked i method None.

Lemma Begin_loop_run (trs : list (Transactor W)) ctx : forall idx txs w,
  match value (Begin_loop trs idx ctx txs w) with
  | Ok tx =>
      trace (Begin_loop trs idx ctx txs w) =
        (returned_nil MBegin <$> seq idx (length trs))
      /\ length (transactions tx) = length txs + length trs
  | Fail e =>
      exists i,
        i < length trs
        /\ trace (Begin_loop trs idx ctx txs w) =
           (returned_nil MBegin <$> seq idx i) ++ [Invoked (idx + i) MBegin (Some e)]
  end.
Proof.
  induction trs as [|tr rest IH]; intros idx txs w; simpl.
  - split; [done | lia].
  - rewrite value_bind, trace_bind, trace_call_with, value_call_with,
      world_call_with.
    destruct (Transactor_Begin tr ctx w) as [[tx|e] w'] eqn:Hb; cbn [fst snd].
    + specialize (IH (S idx) (txs ++ [tx]) w').
      destruct (value (Begin_loop rest (S idx) ctx (txs ++ [tx]) w')) as [tx'|e].
      * destruct IH as [Htr Hlen]. split; [by rewrite Htr |].
        rewrite Hlen, length_app. simpl. lia.
      * destruct IH as (i & Hi & Htr). exists (S i). split; [lia |].
        rewrite Htr. simpl. by rewrite Nat.add_succ_r.
    + exists 0. split; [lia |]. simpl. by rewrite Nat.add_0_r.
Qed.

Lemma BeginCtx_loop_run (trs : list (Transactor W)) : forall idx ctx w,
  match (value (BeginCtx_loop trs idx ctx w)).2 with
  | None =>
      trace (BeginCtx_loop trs idx ctx w) =
        (returned_nil MBeginCtx <$> seq idx (length trs))
  | Some e =>
      exists i,
        i < length trs
        /\ trace (BeginCtx_loop trs idx ctx w) =
           (returned_nil MBeginCtx <$> seq idx i)
             ++ [Invoked (idx + i) MBeginCtx (Some e)]
  end.
Proof.
  induction trs as [|tr rest IH]; intros idx ctx w; simpl.
  - done.
  - rewrite value_bind, trace_bind, trace_call_with, value_call_with,
      world_call_with.
    destruct (Transactor_BeginCtx tr ctx w) as [[ctx'|ctx' e] w'] eqn:Hb;
      cbn [fst snd].
    + specialize (IH (S idx) ctx' w').
      destruct (value (BeginCtx_loop rest (S idx) ctx' w')).2 as [e|].
      * destruct IH as (i & Hi & Htr). exists (S i). split; [lia |].
        rewrite Htr. simpl. by rewrite Nat.add_succ_r.
      * by rewrite IH.
    + exists 0. split; [lia |]. simpl. by rewrite Nat.add_0_r.
Qed.

(** In a trace that is a run of nil returns closed by one failure, the
    failure is the last record. *)
Lemma failure_is_last (method : Method) (i j : nat) (e e' : Err) :
  Invoked j method (Some e')
    ∈ (returned_nil method <$> seq 0 i) ++ [Invoked (0 + i) method (Some e)] ->
  j = i /\ e' = e.
Proof.
  intros Hin. apply elem_of_app in Hin as [Hin | Hin].
  - apply list_elem_of_fmap in Hin as (k & Hk & _). discriminate.
  - apply list_elem_of_singleton in Hin. injection Hin as -> ->. done.
Qed.

(** The children begun one after the other.
    [begun ctx trs w txs e w']: Begin of the children [trs] was called
    in their order, each on the state the child before it left, starting
    from [w].  [txs] are the transactions the children that began handed
    back, in that order.  When these are all the children, [e] is nil;
    otherwise [e] is the error Begin of the next child returned, and no
    child after that one was called.  [w'] is the state the last call
    left: nothing else was done to the children, so those that began
    stay open. *)
Inductive begun (ctx : Ctx)
  : list (Transactor W) -> W -> list (Transaction W) -> error -> W -> Prop :=
| begun_all w : begun ctx [] w [] None w
| begun_next tr rest w tx txs e w' :
    (Transactor_Begin tr ctx w).1 = Ok tx ->
    begun ctx rest (Transactor_Begin tr ctx w).2 txs e w' ->
    begun ctx (tr :: rest) w (tx :: txs) e w'
| begun_failed tr rest w e :
    (Transactor_Begin tr ctx w).1 = Fail e ->
    begun ctx (tr :: rest) w [] (Some e) (Transactor_Begin tr ctx w).2.

(** The same for BeginCtx, where every child is handed the context the
    child before it returned.  [begun_ctx trs ctx w k out w']: BeginCtx
    returned a context on the first [k] children; [out] is the last of
    these contexts with nil when they are all the children, and
    otherwise what BeginCtx of the next child returned, after which no
    child was called. *)
Inductive begun_ctx
  : list (Transactor W) -> Ctx -> W -> nat -> option Ctx * error -> W -> Prop :=
| begun_ctx_all ctx w : begun_ctx [] ctx w 0 (Some ctx, None) w
| begun_ctx_next tr rest ctx w ctx' k out w' :
    (Transactor_BeginCtx tr ctx w).1 = Began ctx' ->
    begun_ctx rest ctx' (Transactor_BeginCtx tr ctx w).2 k out w' ->
    begun_ctx (tr :: rest) ctx w (S k) out w'
| begun_ctx_failed tr rest ctx w ctx' e :
    (Transactor_BeginCtx tr ctx w).1 = NotBegan ctx' e ->
    begun_ctx (tr :: rest) ctx w 0 (ctx', Some e)
              (Transactor_BeginCtx tr ctx w).2.

Lemma Begin_loop_begun (trs : list (Transactor W)) ctx : forall idx acc w,
  let r := Begin_loop trs idx ctx acc w in
  exists txs e,
    begun ctx trs w txs e (world r)
    /\ value r = match e with
                 | None => Ok (newTransaction (acc ++ txs))
                 | Some e => Fail e
                 end
    /\ trace r = (returned_nil MBegin <$> seq idx (length txs))
                 ++ match e with
                    | None => []
                    | Some e => [Invoked (idx + length txs) MBegin (Some e)]
                    end.
Proof.
  induction trs as [|tr rest IH]; intros idx acc w; simpl.
  - exists [], None. split; [constructor |]. by rewrite app_nil_r.
  - rewrite value_bind, world_bind, trace_bind, trace_call_with,
      value_call_with, world_call_with.
    destruct (Transactor_Begin tr ctx w).1 as [tx|e] eqn:Hb.
    + destruct (IH (S idx) (acc ++ [tx]) (Transactor_Begin tr ctx w).2)
        as (txs & e & Hbegun & Hval & Htr).
      exists (tx :: txs), e. split; [by constructor |]. split.
      * rewrite Hval. by rewrite <- app_assoc.
      * rewrite Htr. simpl. by rewrite Nat.add_succ_r.
    + exists [], (Some e). split; [by constructor |]. split; [done |].
      simpl. by rewrite Nat.add_0_r.
Qed.

Lemma BeginCtx_loop_begun (trs : list (Transactor W)) : forall idx ctx w,
  let r := BeginCtx_loop trs idx ctx w in
  exists k,
    begun_ctx trs ctx w k (value r) (world r)
    /\ trace r = (returned_nil MBeginCtx <$> seq idx k)
                 ++ match (value r).2 with
                    | None => []
                    | Some e => [Invoked (idx + k) MBeginCtx (Some e)]
                    end.
Proof.
  induction trs as [|tr rest IH]; intros idx ctx w; simpl.
  - exists 0. split; [constructor | done].
  - rewrite value_bind, world_bind, trace_bind, trace_call_with,
      value_call_with, world_call_with.
    destruct (Transactor_BeginCtx tr ctx w).1 as [ctx'|ctx' e] eqn:Hb.
    + destruct (IH (S idx) ctx' (Transactor_BeginCtx tr ctx w).2)
        as (k & Hbegun & Htr).
      exists (S k). split; [by apply (begun_ctx_next _ _ _ _ ctx') |].
      rewrite Htr. simpl. by rewrite Nat.add_succ_r.
    + exists 0. split; [by constructor |]. simpl. by rewrite Nat.add_0_r.
Qed.

(** C2. Begin and BeginCtx of the composite call the begin operation of
    the children one after the other, in construction order.  When the
    composite succeeds, every child was called and returned nil.  When
    it fails with an error, the children before some child i returned
    nil, child i returned that error, and no child after i was called;
    the trace holds begin calls only, so nothing was rolled back on the
    children that had begun.  Hence a failing begin of child i ends the
    run there with that error.  The calls are calls of the children's
    own Begin and BeginCtx: each child is called on the state the child
    before it left (and, for BeginCtx, on the context that child
    returned); on success the composite holds the transactions the
    children handed back, in construction order; on failure it returns
    the error of the failing child and leaves the state that child
    left, so that no later child has begun and no child that began was
    rolled back. *)
Theorem composite_Begin_stops_at_first_failure :
  forall (t : transactor W) (ctx : Ctx) (w : W),
    let n := length (transactors t) in
    let b := transactor_Begin t ctx w in
    let bc := transactor_BeginCtx t ctx w in
    match value b with
    | Ok tx =>
        trace b = (returned_nil MBegin <$> seq 0 n)
        /\ length (transactions tx) = n
    | Fail e =>
        exists i, i < n
          /\ trace b = (returned_nil MBegin <$> seq 0 i) ++ [Invoked i MBegin (Some e)]
    end
    /\ (forall i e, Invoked i MBegin (Some e) ∈ trace b ->
                    value b = Fail e /\ length (trace b) = S i)
    /\ match (value bc).2 with
       | None => trace bc = (returned_nil MBeginCtx <$> seq 0 n)
       | Some e =>
           exists i, i < n
             /\ trace bc =
                (returned_nil MBeginCtx <$> seq 0 i) ++ [Invoked i MBeginCtx (Some e)]
       end
    /\ (forall i e, Invoked i MBeginCtx (Some e) ∈ trace bc ->
                    (value bc).2 = Some e /\ length (trace bc) = S i)
    /\ (exists txs e,
          begun ctx (transactors t) w txs e (world b)
          /\ value b = match e with
                       | None => Ok (newTransaction txs)
                       | Some e => Fail e
                       end
          /\ trace b = (returned_nil MBegin <$> seq 0 (length txs))
                       ++ match e with
                          | None => []
                          | Some e => [Invoked (length txs) MBegin (Some e)]
                          end)
    /\ (exists k,
          begun_ctx (transactors t) ctx w k (value bc) (world bc)
          /\ trace bc = (returned_nil MBeginCtx <$> seq 0 k)
                        ++ match (value bc).2 with
                           | None => []
                           | Some e => [Invoked k MBeginCtx (Some e)]
                           end).
Proof.
  intros t ctx w n b bc.
  assert (Hb := Begin_loop_run (transactors t) ctx 0 [] w).
  assert (Hbc := BeginCtx_loop_run (transactors t) 0 ctx w).
  assert (Hb' := Begin_loop_begun (transactors t) ctx 0 [] w).
  assert (Hbc' := BeginCtx_loop_begun (transactors t) 0 ctx w).
  change (Begin_loop (transactors t) 0 ctx [] w) with b in Hb, Hb'.
  change (BeginCtx_loop (transactors t) 0 ctx w) with bc in Hbc, Hbc'.
  fold n in Hb, Hbc.
  cut ((forall i e, Invoked i MBegin (Some e) ∈ trace b ->
                    value b = Fail e /\ length (trace b) = S i)
       /\ (forall i e, Invoked i MBeginCtx (Some e) ∈ trace bc ->
                       (value bc).2 = Some e /\ length (trace bc) = S i)).
  { intros [H1 H2].
    split; [exact Hb |]. split; [exact H1 |]. split; [exact Hbc |].
    split; [exact H2 |]. split; [exact Hb' | exact Hbc']. }
  clear Hb' Hbc'. split.
  - intros i e Hin. destruct (value b) as [tx|e'].
    + destruct Hb as [Htr _]. rewrite Htr in Hin.
      apply list_elem_of_fmap in Hin as (k & Hk & _). discriminate.
    + destruct Hb as (i' & Hi' & Htr). rewrite Htr in Hin |- *.
      apply failure_is_last in Hin as [-> ->]. split; [done |].
      rewrite length_app, length_fmap, length_seq. simpl. lia.
  - intros i e Hin. destruct (value bc).2 as [e'|].
    + destruct Hbc as (i' & Hi' & Htr). rewrite Htr in Hin |- *.
      apply failure_is_last in Hin as [-> ->]. split; [done |].
      rewrite length_app, length_fmap, length_seq. simpl. lia.
    + rewrite Hbc in Hin.
      apply list_elem_of_fmap in Hin as (k & Hk & _). discriminate.
Qed.

Lemma spawn_tasks {A} (method : Method) (op : A -> W -> error * W) xs :
  forall idx wg,
    Errgroup.tasks (spawn method op xs idx wg) =
    Errgroup.tasks wg
      ++ imap (fun j x => call_with (Invoked (idx + j) method) (op x)) xs.
Proof.
  induction xs as [|x rest IH]; intros idx wg; simpl.
  - by rewrite app_nil_r.
  - rewrite IH. simpl. rewrite <- app_assoc. simpl.
    rewrite Nat.add_0_r. do 2 f_equal.
    apply imap_ext. intros j y _. simpl. by rewrite Nat.add_succ_r.
Qed.

Lemma ran_children {A} (xs : list A) (method : Method) sched errs t :
  ran xs (fun i _ e => Invoked i method e) sched errs t ->
  call_child <$> t = sched.
Proof.
  induction 1 as [|i x e sched errs t Hx Hran IH]; [done |].
  rewrite fmap_cons. simpl. by rewrite IH.
Qed.

(** One goroutine per element, each making one call to its element:
    what waiting for them yields, under any schedule. *)
Lemma fan_out_all {A} (method : Method) (op : A -> W -> error * W)
    (xs : list A) (sched : list nat) (w : W) :
  let r := Errgroup.Wait sched (spawn method op xs 0 Errgroup.zero) w in
  Permutation sched (seq 0 (length xs)) ->
  Permutation (call_child <$> trace r) (seq 0 (length xs))
  /\ (forall i, i < length xs -> exists e, Invoked i method e ∈ trace r)
  /\ (forall c, c ∈ trace r -> call_method c = method)
  /\ (value r <> None <-> exists i e, Invoked i method (Some e) ∈ trace r)
  /\ (forall e, value r = Some e -> exists i, Invoked i method (Some e) ∈ trace r).
Proof.
  intros r Hp. unfold r, Errgroup.Wait. rewrite spawn_tasks. simpl.
  assert (Hrange := schedule_in_range _ _ Hp).
  destruct (run_ran xs (fun i _ e => Invoked i method e) op sched Hrange None w)
    as (errs & Hran & Hval).
  set (r' := Errgroup.run _ sched None w) in *. simpl in Hval.
  split; [| split; [| split; [| split]]].
  - by rewrite (ran_children _ _ _ _ _ Hran).
  - intros i Hi.
    destruct (ran_scheduled _ _ _ _ _ _ Hran (schedule_covers _ _ _ Hp Hi))
      as (x & e & _ & _ & Hev).
    by exists e.
  - intros c Hc.
    by destruct (ran_recorded _ _ _ _ _ _ Hran Hc) as (i & x & e & _ & _ & _ & ->).
  - rewrite Hval. split.
    + intros Hne. destruct (first_error errs) as [e|] eqn:Hfe; [| done].
      apply first_error_Some, list_elem_of_In in Hfe.
      destruct (ran_returned _ _ _ _ _ _ Hran Hfe) as (i & x & _ & _ & Hev).
      by exists i, e.
    + intros (i & e & Hev) Hnone.
      destruct (ran_recorded _ _ _ _ _ _ Hran Hev)
        as (i' & x & e' & _ & _ & He' & Heq).
      injection Heq as _ <-.
      apply first_error_None in Hnone. rewrite Forall_forall in Hnone.
      by specialize (Hnone _ He').
  - intros e He. rewrite Hval in He.
    apply first_error_Some, list_elem_of_In in He.
    destruct (ran_returned _ _ _ _ _ _ Hran He) as (i & x & _ & _ & Hev).
    by exists i.
Qed.

(** What [fan_out_all] says of a run [r] over [n] children with the
    operation [method]. *)
Definition all_attempted (method : Method) (n : nat)
    (r : error * W * list Call) : Prop :=
  Permutation (call_child <$> trace r) (seq 0 n)
  /\ (forall i, i < n -> exists e, Invoked i method e ∈ trace r)
  /\ (forall c, c ∈ trace r -> call_method c = method)
  /\ (value r <> None <-> exists i e, Invoked i method (Some e) ∈ trace r)
  /\ (forall e, value r = Some e -> exists i, Invoked i method (Some e) ∈ trace r).

(** Each child ran its own operation.
    [children_ran method op xs sched w r]: in the order [sched] in which
    the goroutines finished, [op] was applied to the child at each
    position of [xs], on the state the goroutine before it left,
    starting from [w] and ending in the state of [r]; the records in the
    trace of [r] name, in that order, the child and what [op] returned
    on it; and the value of [r] is the first error among these
    returns. *)
Definition children_ran {A} (method : Method) (op : A -> W -> error * W)
    (xs : list A) (sched : list nat) (w : W) (r : error * W * list Call)
  : Prop :=
  exists errs,
    attempted xs op sched w errs (world r)
    /\ trace r = zip_with (fun i e => Invoked i method e) sched errs
    /\ value r = first_error errs.

Lemma ran_zip {A} (xs : list A) (method : Method) sched errs t :
  ran xs (fun i _ e => Invoked i method e) sched errs t ->
  t = zip_with (fun i e => Invoked i method e) sched errs.
Proof.
  induction 1 as [|i x e sched errs t Hx Hran IH]; [done |].
  simpl. by rewrite IH.
Qed.

Lemma fan_out_ran {A} (method : Method) (op : A -> W -> error * W)
    (xs : list A) (sched : list nat) (w : W) :
  Permutation sched (seq 0 (length xs)) ->
  children_ran method op xs sched w
               (Errgroup.Wait sched (spawn method op xs 0 Errgroup.zero) w).
Proof.
  intros Hp. unfold children_ran, Errgroup.Wait. rewrite spawn_tasks. simpl.
  assert (Hrange := schedule_in_range _ _ Hp).
  destruct (run_attempted xs (fun i _ e => Invoked i method e) op sched Hrange
                          None w) as (errs & Hatt & Hran & Hval).
  exists errs. split; [exact Hatt |]. split; [| exact Hval].
  by apply (ran_zip xs).
Qed.

(** C3. CommitCtx and RollbackCtx of the composite start one goroutine
    per child and wait for all of them.  In whatever order the
    goroutines finish, each child gets exactly one call of the
    operation, whatever the other children returned; the composite
    returns an error exactly when some child returned one, and the error
    it returns is one a child returned.  The calls are calls of the
    children's own CommitCtx and RollbackCtx: in the order in which the
    goroutines finish, the operation of each child is applied to the
    state the goroutine before it left, the records of the trace hold
    what these applications returned, and the composite returns the
    first error among them. *)
Theorem composite_CommitCtx_RollbackCtx_attempt_all :
  forall (t : transactor W) (ctx : Ctx) (sched : list nat) (w : W),
    let n := length (transactors t) in
    Permutation sched (seq 0 n) ->
    all_attempted MCommitCtx n (transactor_CommitCtx sched t ctx w)
    /\ all_attempted MRollbackCtx n (transactor_RollbackCtx sched t ctx w)
    /\ children_ran MCommitCtx (fun tr => Transactor_CommitCtx tr ctx)
                    (transactors t) sched w (transactor_CommitCtx sched t ctx w)
    /\ children_ran MRollbackCtx (fun tr => Transactor_RollbackCtx tr ctx)
                    (transactors t) sched w
                    (transactor_RollbackCtx sched t ctx w).
Proof.
  intros t ctx sched w n Hp. split; [| split; [| split]].
  - exact (fan_out_all MCommitCtx (fun tx => Transactor_CommitCtx tx ctx)
                       (transactors t) sched w Hp).
  - exact (fan_out_all MRollbackCtx (fun tx => Transactor_RollbackCtx tx ctx)
                       (transactors t) sched w Hp).
  - exact (fan_out_ran MCommitCtx (fun tx => Transactor_CommitCtx tx ctx)
                       (transactors t) sched w Hp).
  - exact (fan_out_ran MRollbackCtx (fun tx => Transactor_RollbackCtx tx ctx)
                       (transactors t) sched w Hp).
Qed.

(** X4. The same holds of Commit and Rollback of the composite
    transaction: in whatever order the goroutines finish, every child
    transaction gets exactly one call of the operation, and the
    composite returns an error exactly when a child returned one, that
    error being one a child returned.  The calls are calls of the
    children's own Commit and Rollback: in the order in which the
    goroutines finish, the operation of each child transaction is
    applied to the state the goroutine before it left, the records of
    the trace hold what these applications returned, and the composite
    returns the first error among them. *)
Lemma composite_transaction_attempts_all (t : transaction W) ctx sched w :
  Permutation sched (seq 0 (length (transactions t))) ->
  all_attempted MCommit (length (transactions t)) (transaction_Commit sched t ctx w)
  /\ all_attempted MRollback (length (transactions t))
                   (transaction_Rollback sched t ctx w)
  /\ children_ran MCommit (fun tx => Transaction_Commit tx ctx)
                  (transactions t) sched w (transaction_Commit sched t ctx w)
  /\ children_ran MRollback (fun tx => Transaction_Rollback tx ctx)
                  (transactions t) sched w (transaction_Rollback sched t ctx w).
Proof.
  intros Hp. split; [| split; [| split]].
  - exact (fan_out_all MCommit (fun tx => Transaction_Commit tx ctx)
                       (transactions t) sched w Hp).
  - exact (fan_out_all MRollback (fun tx => Transaction_Rollback tx ctx)
                       (transactions t) sched w Hp).
  - exact (fan_out_ran MCommit (fun tx => Transaction_Commit tx ctx)
                       (transactions t) sched w Hp).
  - exact (fan_out_ran MRollback (fun tx => Transaction_Rollback tx ctx)
                       (transactions t) sched w Hp).
Qed.

End CompositeFacts.

(** ** The delegating operations of the SQL shard client *)

(** The operations of the SQL shard client that delegate to sqlx, with
    their arguments. *)
Inductive SqlOp : Type :=
| OpExecContext (query : string) (args : list any)
| OpQueryContext (query : string) (args : list any)
| OpQueryxContext (query : string) (args : list any)
| OpQueryRowxContext (query : string) (args : list any)
| OpPrepareContext (query : string)
| OpNamedExecContext (query : string) (arg : any)
| OpSelectContext (dest : any) (query : string) (args : list any)
| OpGetContext (dest : any) (query : string) (args : list any)
| OpPrepareNamedContext (query : string).


(** The trace of running an operation on the shard client. *)
Definition sql_run {W} (x : Sql.Externals W) (c : Sql.clientShard W) (ctx : Ctx)
    (op : SqlOp) (w : W) : list Sql.Event :=
  match op with
  | OpExecContext query args =>
      trace (Sql.clientShard_ExecContext x c ctx query args w)
  | OpQueryContext query args =>
      trace (Sql.clientShard_QueryContext x c ctx query args w)
  | OpQueryxContext query args =>
      trace (Sql.clientShard_QueryxContext x c ctx query args w)
  | OpQueryRowxContext query args =>
      trace (Sql.clientShard_QueryRowxContext x c ctx query args w)
  | OpPrepareContext query =>
      trace (Sql.clientShard_PrepareContext x c ctx query w)
  | OpNamedExecContext query arg =>
      trace (Sql.clientShard_NamedExecContext x c ctx query arg w)
  | OpSelectContext dest query args =>
      trace (Sql.clientShard_SelectContext x c ctx dest query args w)
  | OpGetContext dest query args =>
      trace (Sql.clientShard_GetContext x c ctx dest query args w)
  | OpPrepareNamedContext query =>
      trace (Sql.clientShard_PrepareNamedContext x c ctx query w)
  end.

(** The sqlx calls of a trace, without the calls to the logger. *)
Definition sqlx_calls (t : list Sql.Event) : list (Sql.Target * Sql.Cmd) :=
  omap (fun ev => match ev with
                  | Sql.EvSqlx on cmd => Some (on, cmd)
                  | _ => None
                  end) t.

(** Where an operation has to go: to the ambient transaction when the
    context carries one, to the selected connection otherwise. *)
Definition sql_target (ctx : Ctx) (raw : Sql.ShardConnect) : Sql.Target :=
  match Sql.GetTx ctx with
  | (Some tx, true) => Sql.OnTx tx
  | _ => Sql.OnDB (Sql.Conn raw)
  end.

Section SqlDelegation.
Context {W : Type}.
Variable x : Sql.Externals W.


Lemma on_target_calls ctx raw cmd w :
  sqlx_calls
    (trace (match Sql.GetTx ctx with
            | (Some tx, true) => Sql.on_tx x tx ctx cmd
            | _ => Sql.on_db x (Sql.Conn raw) ctx cmd
            end w))
  = [(sql_target ctx raw, cmd)].
Proof.
  unfold sql_target, Sql.on_tx, Sql.on_db.
  destruct (Sql.GetTx ctx) as [[tx|] [|]]; by rewrite trace_call.
Qed.


Lemma sql_trace_deferWrap {A} method (body : M Sql.Event W (A * error)) w :
  trace (Sql.deferWrap x method body w) = trace (body w).
Proof.
  unfold Sql.deferWrap. rewrite trace_bind.
  destruct (value (body w)). by rewrite trace_ret, app_nil_r.
Qed.

Lemma sql_trace_deferWrap_err method (body : M Sql.Event W error) w :
  trace (Sql.deferWrap_err x method body w) = trace (body w).
Proof.
  unfold Sql.deferWrap_err. by rewrite trace_bind, trace_ret, app_nil_r.
Qed.




(** Without a selected connection nothing is called. *)
Lemma sql_not_selected (c : Sql.clientShard W) ctx (op : SqlOp) w :
  (Sql.selector (Sql.shard_connections c) ctx
                (Sql.connections (Sql.shard_connections c)) w).1 = None ->
  sql_run x c ctx op w = [].
Proof.
  intros Hsel.
  destruct op; simpl;
    unfold Sql.clientShard_ExecContext, Sql.clientShard_QueryContext,
      Sql.clientShard_QueryxContext, Sql.clientShard_QueryRowxContext,
      Sql.clientShard_PrepareContext, Sql.clientShard_NamedExecContext,
      Sql.clientShard_SelectContext, Sql.clientShard_GetContext,
      Sql.clientShard_PrepareNamedContext;
    rewrite ?sql_trace_deferWrap, ?sql_trace_deferWrap_err;
    unfold Sql.clientShard_selectConnect;
    by rewrite trace_bind, sql_Get_run, value_mk, world_mk, trace_mk, Hsel.
Qed.

End SqlDelegation.

(** ** The delegating operations of the key-value shard client (part_001) *)

(** The operations of the key-value shard client that delegate to
    go-redis, with their arguments. *)
Inductive RedisOp : Type :=
| KvKeys (pattern : string)
| KvDelete (keys : list string)
| KvDump (key : string)
| KvRename (oldKey newKey : string)
| KvRefresh (key : string) (ttl : Redis.Duration)
| KvRefreshAt (key : string) (at_ : Redis.Time)
| KvTTL (key : string)
| KvSet (key : string) (value : any) (ttl : list Redis.Duration)
| KvGet (key : string)
| KvMGet (keys : list string)
| KvExist (key : string)
| KvGetBytes (key : string)
| KvGetInt (key : string)
| KvParse (key : string) (export : any)
| KvHSet (key : string) (value : list (string * any))
| KvHGetAll (key : string)
| KvHGet (key field : string)
| KvHGetInt (key field : string)
| KvHGetBool (key field : string)
| KvHExist (key field : string)
| KvHDelete (key : string) (fields : list string)
| KvHScan (key : string) (cursor : Z) (pattern : string) (count : Z)
| KvScan (cursor : Z) (pattern : string) (count : Z)
| KvHIncrBy (key field : string) (incr : Z)
| KvHIncrByFloat (key field : string) (incr : Redis.float64)
| KvHKeys (key : string)
| KvHLen (key : string)
| KvHMGet (key : string) (fields : list string)
| KvHMSet (key : string) (values : list any)
| KvHSetNX (key field : string) (value : any)
| KvHScanNoValues (key : string) (cursor : Z) (pattern : string) (count : Z)
| KvHVals (key : string)
| KvHRandField (key : string) (count : Z)
| KvHRandFieldWithValues (key : string) (count : Z)
| KvHExpire (key : string) (expiration : Redis.Duration) (fields : list string)
| KvHTTL (key : string) (fields : list string).




(** The trace of running an operation on the shard client. *)
Definition redis_run {W} (x : Redis.Externals W) (c : Redis.shardClient W)
    (ctx : Ctx) (op : RedisOp) (w : W) : list Redis.Event :=
  match op with
  | KvKeys pattern =>
      trace (RedisPart001.shardClient_Keys x c ctx pattern w)
  | KvDelete keys =>
      trace (RedisPart001.shardClient_Delete x c ctx keys w)
  | KvDump key =>
      trace (RedisPart001.shardClient_Dump x c ctx key w)
  | KvRename oldKey newKey =>
      trace (RedisPart001.shardClient_Rename x c ctx oldKey newKey w)
  | KvRefresh key ttl =>
      trace (RedisPart001.shardClient_Refresh x c ctx key ttl w)
  | KvRefreshAt key at_ =>
      trace (RedisPart001.shardClient_RefreshAt x c ctx key at_ w)
  | KvTTL key =>
      trace (RedisPart001.shardClient_TTL x c ctx key w)
  | KvSet key value ttl =>
      trace (RedisPart001.shardClient_Set x c ctx key value ttl w)
  | KvGet key =>
      trace (RedisPart001.shardClient_Get x c ctx key w)
  | KvMGet keys =>
      trace (RedisPart001.shardClient_MGet x c ctx keys w)
  | KvExist key =>
      trace (RedisPart001.shardClient_Exist x c ctx key w)
  | KvGetBytes key =>
      trace (RedisPart001.shardClient_GetBytes x c ctx key w)
  | KvGetInt key =>
      trace (RedisPart001.shardClient_GetInt x c ctx key w)
  | KvParse key export =>
      trace (RedisPart001.shardClient_Parse x c ctx key export w)
  | KvHSet key value =>
      trace (RedisPart001.shardClient_HSet x c ctx key value w)
  | KvHGetAll key =>
      trace (RedisPart001.shardClient_HGetAll x c ctx key w)
  | KvHGet key field =>
      trace (RedisPart001.shardClient_HGet x c ctx key field w)
  | KvHGetInt key field =>
      trace (RedisPart001.shardClient_HGetInt x c ctx key field w)
  | KvHGetBool key field =>
      trace (RedisPart001.shardClient_HGetBool x c ctx key field w)
  | KvHExist key field =>
      trace (RedisPart001.shardClient_HExist x c ctx key field w)
  | KvHDelete key fields =>
      trace (RedisPart001.shardClient_HDelete x c ctx key fields w)
  | KvHScan key cursor pattern count =>
      trace (RedisPart001.shardClient_HScan x c ctx key cursor pattern count w)
  | KvScan cursor pattern count =>
      trace (RedisPart001.shardClient_Scan x c ctx cursor pattern count w)
  | KvHIncrBy key field incr =>
      trace (RedisPart001.shardClient_HIncrBy x c ctx key field incr w)
  | KvHIncrByFloat key field incr =>
      trace (RedisPart001.shardClient_HIncrByFloat x c ctx key field incr w)
  | KvHKeys key =>
      trace (RedisPart001.shardClient_HKeys x c ctx key w)
  | KvHLen key =>
      trace (RedisPart001.shardClient_HLen x c ctx key w)
  | KvHMGet key fields =>
      trace (RedisPart001.shardClient_HMGet x c ctx key fields w)
  | KvHMSet key values =>
      trace (RedisPart001.shardClient_HMSet x c ctx key values w)
  | KvHSetNX key field value =>
      trace (RedisPart001.shardClient_HSetNX x c ctx key field value w)
  | KvHScanNoValues key cursor pattern count =>
      trace (RedisPart001.shardClient_HScanNoValues x c ctx key cursor pattern count w)
  | KvHVals key =>
      trace (RedisPart001.shardClient_HVals x c ctx key w)
  | KvHRandField key count =>
      trace (RedisPart001.shardClient_HRandField x c ctx key count w)
  | KvHRandFieldWithValues key count =>
      trace (RedisPart001.shardClient_HRandFieldWithValues x c ctx key count w)
  | KvHExpire key expiration fields =>
      trace (RedisPart001.shardClient_HExpire x c ctx key expiration fields w)
  | KvHTTL key fields =>
      trace (RedisPart001.shardClient_HTTL x c ctx key fields w)
  end.

(** Where a command has to go: to the ambient pipeline when the context
    carries one, to the selected client otherwise. *)
Definition redis_target (ctx : Ctx) (raw : Redis.ShardClient) : Redis.Target :=
  match Redis.GetTx ctx with
  | (Some tx, true) => Redis.OnPipe tx
  | _ => Redis.OnClient (Redis.Client raw)
  end.

Section RedisDelegation.
Context {W : Type}.
Variable x : Redis.Externals W.

Lemma redis_trace_deferWrap {A} method (body : M Redis.Event W (A * error)) w :
  trace (RedisPart001.deferWrap x method body w) = trace (body w).
Proof.
  unfold RedisPart001.deferWrap. rewrite trace_bind.
  destruct (value (body w)). by rewrite trace_ret, app_nil_r.
Qed.

Lemma redis_trace_deferWrap_err method (body : M Redis.Event W error) w :
  trace (RedisPart001.deferWrap_err x method body w) = trace (body w).
Proof.
  unfold RedisPart001.deferWrap_err. by rewrite trace_bind, trace_ret, app_nil_r.
Qed.










End RedisDelegation.

(** ** The SQL shard client of the second revision *)




Section SqlRevision2Delegation.
Context {W : Type}.
Variable x : SqlRevision2.Externals W.





End SqlRevision2Delegation.

(** ** Delegation to the ambient transaction *)

Section Delegation.
Context {W : Type}.






End Delegation.

(** ** The context of a composite transaction *)

Section CompositeContext.
Context {W : Type}.

(** C10. The transaction that Begin of the composite returns answers nil
    to Context(), whatever its children are; the SQL and the key-value
    transactor see no transaction in that answer.  A single-kind
    transaction answers a context that carries its handle. *)
Theorem composite_transaction_Context_nil :
  forall (t : Storage.transactor W) (ctx : Ctx) (w : W)
         (tx : Storage.transaction W)
         (st : Sql.sqlTransactor W) (rt : Redis.redisTransactor W),
    value (Storage.transactor_Begin t ctx w) = Ok tx ->
    Storage.transaction_Context tx = None
    /\ Sql.sqlTransactor_IsTx st (Storage.transaction_Context tx) = false
    /\ Redis.redisTransactor_IsTx rt (Storage.transaction_Context tx) = false
    /\ (forall stx : Sql.sqlTransaction,
           Sql.GetTx (Sql.sqlTransaction_Context stx) = (Some (Sql.st_tx stx), true))
    /\ (forall rtx : Redis.redisTransaction,
           Redis.GetTx (Redis.redisTransaction_Context rtx)
           = (Some (Redis.rt_tx rtx), true)).
Proof.
  intros t ctx w tx st rt _.
  split; [reflexivity |]. split; [reflexivity |]. split; [reflexivity |].
  split.
  - intros stx. apply sql_GetTx_SetTx.
  - intros rtx. apply redis_GetTx_SetTx.
Qed.

End CompositeContext.

(** * Concrete runs *)

(** Collaborators that count the calls they served; the counter is the
    state [W]. *)
Definition wrap_error (errType : string) (err : error) (method : string) : error :=
  match err with
  | Some e => Some (ErrWrapped errType method e)
  | None => None
  end.

Definition sql_ext : Sql.Externals nat := {|
  Sql.sqlx_call := fun _ _ _ w => ((Some w, None), S w);
  Sql.sqlx_Open := fun _ _ w => (Ok w, S w);
  Sql.sqlx_configure := fun _ _ w => (tt, w);
  Sql.sqlx_PingContext := fun _ _ w => (None, S w);
  Sql.sqlx_BeginTxx := fun _ _ _ w => (Ok w, S w);
  Sql.sqlx_Commit := fun _ w => (None, S w);
  Sql.sqlx_Rollback := fun _ w => (None, S w);
  Sql.logger_Print := fun _ _ _ _ _ _ w => (tt, w);
  Sql.errorx_Wrap := wrap_error;
  Sql.convert_Bool := fun a => match a with any_bool b => b | _ => false end;
  Sql.errType := "SQL"
|}.

Definition kv_ext : Redis.Externals nat := {|
  Redis.redis_call := fun _ _ _ _ w => ((Redis.reply_string "v", None), S w);
  Redis.redis_NewClient := fun _ _ _ _ _ w => (w, S w);
  Redis.redis_Ping := fun _ w => (None, S w);
  Redis.redis_Pipeline := fun _ w => (w, S w);
  Redis.redis_TxPipeline := fun _ w => (w, S w);
  Redis.redis_Exec := fun _ _ w => (None, S w);
  Redis.redis_Discard := fun _ w => (tt, S w);
  Redis.json_Unmarshal := fun _ _ => None;
  Redis.errorx_Wrap := wrap_error;
  Redis.contextx_Validate := fun _ => None;
  Redis.validate := fun _ key => RedisPart001.validateKey key
|}.

(** Three SQL shards and a selector that takes the first one. *)
Definition shard_A : Sql.ShardConnect := Sql.newShardConnect "A" 1.
Definition shard_B : Sql.ShardConnect := Sql.newShardConnect "B" 2.
Definition shard_C : Sql.ShardConnect := Sql.newShardConnect "C" 3.

Definition first_connection : Sql.ConnectionSelector nat :=
  fun _ connections w => (head connections, w).

Definition sql_shards : Sql.clientShard nat :=
  Sql.ClientShard (Sql.newConnections [shard_A; shard_B; shard_C] first_connection)
                  [].

(** Two key-value shards and a selector that takes the first one. *)
Definition kv_A : Redis.ShardClient := Redis.newShardConnect "A" [] 11.
Definition kv_B : Redis.ShardClient := Redis.newShardConnect "B" [] 12.

Definition first_client : Redis.ClientSelector nat :=
  fun _ clients w => (head clients, w).

Definition kv_shards : Redis.shardClient nat :=
  Redis.NewShard (Redis.newClients [kv_A; kv_B] first_client).

(** A context that carries the SQL transaction 5 and the pipeline 7. *)
Definition ctx_in_tx : Ctx := Redis.SetTx (Sql.SetTx Background 5) 7.

(** A callback that fails on the connection [conn]. *)
Definition fails_on (conn : DBConn) (e : Err) : Sql.DB nat -> nat -> error * nat :=
  fun db w =>
    match db with
    | Sql.DB_single c =>
        if (Sql.single_conn c =? conn)%nat then (Some e, S w) else (None, S w)
    | Sql.DB_shard _ => (None, S w)
    end.

(** EachShard over [A, B, C] where B fails: A is run, B fails and is
    reported, C is not run. *)
Example EachShard_A_B_C :
  Sql.EachShard (Sql.DB_shard sql_shards) (fails_on 2 (ErrExternal 9)) 0 =
  (Some (ErrExternal 9), 2,
   [Sql.EvFn (shard_client shard_A) None;
    Sql.EvFn (shard_client shard_B) (Some (ErrExternal 9))]).
Proof. reflexivity. Qed.

(** EachShardAsync over the same shards, the goroutines finishing in the
    order C, A, B: all three are run, and B's failure is reported. *)
Example EachShardAsync_A_B_C :
  Sql.EachShardAsync [2; 0; 1] (Sql.DB_shard sql_shards)
                     (fails_on 2 (ErrExternal 9)) [] 0 =
  (Some (ErrExternal 9), 3,
   [Sql.EvFn (shard_client shard_C) None;
    Sql.EvFn (shard_client shard_A) None;
    Sql.EvFn (shard_client shard_B) (Some (ErrExternal 9))]).
Proof. reflexivity. Qed.

(** With the limit 1 they run in the order A, B, C, and C is still run
    after B failed. *)
Example EachShardAsync_A_B_C_limit_1 :
  Sql.EachShardAsync [0; 1; 2] (Sql.DB_shard sql_shards)
                     (fails_on 2 (ErrExternal 9)) [1%Z] 0 =
  (Some (ErrExternal 9), 3,
   [Sql.EvFn (shard_client shard_A) None;
    Sql.EvFn (shard_client shard_B) (Some (ErrExternal 9));
    Sql.EvFn (shard_client shard_C) None]).
Proof. reflexivity. Qed.

Lemma schedule_2_0_1 : Permutation [2; 0; 1] (seq 0 3).
Proof. exact (Permutation_app_comm [2] [0; 1]). Defined.

Lemma schedule_1_0 : Permutation [1; 0] (seq 0 2).
Proof. exact (Permutation_app_comm [1] [0]). Defined.

(** C8 at the three shards, with B failing and the schedule C, A, B:
    fn runs on C from the state 0, on A from 1 and on B from 2. *)
Lemma EachShardAsync_all_shards_witness :
  Permutation [2; 0; 1] (seq 0 3)
  /\ length (trace (Sql.EachShardAsync [2; 0; 1] (Sql.DB_shard sql_shards)
                                       (fails_on 2 (ErrExternal 9)) [] 0)) = 3
  /\ value (Sql.EachShardAsync [2; 0; 1] (Sql.DB_shard sql_shards)
                               (fails_on 2 (ErrExternal 9)) [] 0) <> None
  /\ (exists errs,
        attempted [shard_A; shard_B; shard_C]
                  (fun s => fails_on 2 (ErrExternal 9)
                                     (Sql.DB_single (shard_client s)))
                  [2; 0; 1] 0 errs
                  (world (Sql.EachShardAsync [2; 0; 1] (Sql.DB_shard sql_shards)
                                             (fails_on 2 (ErrExternal 9)) [] 0))
        /\ value (Sql.EachShardAsync [2; 0; 1] (Sql.DB_shard sql_shards)
                                     (fails_on 2 (ErrExternal 9)) [] 0)
           = first_error errs).
Proof.
  split; [exact schedule_2_0_1 |].
  destruct (EachShardAsync_all_shards sql_shards (fails_on 2 (ErrExternal 9))
              [] [2; 0; 1] 0 schedule_2_0_1)
    as (Hlen & _ & _ & Hiff & _ & errs & Hatt & _ & Hval).
  split; [exact Hlen |]. split.
  - apply Hiff. exists (shard_client shard_B), (ErrExternal 9).
    apply list_elem_of_lookup. by exists 2.
  - exists errs. by split.
Defined.

(** C9 at two SQL entries with the same key, and at a key-value entry
    with the port zero. *)
Definition two_entries_one_key : list Sql.ShardConnectString :=
  [ {| Sql.cs_Key := "a"; Sql.cs_ConnectionString := "host=one" |};
    {| Sql.cs_Key := "a"; Sql.cs_ConnectionString := "host=two" |} ].

Definition entry_port_zero : list Redis.ShardConnectConfig :=
  [ {| Redis.cfg_Key := "a"; Redis.cfg_Address := "localhost";
       Redis.cfg_Port := 0; Redis.cfg_DB := 0; Redis.cfg_Password := "";
       Redis.cfg_Conditions := [] |} ].

Lemma two_entries_one_key_defect : sql_defect two_entries_one_key.
Proof.
  right. right. intros Hnd. apply NoDup_cons in Hnd as [Hnotin _].
  apply Hnotin. apply elem_of_cons. by left.
Defined.

Lemma entry_port_zero_defect : redis_defect entry_port_zero.
Proof. right. right. left. by apply Exists_cons_hd. Defined.

Lemma ConnectShards_validates_first_witness :
  sql_defect two_entries_one_key
  /\ redis_defect entry_port_zero
  /\ (exists e,
        Sql.ConnectShards sql_ext "postgres" two_entries_one_key first_connection
                          0 [] 0 = (Fail e, 0, []))
  /\ (exists e,
        Redis.ConnectShards kv_ext entry_port_zero first_client [] 0
        = (Fail e, 0, [])).
Proof.
  split; [exact two_entries_one_key_defect |].
  split; [exact entry_port_zero_defect |].
  destruct (ConnectShards_validates_first sql_ext kv_ext "postgres"
              two_entries_one_key first_connection 0 [] entry_port_zero
              first_client [] 0) as (Hs & _ & Hk & _).
  split.
  - exact (Hs two_entries_one_key_defect).
  - exact (Hk entry_port_zero_defect).
Defined.

(** A child transactor with scripted answers. *)
Definition scripted_tx : Storage.Transaction nat := {|
  Storage.Transaction_Context := None;
  Storage.Transaction_Commit := fun _ w => (None, S w);
  Storage.Transaction_Rollback := fun _ w => (None, S w)
|}.

Definition scripted (key : string) (begin commit rollback : error)
  : Storage.Transactor nat := {|
  Storage.Transactor_Key := key;
  Storage.Transactor_IsTx := fun _ => false;
  Storage.Transactor_Begin := fun _ w =>
    (match begin with Some e => Fail e | None => Ok scripted_tx end, S w);
  Storage.Transactor_BeginCtx := fun ctx w =>
    (match begin with
     | Some e => Storage.NotBegan None e
     | None => Storage.Began ctx
     end, S w);
  Storage.Transactor_CommitCtx := fun _ w => (commit, S w);
  Storage.Transactor_RollbackCtx := fun _ w => (rollback, S w)
|}.

Definition sql_child : Storage.Transactor nat :=
  Sql.NewTransactor sql_ext (Sql.ProviderDB 1).

Definition kv_child : Storage.Transactor nat :=
  Redis.NewTransactor kv_ext (Redis.shardClient_TxPipeline kv_ext kv_shards).

Definition broken_child : Storage.Transactor nat :=
  scripted "broken" (Some (ErrExternal 3)) (Some (ErrExternal 4))
           (Some (ErrExternal 5)).

(** SQL, a child that fails, key-value. *)
Definition sql_broken_kv : Storage.transactor nat :=
  Storage.NewTransactor [sql_child; broken_child; kv_child].

(** SQL and key-value. *)
Definition sql_kv : Storage.transactor nat :=
  Storage.NewTransactor [sql_child; kv_child].

Example composite_Key :
  Storage.transactor_Key sql_broken_kv = "storage_sql_tx,broken,storage_redis_tx".
Proof. reflexivity. Qed.

(** Begin where the second child fails: the SQL child has begun and stays
    so, the error of the second child comes back, the key-value child is
    not called; the collaborators have served two calls. *)
Example composite_Begin_second_fails :
  world (Storage.transactor_Begin sql_broken_kv Background 0) = 2
  /\ world (Storage.transactor_BeginCtx sql_broken_kv Background 0) = 2
  /\ value (Storage.transactor_Begin sql_broken_kv Background 0) = Fail (ErrExternal 3)
  /\ trace (Storage.transactor_Begin sql_broken_kv Background 0) =
     [Storage.Invoked 0 Storage.MBegin None;
      Storage.Invoked 1 Storage.MBegin (Some (ErrExternal 3))]
  /\ value (Storage.transactor_BeginCtx sql_broken_kv Background 0) =
     (None, Some (ErrExternal 3))
  /\ trace (Storage.transactor_BeginCtx sql_broken_kv Background 0) =
     [Storage.Invoked 0 Storage.MBeginCtx None;
      Storage.Invoked 1 Storage.MBeginCtx (Some (ErrExternal 3))].
Proof. repeat split. Qed.

(** BeginCtx over SQL and key-value gives a context with both handles. *)
Example composite_BeginCtx_both :
  exists ctx,
    value (Storage.transactor_BeginCtx sql_kv Background 0) = (Some ctx, None)
    /\ Sql.GetTx ctx = (Some 0, true)
    /\ Redis.GetTx ctx = (Some 1, true).
Proof. eexists. repeat split. Qed.

(** CommitCtx where the second child fails and the goroutines finish in
    the order key-value, SQL, broken: all three commits are attempted. *)
Example composite_CommitCtx_second_fails :
  Storage.transactor_CommitCtx [2; 0; 1] sql_broken_kv ctx_in_tx 0 =
  (Some (ErrExternal 4), 3,
   [Storage.Invoked 2 Storage.MCommitCtx None;
    Storage.Invoked 0 Storage.MCommitCtx None;
    Storage.Invoked 1 Storage.MCommitCtx (Some (ErrExternal 4))]).
Proof. reflexivity. Qed.

(** C3 at these three children and that schedule: CommitCtx of the
    key-value child runs from the state 0, that of the SQL child from 1
    and that of the broken child from 2. *)
Lemma composite_CommitCtx_RollbackCtx_attempt_all_witness :
  Permutation [2; 0; 1] (seq 0 3)
  /\ all_attempted Storage.MCommitCtx 3
       (Storage.transactor_CommitCtx [2; 0; 1] sql_broken_kv ctx_in_tx 0)
  /\ all_attempted Storage.MRollbackCtx 3
       (Storage.transactor_RollbackCtx [2; 0; 1] sql_broken_kv ctx_in_tx 0)
  /\ children_ran Storage.MCommitCtx
       (fun tr => Storage.Transactor_CommitCtx tr ctx_in_tx)
       [sql_child; broken_child; kv_child] [2; 0; 1] 0
       (Storage.transactor_CommitCtx [2; 0; 1] sql_broken_kv ctx_in_tx 0)
  /\ children_ran Storage.MRollbackCtx
       (fun tr => Storage.Transactor_RollbackCtx tr ctx_in_tx)
       [sql_child; broken_child; kv_child] [2; 0; 1] 0
       (Storage.transactor_RollbackCtx [2; 0; 1] sql_broken_kv ctx_in_tx 0).
Proof.
  split; [exact schedule_2_0_1 |].
  exact (composite_CommitCtx_RollbackCtx_attempt_all sql_broken_kv ctx_in_tx
           [2; 0; 1] 0 schedule_2_0_1).
Defined.

(** C10 at the composite over SQL and key-value. *)
Lemma composite_transaction_Context_nil_witness :
  exists tx,
    value (Storage.transactor_Begin sql_kv Background 0) = Ok tx
    /\ Storage.transaction_Context tx = None
    /\ length (Storage.transactions tx) = 2.
Proof.
  eexists. split; [reflexivity |]. split; [| reflexivity].
  exact (proj1 (composite_transaction_Context_nil sql_kv Background 0 _
                  {| Sql.provider := Sql.ProviderDB 1 |}
                  {| Redis.provider :=
                       Redis.shardClient_TxPipeline kv_ext kv_shards |}
                  eq_refl)).
Defined.

(** C5 at the background context. *)
Lemma CommitCtx_RollbackCtx_without_tx_witness :
  (Sql.GetTx Background).2 = false
  /\ (Redis.GetTx Background).2 = false
  /\ Sql.sqlTransactor_CommitCtx sql_ext {| Sql.provider := Sql.ProviderDB 1 |}
                                 Background 0 = (None, 0, [])
  /\ Redis.redisTransactor_RollbackCtx
       kv_ext {| Redis.provider := Redis.shardClient_TxPipeline kv_ext kv_shards |}
       Background 0 = (None, 0, []).
Proof.
  split; [reflexivity |]. split; [reflexivity |].
  destruct (CommitCtx_RollbackCtx_without_tx sql_ext kv_ext
              {| Sql.provider := Sql.ProviderDB 1 |}
              {| Redis.provider := Redis.shardClient_TxPipeline kv_ext kv_shards |}
              Background 0) as [Hs Hk].
  split.
  - exact (proj1 (Hs eq_refl)).
  - exact (proj2 (Hk eq_refl)).
Defined.

(** With a transaction in the context the commit reaches the handle. *)
Example CommitCtx_with_tx :
  Sql.sqlTransactor_CommitCtx sql_ext {| Sql.provider := Sql.ProviderDB 1 |}
                              ctx_in_tx 0 = (None, 1, [Sql.EvCommit 5])
  /\ Redis.redisTransactor_RollbackCtx
       kv_ext {| Redis.provider := Redis.shardClient_TxPipeline kv_ext kv_shards |}
       ctx_in_tx 0 = (None, 1, [Redis.EvDiscard 7]).
Proof. by split. Qed.





(** * More of the packages *)

(** ** Strings *)

Lemma string_app_nil_r (s : string) : (s ++ "")%string = s.
Proof.
  induction s as [|a s IH]; [done |].
  change (String a (s ++ "")%string = String a s). by f_equal.
Qed.

Lemma string_app_assoc (s1 s2 s3 : string) :
  ((s1 ++ s2) ++ s3)%string = (s1 ++ (s2 ++ s3))%string.
Proof.
  induction s1 as [|a s1 IH]; [done |].
  change (String a ((s1 ++ s2) ++ s3)%string = String a (s1 ++ (s2 ++ s3))%string).
  by f_equal.
Qed.

(** ** Copying the ambient transaction to another context *)

Section RewriteTxFacts.

(** X1. RewriteTx carries the value under the given key from the
    original context over to the other one: a transaction of the
    original is found in the result, a context without a value under the
    key leaves the other context as it is, and no other key of the
    other context changes. *)
Theorem RewriteTx_copies_the_key :
  forall (key : string) (original toCopy : Ctx),
    (Value original key = any_nil ->
       Storage.RewriteTx key original toCopy = toCopy)
    /\ (Value original key <> any_nil ->
        Value (Storage.RewriteTx key original toCopy) key = Value original key)
    /\ (forall key', key' <> key ->
          Value (Storage.RewriteTx key original toCopy) key' = Value toCopy key')
    /\ (forall tx, Sql.GetTx original = (Some tx, true) ->
          Sql.GetTx (Storage.RewriteTx Sql.transactionKey original toCopy)
          = (Some tx, true))
    /\ (forall tx, Redis.GetTx original = (Some tx, true) ->
          Redis.GetTx (Storage.RewriteTx Redis.transactionKey original toCopy)
          = (Some tx, true)).
Proof.
  intros key original toCopy. unfold Storage.RewriteTx.
  split; [by intros -> |]. split; [| split; [| split]].
  - intros Hne. destruct (Value original key) eqn:Hv; try done;
      by rewrite Value_WithValue_same.
  - intros key' Hne. destruct (Value original key); try done;
      apply Value_WithValue_other; congruence.
  - intros tx. unfold Sql.GetTx.
    destruct (Value original Sql.transactionKey) eqn:Hv; try discriminate.
    intros [= ->]. by rewrite Value_WithValue_same.
  - intros tx. unfold Redis.GetTx.
    destruct (Value original Redis.transactionKey) eqn:Hv; try discriminate.
    intros [= ->]. by rewrite Value_WithValue_same.
Qed.

End RewriteTxFacts.

(** ** Key and IsTx of the composite transactor *)

Section CompositeKey.
Context {W : Type}.
Import Storage.

Lemma Key_loop_join (trs : list (Transactor W)) : forall idx len builder,
  len = idx + length trs ->
  Key_loop trs idx len builder =
  (builder ++ String.concat "," (Transactor_Key <$> trs))%string.
Proof.
  induction trs as [|tr rest IH]; intros idx len builder Hlen; simpl.
  - by rewrite string_app_nil_r.
  - destruct rest as [|tr' rest'].
    + simpl. destruct (Z.ltb_spec (Z.of_nat idx) (Z.of_nat len - 1));
        [simpl in Hlen; lia | done].
    + rewrite (IH (S idx) len); [| simpl in *; lia].
      destruct (Z.ltb_spec (Z.of_nat idx) (Z.of_nat len - 1));
        [| simpl in Hlen; lia].
      rewrite !string_app_assoc. reflexivity.
Qed.

(** X2. Key of the composite is the keys of the children, in
    construction order, joined by commas: no comma before the first key
    or after the last one, and the empty string for no children. *)
Theorem transactor_Key_joins (t : transactor W) :
  transactor_Key t = String.concat "," (Transactor_Key <$> transactors t).
Proof. unfold transactor_Key. by rewrite (Key_loop_join _ 0 _ ""). Qed.

(** X3. IsTx of the composite is true exactly when some child reports a
    transaction on the context; with no children it is false. *)
Theorem transactor_IsTx_some_child (t : transactor W) (ctx : option Ctx) :
  transactor_IsTx t ctx = true
  <-> Exists (fun tr => Transactor_IsTx tr ctx = true) (transactors t).
Proof.
  unfold transactor_IsTx. induction (transactors t) as [|tr rest IH]; simpl.
  - split; [discriminate | intros H; inversion H].
  - destruct (Transactor_IsTx tr ctx) eqn:Htr.
    + split; [intros _; by apply Exists_cons_hd | done].
    + rewrite IH. split; [apply Exists_cons_tl |].
      intros H. inversion H as [? ? H1 | ? ? H1]; subst; [congruence | done].
Qed.

End CompositeKey.

(** ** Commit and Rollback of the composite transaction *)

(** X4 is [composite_transaction_attempts_all] above; here it is at a
    composite of an SQL transaction and a scripted one, the second
    finishing first. *)
Definition sql_and_scripted : Storage.transaction nat :=
  Storage.newTransaction
    [Sql.as_Transaction sql_ext (Sql.newTransactorTx Background 5); scripted_tx].

Lemma composite_transaction_attempts_all_witness :
  Permutation [1; 0] (seq 0 2)
  /\ all_attempted Storage.MCommit 2
       (Storage.transaction_Commit [1; 0] sql_and_scripted Background 0)
  /\ all_attempted Storage.MRollback 2
       (Storage.transaction_Rollback [1; 0] sql_and_scripted Background 0)
  /\ children_ran Storage.MCommit
       (fun tx => Storage.Transaction_Commit tx Background)
       (Storage.transactions sql_and_scripted) [1; 0] 0
       (Storage.transaction_Commit [1; 0] sql_and_scripted Background 0)
  /\ children_ran Storage.MRollback
       (fun tx => Storage.Transaction_Rollback tx Background)
       (Storage.transactions sql_and_scripted) [1; 0] 0
       (Storage.transaction_Rollback [1; 0] sql_and_scripted Background 0).
Proof.
  split; [exact schedule_1_0 |].
  exact (composite_transaction_attempts_all sql_and_scripted Background [1; 0] 0
           schedule_1_0).
Defined.

(** ** Operations of the shard clients when no shard is selected *)

Section NotSelected.
Context {W : Type}.

(** X5. When the selector gives no connection, a delegating operation
    of the SQL shard client calls neither sqlx nor the logger.  Each of
    the nine operations then returns no result and the error
    ErrConnNotSelected as errorx.Wrap leaves it under the name of the
    operation, except QueryRowxContext, which has no error to return and
    returns nil. *)
Theorem sql_ops_without_shard :
  forall (x : Sql.Externals W) (c : Sql.clientShard W) (ctx : Ctx) (w : W),
    (Sql.selector (Sql.shard_connections c) ctx
                  (Sql.connections (Sql.shard_connections c)) w).1 = None ->
    (forall op, sql_run x c ctx op w = [])
    /\ (forall query args,
          value (Sql.clientShard_ExecContext x c ctx query args w) =
          (None, Sql.errorx_Wrap x (Sql.errType x) (Some ErrConnNotSelected)
                                 "ExecContext"))
    /\ (forall dest query args,
          value (Sql.clientShard_SelectContext x c ctx dest query args w) =
          Sql.errorx_Wrap x (Sql.errType x) (Some ErrConnNotSelected)
                          "SelectContext")
    /\ (forall query args,
          value (Sql.clientShard_QueryRowxContext x c ctx query args w) = None)
    /\ (forall query args,
          value (Sql.clientShard_QueryContext x c ctx query args w) =
          (None, Sql.errorx_Wrap x (Sql.errType x) (Some ErrConnNotSelected)
                                 "QueryContext"))
    /\ (forall query args,
          value (Sql.clientShard_QueryxContext x c ctx query args w) =
          (None, Sql.errorx_Wrap x (Sql.errType x) (Some ErrConnNotSelected)
                                 "QueryxContext"))
    /\ (forall query,
          value (Sql.clientShard_PrepareContext x c ctx query w) =
          (None, Sql.errorx_Wrap x (Sql.errType x) (Some ErrConnNotSelected)
                                 "PrepareContext"))
    /\ (forall query arg,
          value (Sql.clientShard_NamedExecContext x c ctx query arg w) =
          (None, Sql.errorx_Wrap x (Sql.errType x) (Some ErrConnNotSelected)
                                 "NamedExecContext"))
    /\ (forall dest query args,
          value (Sql.clientShard_GetContext x c ctx dest query args w) =
          Sql.errorx_Wrap x (Sql.errType x) (Some ErrConnNotSelected)
                          "GetContext")
    /\ (forall query,
          value (Sql.clientShard_PrepareNamedContext x c ctx query w) =
          (None, Sql.errorx_Wrap x (Sql.errType x) (Some ErrConnNotSelected)
                                 "PrepareNamedContext")).
Proof.
  intros x c ctx w Hsel.
  split; [intros op; by apply sql_not_selected |].
  unfold Sql.clientShard_ExecContext, Sql.clientShard_SelectContext,
    Sql.clientShard_QueryRowxContext, Sql.clientShard_QueryContext,
    Sql.clientShard_QueryxContext, Sql.clientShard_PrepareContext,
    Sql.clientShard_NamedExecContext, Sql.clientShard_GetContext,
    Sql.clientShard_PrepareNamedContext, Sql.deferWrap, Sql.deferWrap_err,
    Sql.clientShard_selectConnect.
  repeat split; intros;
    by rewrite !value_bind, sql_Get_run, value_mk, ?world_mk, Hsel.
Qed.

Lemma redis_trace_not_selected {A} (c : Redis.shardClient W) ctx w
    (k : result Redis.ShardClient -> M Redis.Event W A) :
  (Redis.selector (Redis.shard_clients c) ctx
                  (Redis.clients (Redis.shard_clients c)) w).1 = None ->
  trace (bind (Redis.Clients_Get (Redis.shard_clients c) ctx) k w) =
  trace (k (Fail ErrConnNotSelected)
           (Redis.selector (Redis.shard_clients c) ctx
                           (Redis.clients (Redis.shard_clients c)) w).2).
Proof.
  intros Hsel.
  by rewrite trace_bind, redis_Get_run, value_mk, world_mk, trace_mk, Hsel.
Qed.

Ltac redis_not_selected Hsel :=
  rewrite ?redis_trace_deferWrap, ?redis_trace_deferWrap_err;
  unfold RedisPart001.validateKey;
  repeat match goal with
         | |- context [String.eqb ?k ""] => destruct (String.eqb k "")
         | |- context [(length ?l =? 0)%nat] => destruct l; cbn [length Nat.eqb]
         end;
  rewrite ?redis_trace_deferWrap, ?redis_trace_deferWrap_err;
  rewrite ?trace_ret; try reflexivity;
  rewrite (redis_trace_not_selected _ _ _ _ Hsel); reflexivity.

(** X6. When the selector gives no client, an operation of the
    key-value shard client of part_001 issues no command at all, on any
    arguments; Get on a non-empty key then returns the empty string and
    ErrConnNotSelected as errorx.Wrap leaves it. *)
Theorem redis_ops_without_shard :
  forall (x : Redis.Externals W) (c : Redis.shardClient W) (ctx : Ctx) (w : W),
    (Redis.selector (Redis.shard_clients c) ctx
                    (Redis.clients (Redis.shard_clients c)) w).1 = None ->
    (forall op, redis_run x c ctx op w = [])
    /\ (forall key, key <> "" ->
          value (RedisPart001.shardClient_Get x c ctx key w) =
          (Redis.reply_string "",
           Redis.errorx_Wrap x RedisPart001.errType (Some ErrConnNotSelected)
                             "Get")).
Proof.
  intros x c ctx w Hsel. split.
  - intros op. destruct op; simpl;
    unfold
    RedisPart001.shardClient_Keys, RedisPart001.shardClient_Delete,
    RedisPart001.shardClient_Dump, RedisPart001.shardClient_Rename,
    RedisPart001.shardClient_Refresh, RedisPart001.shardClient_RefreshAt,
    RedisPart001.shardClient_TTL, RedisPart001.shardClient_Set,
    RedisPart001.shardClient_Get, RedisPart001.shardClient_MGet,
    RedisPart001.shardClient_Exist, RedisPart001.shardClient_GetBytes,
    RedisPart001.shardClient_GetInt, RedisPart001.shardClient_Parse,
    RedisPart001.shardClient_HSet, RedisPart001.shardClient_HGetAll,
    RedisPart001.shardClient_HGet, RedisPart001.shardClient_HGetInt,
    RedisPart001.shardClient_HGetBool, RedisPart001.shardClient_HExist,
    RedisPart001.shardClient_HDelete, RedisPart001.shardClient_HScan,
    RedisPart001.shardClient_Scan, RedisPart001.shardClient_HIncrBy,
    RedisPart001.shardClient_HIncrByFloat, RedisPart001.shardClient_HKeys,
    RedisPart001.shardClient_HLen, RedisPart001.shardClient_HMGet,
    RedisPart001.shardClient_HMSet, RedisPart001.shardClient_HSetNX,
    RedisPart001.shardClient_HScanNoValues, RedisPart001.shardClient_HVals,
    RedisPart001.shardClient_HRandField,
    RedisPart001.shardClient_HRandFieldWithValues,
    RedisPart001.shardClient_HExpire, RedisPart001.shardClient_HTTL.
    all: redis_not_selected Hsel.
  - intros key Hkey.
    unfold RedisPart001.shardClient_Get, RedisPart001.deferWrap,
      RedisPart001.validateKey.
    apply String.eqb_neq in Hkey. rewrite Hkey.
    by rewrite !value_bind, redis_Get_run, value_mk, ?world_mk, Hsel.
Qed.

End NotSelected.

(** X5 and X6 at shard clients whose selector never selects. *)
Definition no_connection : Sql.ConnectionSelector nat := fun _ _ w => (None, w).
Definition no_client : Redis.ClientSelector nat := fun _ _ w => (None, w).

Definition sql_unrouted : Sql.clientShard nat :=
  Sql.ClientShard (Sql.newConnections [shard_A; shard_B] no_connection) [true].

Definition kv_unrouted : Redis.shardClient nat :=
  Redis.NewShard (Redis.newClients [kv_A; kv_B] no_client).

Lemma sql_ops_without_shard_witness :
  sql_run sql_ext sql_unrouted ctx_in_tx (OpExecContext "q" []) 0 = []
  /\ value (Sql.clientShard_ExecContext sql_ext sql_unrouted ctx_in_tx "q" [] 0)
     = (None, Some (ErrWrapped "SQL" "ExecContext" ErrConnNotSelected)).
Proof.
  destruct (sql_ops_without_shard sql_ext sql_unrouted ctx_in_tx 0 eq_refl)
    as (Hrun & Hexec & _).
  split; [apply Hrun | apply Hexec].
Defined.

Lemma redis_ops_without_shard_witness :
  redis_run kv_ext kv_unrouted ctx_in_tx (KvSet "k" (any_int 1) []) 0 = []
  /\ value (RedisPart001.shardClient_Get kv_ext kv_unrouted ctx_in_tx "k" 0)
     = (Redis.reply_string "",
        Some (ErrWrapped "Redis" "Get" ErrConnNotSelected)).
Proof.
  destruct (redis_ops_without_shard kv_ext kv_unrouted ctx_in_tx 0 eq_refl)
    as (Hrun & Hget).
  split; [apply Hrun | by apply Hget].
Defined.

(** ** Beginning, then committing or rolling back *)

Section BeginThenEnd.
Context {W : Type}.

Lemma sql_BeginCtx_value (x : Sql.Externals W) (st : Sql.sqlTransactor W) ctx w :
  (exists tx, value (Sql.sqlTransactor_BeginCtx x st ctx w)
              = Storage.Began (Sql.SetTx ctx tx))
  \/ (exists e, value (Sql.sqlTransactor_BeginCtx x st ctx w)
                = Storage.NotBegan None e).
Proof.
  unfold Sql.sqlTransactor_BeginCtx. rewrite value_bind.
  destruct (value (Sql.provider_BeginTxx x (Sql.provider st) ctx
                                         Sql.read_committed w)) as [tx|e].
  - left. by exists tx.
  - right. by exists e.
Qed.

Lemma redis_BeginCtx_value (rt : Redis.redisTransactor W) ctx w :
  (exists tx, value (Redis.redisTransactor_BeginCtx rt ctx w)
              = Storage.Began (Redis.SetTx ctx tx))
  \/ (exists e, value (Redis.redisTransactor_BeginCtx rt ctx w)
                = Storage.NotBegan None e).
Proof.
  unfold Redis.redisTransactor_BeginCtx. rewrite value_bind.
  destruct (value (Redis.provider rt ctx w)) as [tx|e].
  - left. by exists tx.
  - right. by exists e.
Qed.

(** X7. BeginCtx of the SQL transactor either fails with a nil context,
    or returns the given context extended with the new transaction.  On
    that context IsTx is true, CommitCtx makes exactly one call, Commit
    on that transaction, and returns what it returned, and RollbackCtx
    does the same with Rollback. *)
Theorem sql_BeginCtx_then_end :
  forall (x : Sql.Externals W) (st : Sql.sqlTransactor W) (ctx : Ctx) (w : W),
    match value (Sql.sqlTransactor_BeginCtx x st ctx w) with
    | Storage.NotBegan ctx' _ => ctx' = None
    | Storage.Began ctx' =>
        exists tx,
          ctx' = Sql.SetTx ctx tx
          /\ Sql.sqlTransactor_IsTx st (Some ctx') = true
          /\ forall w',
               Sql.sqlTransactor_CommitCtx x st ctx' w' =
                 ((Sql.sqlx_Commit x tx w').1, (Sql.sqlx_Commit x tx w').2,
                  [Sql.EvCommit tx])
               /\ Sql.sqlTransactor_RollbackCtx x st ctx' w' =
                  ((Sql.sqlx_Rollback x tx w').1, (Sql.sqlx_Rollback x tx w').2,
                   [Sql.EvRollback tx])
    end.
Proof.
  intros x st ctx w.
  destruct (sql_BeginCtx_value x st ctx w) as [[tx ->] | [e ->]]; [| done].
  exists tx. split; [done |]. split.
  - unfold Sql.sqlTransactor_IsTx. by rewrite sql_GetTx_SetTx.
  - intros w'.
    unfold Sql.sqlTransactor_CommitCtx, Sql.sqlTransactor_RollbackCtx.
    rewrite sql_GetTx_SetTx. unfold call.
    by destruct (Sql.sqlx_Commit x tx w'), (Sql.sqlx_Rollback x tx w').
Qed.

(** X8. BeginCtx of the key-value transactor either fails with a nil
    context, or returns the given context extended with the new
    pipeline.  On that context CommitCtx makes exactly one call, Exec on
    that pipeline, and returns its error; RollbackCtx makes exactly one
    call, Discard on that pipeline.  RollbackCtx returns nil on every
    context. *)
Theorem redis_BeginCtx_then_end :
  forall (x : Redis.Externals W) (rt : Redis.redisTransactor W)
         (ctx : Ctx) (w : W),
    match value (Redis.redisTransactor_BeginCtx rt ctx w) with
    | Storage.NotBegan ctx' _ => ctx' = None
    | Storage.Began ctx' =>
        exists tx,
          ctx' = Redis.SetTx ctx tx
          /\ Redis.redisTransactor_IsTx rt (Some ctx') = true
          /\ forall w',
               Redis.redisTransactor_CommitCtx x rt ctx' w' =
                 ((Redis.redis_Exec x tx ctx' w').1,
                  (Redis.redis_Exec x tx ctx' w').2, [Redis.EvExec tx])
               /\ Redis.redisTransactor_RollbackCtx x rt ctx' w' =
                  (None, (Redis.redis_Discard x tx w').2, [Redis.EvDiscard tx])
    end
    /\ value (Redis.redisTransactor_RollbackCtx x rt ctx w) = None.
Proof.
  intros x rt ctx w. split.
  - destruct (redis_BeginCtx_value rt ctx w) as [[tx ->] | [e ->]]; [| done].
    exists tx. split; [done |]. split.
    + unfold Redis.redisTransactor_IsTx. by rewrite redis_GetTx_SetTx.
    + intros w'.
      unfold Redis.redisTransactor_CommitCtx, Redis.redisTransactor_RollbackCtx.
      rewrite redis_GetTx_SetTx. unfold call, bind, ret.
      by destruct (Redis.redis_Exec x tx (Redis.SetTx ctx tx) w'),
                  (Redis.redis_Discard x tx w').
  - unfold Redis.redisTransactor_RollbackCtx.
    destruct (Redis.GetTx ctx) as [[tx|] [|]]; try done.
    by rewrite value_bind.
Qed.

(** X9. A transaction of the shard set begins on the connection of the
    shard the selector gave, and on no other; when the selector gives
    none, BeginTxx fails with ErrConnNotSelected and begins nothing. *)
Theorem Connections_BeginTxx_on_selected :
  forall (x : Sql.Externals W) (c : Sql.Connections W) (ctx : Ctx)
         (opts : Sql.TxOptions) (w : W),
    let w' := (Sql.selector c ctx (Sql.connections c) w).2 in
    match (Sql.selector c ctx (Sql.connections c) w).1 with
    | None =>
        Sql.Connections_BeginTxx x c ctx opts w = (Fail ErrConnNotSelected, w', [])
    | Some raw =>
        Sql.Connections_BeginTxx x c ctx opts w =
        ((Sql.sqlx_BeginTxx x (Sql.Conn raw) ctx opts w').1,
         (Sql.sqlx_BeginTxx x (Sql.Conn raw) ctx opts w').2,
         [Sql.EvBeginTxx (Sql.Conn raw)])
    end.
Proof.
  intros x c ctx opts w w'. unfold Sql.Connections_BeginTxx.
  rewrite bind_run, sql_Get_run, value_mk, world_mk, trace_mk. fold w'.
  destruct (Sql.selector c ctx (Sql.connections c) w).1 as [raw|];
    [| reflexivity].
  unfold call, value, world, trace.
  by destruct (Sql.sqlx_BeginTxx x (Sql.Conn raw) ctx opts w').
Qed.

(** X10. BeginCtx of the composite over the SQL transactor and the
    key-value transactor hands each child the context the child before
    returned: on success the context returned carries both handles, the
    pipeline over the SQL transaction, and IsTx of the composite is true
    on it; on failure the context returned is nil. *)
Theorem composite_BeginCtx_sql_then_redis :
  forall (xs : Sql.Externals W) (xr : Redis.Externals W)
         (p : Sql.TransactorConnectionProvider W)
         (q : Redis.TransactorClientProvider W) (ctx : Ctx) (w : W),
    let t := Storage.NewTransactor [Sql.NewTransactor xs p;
                                    Redis.NewTransactor xr q] in
    match value (Storage.transactor_BeginCtx t ctx w) with
    | (ctx', Some _) => ctx' = None
    | (ctx', None) =>
        exists tx px,
          ctx' = Some (Redis.SetTx (Sql.SetTx ctx tx) px)
          /\ Sql.GetTx (Redis.SetTx (Sql.SetTx ctx tx) px) = (Some tx, true)
          /\ Redis.GetTx (Redis.SetTx (Sql.SetTx ctx tx) px) = (Some px, true)
          /\ Storage.transactor_IsTx t ctx' = true
    end.
Proof.
  intros xs xr p q ctx w t.
  unfold t, Storage.transactor_BeginCtx. simpl.
  rewrite value_bind, value_call_with, world_call_with. unfold as_step at 1 2.
  set (st := {| Sql.provider := p |}).
  fold (value (Sql.sqlTransactor_BeginCtx xs st ctx w)).
  destruct (sql_BeginCtx_value xs st ctx w) as [[tx ->] | [e ->]]; [| done].
  rewrite value_bind, value_call_with. unfold as_step at 1.
  set (rt := {| Redis.provider := q |}).
  match goal with
  | |- context [(Redis.redisTransactor_BeginCtx rt ?c ?w0).1.1] =>
      fold (value (Redis.redisTransactor_BeginCtx rt c w0));
      destruct (redis_BeginCtx_value rt c w0) as [[px ->] | [e ->]]
  end; [| done].
  exists tx, px. by repeat split.
Qed.

End BeginThenEnd.

(** ** The shard set that ConnectShards builds *)



Section ShardSetBuilt.
Context {W : Type}.









End ShardSetBuilt.

(** ** Keys and replies of the key-value shard client *)

(** A driver whose every read misses: go-redis answers redis.Nil. *)
Definition kv_missing : Redis.Externals nat := {|
  Redis.redis_call := fun _ _ _ _ w => ((Redis.reply_string "", Some RedisNil), S w);
  Redis.redis_NewClient := fun _ _ _ _ _ w => (w, S w);
  Redis.redis_Ping := fun _ w => (None, S w);
  Redis.redis_Pipeline := fun _ w => (w, S w);
  Redis.redis_TxPipeline := fun _ w => (w, S w);
  Redis.redis_Exec := fun _ _ w => (None, S w);
  Redis.redis_Discard := fun _ w => (tt, S w);
  Redis.json_Unmarshal := fun _ _ => None;
  Redis.errorx_Wrap := wrap_error;
  Redis.contextx_Validate := fun _ => None;
  Redis.validate := fun _ key => RedisPart001.validateKey key
|}.

Section KeyValueKeys.
Context {W : Type}.
Variable x : Redis.Externals W.

Lemma validateKey_None key : RedisPart001.validateKey key = None <-> key <> "".
Proof.
  unfold RedisPart001.validateKey.
  destruct (String.eqb_spec key ""); split; intros; congruence.
Qed.

Lemma refused_keys_are_empty keys :
  filter (fun key => ~ RedisPart001.validateKey key = None) keys
  = replicate (length (filter (fun key => ~ RedisPart001.validateKey key = None)
                              keys)) "".
Proof.
  induction keys as [|k ks IH]; [done |].
  rewrite filter_cons. destruct (decide _) as [Hk|Hk]; [| done].
  simpl. rewrite <- IH. f_equal.
  destruct (String.eqb_spec k ""); [done |].
  exfalso. apply Hk. by apply validateKey_None.
Qed.

Lemma validateKeys_Permutation keys : RedisPart001.validateKeys keys ≡ₚ keys.
Proof.
  unfold RedisPart001.validateKeys. cbv zeta.
  set (kept := filter (fun key => RedisPart001.validateKey key = None) keys).
  assert (Hlen : length keys
                 = length kept
                   + length (filter (fun key => ~ RedisPart001.validateKey key = None)
                                    keys)).
  { rewrite <- length_app. apply Permutation_length. symmetry.
    apply filter_app_complement. }
  etrans; [| apply (filter_app_complement
                      (fun key => RedisPart001.validateKey key = None) keys)].
  fold kept. apply Permutation_app_head.
  rewrite refused_keys_are_empty. apply reflexive_eq. f_equal. lia.
Qed.

(** X13. validateKeys does not shorten the slice its caller holds: the
    keys come back in the same number, the non-empty ones first and in
    their order, the empty ones after them. *)
Theorem validateKeys_permutes :
  forall keys : list string,
    length (RedisPart001.validateKeys keys) = length keys
    /\ RedisPart001.validateKeys keys ≡ₚ keys
    /\ (exists n, RedisPart001.validateKeys keys
                  = filter (fun key => key <> "") keys ++ replicate n "").
Proof.
  intros keys. split; [| split].
  - apply Permutation_length, validateKeys_Permutation.
  - apply validateKeys_Permutation.
  - unfold RedisPart001.validateKeys. cbv zeta. eexists. f_equal.
    apply list_filter_iff. intros key. by rewrite validateKey_None.
Qed.


Lemma value_on_target ctx raw cmd acc w :
  value (match Redis.GetTx ctx with
         | (Some tx, true) => Redis.on_pipe x tx ctx cmd acc
         | _ => Redis.on_client x (Redis.Client raw) ctx cmd acc
         end w)
  = (Redis.redis_call x (redis_target ctx raw) ctx cmd acc w).1.
Proof.
  unfold redis_target.
  destruct (Redis.GetTx ctx) as [[tx|] [|]]; apply value_call.
Qed.

Lemma value_selected {A} (c : Redis.shardClient W) ctx w raw
    (k : result Redis.ShardClient -> M Redis.Event W A) :
  (Redis.selector (Redis.shard_clients c) ctx
                  (Redis.clients (Redis.shard_clients c)) w).1 = Some raw ->
  value (bind (Redis.Clients_Get (Redis.shard_clients c) ctx) k w) =
  value (k (Ok raw)
           (Redis.selector (Redis.shard_clients c) ctx
                           (Redis.clients (Redis.shard_clients c)) w).2).
Proof.
  intros Hsel.
  by rewrite value_bind, redis_Get_run, value_mk, world_mk, Hsel.
Qed.

Lemma value_deferWrap {A} method (body : M Redis.Event W (A * error)) w :
  value (RedisPart001.deferWrap x method body w)
  = ((value (body w)).1,
     Redis.errorx_Wrap x RedisPart001.errType (value (body w)).2 method).
Proof.
  unfold RedisPart001.deferWrap. rewrite value_bind.
  by destruct (value (body w)).
Qed.

Lemma value_deferWrap_err method (body : M Redis.Event W error) w :
  value (RedisPart001.deferWrap_err x method body w)
  = Redis.errorx_Wrap x RedisPart001.errType (value (body w)) method.
Proof. unfold RedisPart001.deferWrap_err. by rewrite value_bind. Qed.

End KeyValueKeys.


Section KeyValueReplies.
Context {W : Type}.
Variable x : Redis.Externals W.

(** X15. The reads of one key (Get, GetBytes, GetInt, Parse) on a
    selected shard hand back what go-redis answered, except that an
    error that is redis.Nil is replaced by the package's own not-found
    error for that key; the error then goes through errorx.Wrap.  Parse
    decodes the bytes only when go-redis gave no error. *)
Theorem kv_reads_report_not_found :
  forall (c : Redis.shardClient W) (ctx : Ctx) (key : string) (export : any)
         (w : W) (raw : Redis.ShardClient),
    key <> "" ->
    (Redis.selector (Redis.shard_clients c) ctx
                    (Redis.clients (Redis.shard_clients c)) w).1 = Some raw ->
    let w' := (Redis.selector (Redis.shard_clients c) ctx
                              (Redis.clients (Redis.shard_clients c)) w).2 in
    let answer acc :=
      (Redis.redis_call x (redis_target ctx raw) ctx (Redis.CmdGet key) acc w').1 in
    let reported (err : error) : error :=
      match err with
      | Some e => if Redis.is_redis_Nil e
                  then Some (RedisPart001.key_not_found key) else Some e
      | None => None
      end in
    let wrap := Redis.errorx_Wrap x RedisPart001.errType in
    value (RedisPart001.shardClient_Get x c ctx key w)
    = ((answer Redis.Result).1, wrap (reported (answer Redis.Result).2) "Get")
    /\ value (RedisPart001.shardClient_GetBytes x c ctx key w)
       = ((answer Redis.Bytes).1, wrap (reported (answer Redis.Bytes).2) "Get")
    /\ value (RedisPart001.shardClient_GetInt x c ctx key w)
       = ((answer Redis.Int).1, wrap (reported (answer Redis.Int).2) "GetInt")
    /\ value (RedisPart001.shardClient_Parse x c ctx key export w)
       = wrap (match (answer Redis.Bytes).2 with
               | Some e => reported (Some e)
               | None => Redis.json_Unmarshal x (answer Redis.Bytes).1 export
               end) "Parse".
Proof.
  intros c ctx key export w raw Hkey Hsel. cbv zeta.
  apply validateKey_None in Hkey.
  unfold RedisPart001.shardClient_Get, RedisPart001.shardClient_GetBytes,
    RedisPart001.shardClient_GetInt, RedisPart001.shardClient_Parse.
  rewrite !value_deferWrap, value_deferWrap_err, Hkey.
  rewrite !(value_selected _ _ _ _ _ Hsel), !value_bind, !value_on_target.
  repeat split.
  all: match goal with
       | |- context [Redis.redis_call x ?t ?c0 ?cmd ?acc ?w0] =>
           destruct (Redis.redis_call x t c0 cmd acc w0).1 as [r [e|]]
       end; simpl; try destruct (Redis.is_redis_Nil e); reflexivity.
Qed.

(** X16. TTL on a selected shard hands back the duration go-redis
    answered; when go-redis gave no error and the duration is -2, the
    error is ErrNotFound. *)
Theorem kv_TTL_of_missing_key :
  forall (c : Redis.shardClient W) (ctx : Ctx) (key : string) (w : W)
         (raw : Redis.ShardClient),
    key <> "" ->
    (Redis.selector (Redis.shard_clients c) ctx
                    (Redis.clients (Redis.shard_clients c)) w).1 = Some raw ->
    let w' := (Redis.selector (Redis.shard_clients c) ctx
                              (Redis.clients (Redis.shard_clients c)) w).2 in
    let answer :=
      (Redis.redis_call x (redis_target ctx raw) ctx (Redis.CmdTTL key)
                        Redis.Result w').1 in
    value (RedisPart001.shardClient_TTL x c ctx key w)
    = (answer.1,
       Redis.errorx_Wrap x RedisPart001.errType
         (match answer with
          | (_, Some e) => Some e
          | (Redis.reply_int d, None) =>
              if (d =? -2)%Z then Some ErrNotFound else None
          | (_, None) => None
          end) "TTL").
Proof.
  intros c ctx key w raw Hkey Hsel. cbv zeta.
  apply validateKey_None in Hkey.
  unfold RedisPart001.shardClient_TTL.
  rewrite value_deferWrap, Hkey.
  rewrite (value_selected _ _ _ _ _ Hsel), value_bind, value_on_target.
  destruct (Redis.redis_call x _ ctx _ _ _).1 as [r [e|]];
    destruct r as [| | d | | | | | |]; rewrite ?value_ret; try reflexivity.
  unfold RedisPart001.notExistKey. by destruct (d =? -2)%Z.
Qed.

(** X17. A command on an empty key is refused before a shard is asked
    for: the selector is not run, no command is sent, and the error is
    ErrKeyEmpty through errorx.Wrap; Rename says which of its two keys
    was the empty one. *)
Theorem kv_empty_key_refused_before_selection :
  forall (c : Redis.shardClient W) (ctx : Ctx) (value : any)
         (ttl : list Redis.Duration) (other : string) (w : W),
    let wrap := Redis.errorx_Wrap x RedisPart001.errType in
    RedisPart001.shardClient_Get x c ctx "" w
    = ((Redis.reply_string "", wrap (Some ErrKeyEmpty) "Get"), w, [])
    /\ RedisPart001.shardClient_Set x c ctx "" value ttl w
       = (wrap (Some ErrKeyEmpty) "Set", w, [])
    /\ RedisPart001.shardClient_Rename x c ctx "" other w
       = (wrap (Some (ErrNewOn "Old key is invalid" ErrKeyEmpty [])) "Rename",
          w, [])
    /\ (other <> "" ->
        RedisPart001.shardClient_Rename x c ctx other "" w
        = (wrap (Some (ErrNewOn "New key is invalid" ErrKeyEmpty [])) "Rename",
           w, [])).
Proof.
  intros c ctx v ttl other w. cbv zeta. repeat split.
  intros Hother. apply validateKey_None in Hother.
  unfold RedisPart001.shardClient_Rename. by rewrite Hother.
Qed.

End KeyValueReplies.

Lemma kv_reads_report_not_found_witness :
  value (RedisPart001.shardClient_Get kv_missing kv_shards Background "k" 0)
  = (Redis.reply_string "",
     Some (ErrWrapped "Redis" "Get" (RedisPart001.key_not_found "k")))
  /\ value (RedisPart001.shardClient_Parse kv_missing kv_shards ctx_in_tx "k"
                                           any_nil 0)
     = Some (ErrWrapped "Redis" "Parse" (RedisPart001.key_not_found "k")).
Proof.
  assert (Hk : "k" <> "") by done.
  destruct (kv_reads_report_not_found kv_missing kv_shards Background "k"
              any_nil 0 kv_A Hk eq_refl) as (Hget & _).
  destruct (kv_reads_report_not_found kv_missing kv_shards ctx_in_tx "k"
              any_nil 0 kv_A Hk eq_refl) as (_ & _ & _ & Hparse).
  split; [exact Hget | exact Hparse].
Defined.

(** A driver that answers every TTL with -2. *)
Definition kv_no_ttl : Redis.Externals nat := {|
  Redis.redis_call := fun _ _ _ _ w => ((Redis.reply_int (-2), None), S w);
  Redis.redis_NewClient := fun _ _ _ _ _ w => (w, S w);
  Redis.redis_Ping := fun _ w => (None, S w);
  Redis.redis_Pipeline := fun _ w => (w, S w);
  Redis.redis_TxPipeline := fun _ w => (w, S w);
  Redis.redis_Exec := fun _ _ w => (None, S w);
  Redis.redis_Discard := fun _ w => (tt, S w);
  Redis.json_Unmarshal := fun _ _ => None;
  Redis.errorx_Wrap := wrap_error;
  Redis.contextx_Validate := fun _ => None;
  Redis.validate := fun _ key => RedisPart001.validateKey key
|}.

Lemma kv_TTL_of_missing_key_witness :
  value (RedisPart001.shardClient_TTL kv_no_ttl kv_shards Background "k" 0)
  = (Redis.reply_int (-2), Some (ErrWrapped "Redis" "TTL" ErrNotFound)).
Proof.
  assert (Hk : "k" <> "") by done.
  exact (kv_TTL_of_missing_key kv_no_ttl kv_shards Background "k" 0 kv_A Hk
                               eq_refl).
Defined.

(** ** The single SQL client *)



Section SingleClient.
Context {W : Type}.
Variable x : Sql.Externals W.







End SingleClient.




(** ** Pagination *)

Lemma wrap64_small (z : Z) :
  (- 2 ^ 63 <= z < 2 ^ 63)%Z -> SqlSingle.wrap64 z = z.
Proof.
  intros Hz. unfold SqlSingle.wrap64.
  rewrite Z.mod_small; lia.
Qed.

(** X20. Page treats page 0 as page 1.  From page 1 on, as long as the
    product does not leave the range of int, the offset is
    [(page - 1) * pageSize], so that each page begins where the one
    before it ends. *)
Theorem Page_tiles :
  forall pageSize page : Z,
    (0 <= pageSize < 2 ^ 63)%Z -> (1 <= page < 2 ^ 63 - 1)%Z ->
    (page * pageSize < 2 ^ 63)%Z ->
    SqlSingle.Page pageSize 0 = SqlSingle.Page pageSize 1
    /\ SqlSingle.Page pageSize 1 = (0%Z, pageSize)
    /\ SqlSingle.Page pageSize page = (((page - 1) * pageSize)%Z, pageSize)
    /\ (SqlSingle.Page pageSize (page + 1)).1
       = ((SqlSingle.Page pageSize page).1 + (SqlSingle.Page pageSize page).2)%Z.
Proof.
  intros pageSize page Hsize Hpage Hprod.
  assert (Hoff : forall p, (1 <= p <= page + 1)%Z ->
                           SqlSingle.Page pageSize p
                           = (((p - 1) * pageSize)%Z, pageSize)).
  { intros p Hp. unfold SqlSingle.Page.
    destruct (Z.eqb_spec p 0) as [-> | _]; [lia |]. cbv zeta.
    rewrite (wrap64_small (p - 1)) by lia.
    rewrite wrap64_small; [done | nia]. }
  split; [done |]. split; [by rewrite Hoff by lia |].
  split; [by rewrite Hoff by lia |].
  rewrite !Hoff by lia. simpl. lia.
Qed.

Lemma Page_tiles_witness :
  SqlSingle.Page 20 0 = SqlSingle.Page 20 1
  /\ SqlSingle.Page 20 1 = (0%Z, 20%Z)
  /\ SqlSingle.Page 20 3 = (40%Z, 20%Z)
  /\ (SqlSingle.Page 20 4).1 = (40 + 20)%Z.
Proof.
  apply (Page_tiles 20 3); lia.
Defined.

(** ** Query arguments *)

(** The placeholders "$from", ..., "$(from + n - 1)". *)
Definition placeholders (from n : nat) : list string :=
  (fun i => ("$" ++ SqlArguments.Sprintf_d (Z.of_nat i))%string) <$> seq from n.

Section QueryArguments.

Lemma Add_NewArguments (xs : list any) (arg : any) :
  (Z.of_nat (length xs) + 1 < 2 ^ 63)%Z ->
  SqlArguments.Add (SqlArguments.NewArguments xs) arg
  = SqlArguments.NewArguments (xs ++ [arg]).
Proof.
  intros Hlen. unfold SqlArguments.Add, SqlArguments.NewArguments. simpl.
  f_equal. rewrite wrap64_small by lia. rewrite length_app. simpl. lia.
Qed.

Lemma AddMany_loop_run (rest : list any) :
  forall (xs : list any) (values : string) (idx n : nat),
    idx + length rest = n ->
    (Z.of_nat (length xs + length rest) < 2 ^ 63)%Z ->
    SqlArguments.AddMany_loop (SqlArguments.NewArguments xs) values idx n rest
    = ((values ++ String.concat ", "
                    (placeholders (S (length xs)) (length rest)))%string,
       SqlArguments.NewArguments (xs ++ rest)).
Proof.
  induction rest as [|arg rest IH]; intros xs values idx n Hidx Hlen.
  - simpl. by rewrite string_app_nil_r, app_nil_r.
  - cbn [SqlArguments.AddMany_loop]. cbv zeta.
    simpl in Hidx, Hlen.
    rewrite Add_NewArguments by lia.
    assert (Hnum : SqlArguments.Number (SqlArguments.NewArguments (xs ++ [arg]))
                   = ("$" ++ SqlArguments.Sprintf_d (Z.of_nat (S (length xs))))%string).
    { unfold SqlArguments.Number, SqlArguments.NewArguments. simpl.
      rewrite length_app. simpl. do 3 f_equal. lia. }
    rewrite Hnum.
    assert (Hlen' : length (xs ++ [arg]) = S (length xs))
      by (rewrite length_app; simpl; lia).
    rewrite (IH (xs ++ [arg]) _ (S idx) n) by (rewrite ?Hlen'; lia).
    rewrite Hlen', <- app_assoc. simpl. f_equal.
    destruct rest as [|arg' rest'].
    + replace (idx <? n - 1)%nat with false
        by (symmetry; apply Nat.ltb_ge; simpl in Hidx; lia).
      simpl. by rewrite string_app_nil_r.
    + replace (idx <? n - 1)%nat with true
        by (symmetry; apply Nat.ltb_lt; simpl in Hidx; lia).
      cbn [length placeholders seq fmap list_fmap].
      by rewrite !string_app_assoc.
Qed.

(** X21. Arguments keeps its counter at the number of its arguments.
    Adding [more] to the arguments [initial] leaves the object that
    NewArguments makes of [initial ++ more], and the string AddMany
    returns lists, between brackets, the placeholders of the new
    arguments: "$k" for the argument at position k (from 1) of Args.
    With nothing to add AddMany returns the empty string and changes
    nothing. *)
Theorem AddMany_placeholders :
  forall initial more : list any,
    more <> [] ->
    (Z.of_nat (length initial + length more) < 2 ^ 63)%Z ->
    SqlArguments.AddMany (SqlArguments.NewArguments initial) more
    = (("(" ++ String.concat ", "
                 (placeholders (S (length initial)) (length more)) ++ ")")%string,
       SqlArguments.NewArguments (initial ++ more))
    /\ SqlArguments.Args (SqlArguments.AddMany (SqlArguments.NewArguments initial)
                                               more).2
       = initial ++ more
    /\ SqlArguments.AddMany (SqlArguments.NewArguments initial) []
       = ("", SqlArguments.NewArguments initial).
Proof.
  intros initial more Hmore Hlen.
  assert (Hrun : SqlArguments.AddMany (SqlArguments.NewArguments initial) more
                 = (("(" ++ String.concat ", "
                       (placeholders (S (length initial)) (length more)) ++ ")")%string,
                    SqlArguments.NewArguments (initial ++ more))).
  { unfold SqlArguments.AddMany.
    destruct more as [|arg more]; [done |]. cbn [length Nat.eqb].
    rewrite (AddMany_loop_run (arg :: more) initial "(" 0 (S (length more)))
      by (simpl in *; lia).
    by rewrite string_app_assoc. }
  split; [exact Hrun |]. split; [by rewrite Hrun | done].
Qed.

End QueryArguments.

Lemma AddMany_placeholders_witness :
  SqlArguments.AddMany (SqlArguments.NewArguments [any_int 7])
                       [any_string "a"; any_string "b"; any_string "c"]
  = ("($2, $3, $4)",
     SqlArguments.NewArguments
       [any_int 7; any_string "a"; any_string "b"; any_string "c"]).
Proof.
  assert (Hmore : [any_string "a"; any_string "b"; any_string "c"] <> [])
    by discriminate.
  assert (Hlen : (Z.of_nat (length [any_int 7]
                            + length [any_string "a"; any_string "b";
                                      any_string "c"]) < 2 ^ 63)%Z)
    by (simpl; lia).
  exact (proj1 (AddMany_placeholders [any_int 7]
                  [any_string "a"; any_string "b"; any_string "c"] Hmore Hlen)).
Defined.

(** ** Transaction and Atomic *)

Section TransactionHelpers.
Context {W : Type}.
Variable x : SqlAtomic.Externals W.



End TransactionHelpers.

Section TryCommit.
Context {W : Type}.
Variable x : Sql.Externals W.


End TryCommit.

(** ** Closing a shard set *)

Section CloseAll.
Context {W : Type}.




End CloseAll.





Section CloseShardSet.
Context {W : Type}.



End CloseShardSet.



